(** * XMLtoICS: the conversion engine of mxl_to_ics_impl.py and __init__.py

    A shallow embedding of the two Python modules that turn a schedule
    export (XML) into an iCalendar document, and the properties the
    specification states about them.

    Python [str] is [string]; a character is an [ascii] code point below
    256.  [None]-able values are [option]s, raised exceptions are the
    [Raise] branch of [result].  The parsed XML tree is the input of the
    model: [xml.etree.ElementTree] itself is not part of the repository. *)

From Stdlib Require Import ZArith Lia Ascii.
From Equations Require Import Equations.
From stdpp Require Import gmap strings list.

#[local] Arguments String.append _ _ : simpl nomatch.
#[local] Open Scope Z_scope.

(** ** Python primitives used by the two modules *)
Module Py.

(** Exceptions.  [ValueError msg] is raised by the repository's own code
    with the message [msg].  [IsoformatError arg] stands for the
    [ValueError] that [datetime.fromisoformat arg] raises; the text of
    that message belongs to the library and is not modelled.
    [AttributeError] is what a method call on [None] raises. *)
Inductive exn : Type :=
  | ValueError (msg : string)
  | IsoformatError (arg : string)
  | AttributeError (msg : string).

Inductive result (A : Type) : Type :=
  | Ok (a : A)
  | Raise (e : exn).
Arguments Ok {A} a.
Arguments Raise {A} e.

Definition bind {A B : Type} (r : result A) (k : A → result B) : result B :=
  match r with
  | Ok a => k a
  | Raise e => Raise e
  end.

(** [s[:n]] and [s[n:]] for [n >= 0]. *)
Fixpoint take (n : nat) (s : string) : string :=
  match n, s with
  | S n', String c s' => String c (take n' s')
  | _, _ => ""
  end.

Fixpoint drop (n : nat) (s : string) : string :=
  match n, s with
  | S n', String _ s' => drop n' s'
  | _, _ => s
  end.

(** [s.startswith(p)] and [s.endswith(p)]. *)
Fixpoint startswith (p s : string) : bool :=
  match p, s with
  | "", _ => true
  | String a p', String b s' => bool_decide (a = b) && startswith p' s'
  | String _ _, "" => false
  end.

Definition endswith (p s : string) : bool :=
  bool_decide (String.length p ≤ String.length s)%nat
  && bool_decide (drop (String.length s - String.length p) s = p).

(** [s.replace(old, new)] for a non-empty [old]: the occurrences are
    taken from the left and do not overlap.  [skip] counts the
    characters of a matched occurrence that are still to be passed. *)
Fixpoint replace_from (old new : string) (skip : nat) (s : string) : string :=
  match s with
  | "" => ""
  | String c s' =>
      match skip with
      | S k => replace_from old new k s'
      | O =>
          if startswith old s
          then new +:+ replace_from old new (String.length old - 1) s'
          else String c (replace_from old new O s')
      end
  end.

Definition replace (old new s : string) : string := replace_from old new O s.

(** [s.find(c)] for a single character: the first index, or [None] for -1. *)
Fixpoint find (c : ascii) (s : string) : option nat :=
  match s with
  | "" => None
  | String a s' => if bool_decide (a = c) then Some O else S <$> find c s'
  end.

(** Case mapping.  On ASCII letters this is Python's; a code point in
    128..255 is left alone, which agrees with Python on every comparison
    the code makes: none of them lower-cases to an ASCII letter and none
    of them capitalises to ["W"]. *)
Definition is_upper (c : ascii) : bool :=
  (65 <=? Z.of_N (N_of_ascii c)) && (Z.of_N (N_of_ascii c) <=? 90).
Definition is_lower (c : ascii) : bool :=
  (97 <=? Z.of_N (N_of_ascii c)) && (Z.of_N (N_of_ascii c) <=? 122).

Definition lower_char (c : ascii) : ascii :=
  if is_upper c then ascii_of_N (N_of_ascii c + 32) else c.
Definition upper_char (c : ascii) : ascii :=
  if is_lower c then ascii_of_N (N_of_ascii c - 32) else c.

Fixpoint lower (s : string) : string :=
  match s with
  | "" => ""
  | String c s' => String (lower_char c) (lower s')
  end.

Definition capitalize (s : string) : string :=
  match s with
  | "" => ""
  | String c s' => String (upper_char c) (lower s')
  end.

(** [s.strip()]: the white space of [str.isspace] below code point 256. *)
Definition is_space (c : ascii) : bool :=
  let n := Z.of_N (N_of_ascii c) in
  ((9 <=? n) && (n <=? 13)) || ((28 <=? n) && (n <=? 32))
  || (n =? 133) || (n =? 160).

Fixpoint lstrip (s : string) : string :=
  match s with
  | String c s' => if is_space c then lstrip s' else s
  | "" => ""
  end.

Fixpoint rstrip (s : string) : string :=
  match s with
  | "" => ""
  | String c s' =>
      match rstrip s' with
      | "" => if is_space c then "" else String c ""
      | t => String c t
      end
  end.

Definition strip (s : string) : string := rstrip (lstrip s).

(** Truth value of an optional string: [None] and [""] are false. *)
Definition truthy (o : option string) : bool :=
  match o with
  | Some (String _ _) => true
  | _ => false
  end.

(** [a or b] on optional strings. *)
Definition or_else (a b : option string) : option string :=
  if truthy a then a else b.

(** The characters CR, LF and backslash, and the line terminator. *)
Definition CR : ascii := ascii_of_N 13.
Definition LF : ascii := ascii_of_N 10.
Definition BACKSLASH : ascii := ascii_of_N 92.
Definition CRLF : string := String CR (String LF "").

(** [len(s[n:])], used for the termination of the folding loop. *)
Lemma length_drop (n : nat) (s : string) :
  String.length (drop n s) = (String.length s - n)%nat.
Proof.
  revert s; induction n as [|n IH]; intros [|c s]; simpl; auto.
Qed.

End Py.
Import Py.

Notation "x ←? r ; k" := (bind r (fun x => k))
  (at level 20, r at level 100, k at level 200, right associativity,
   only parsing).
Notation "' p ←? r ; k" := (bind r (fun p => k))
  (at level 20, p pattern, r at level 100, k at level 200,
   right associativity, only parsing).

(** ** The standard library's [datetime]

    [datetime] is Python's class with the time zone left out: every value
    the two modules keep has gone through [replace(tzinfo=timezone.utc)],
    so all of them are UTC.

    [fromisoformat] follows the implementation that CPython 3.11 runs
    (Modules/_datetimemodule.c), which reads the extended and the basic
    ISO 8601 forms and works on the UTF-8 bytes of the text.  [strftime]
    is that of CPython 3.11 on glibc: [%Y] is not padded. *)
Module Datetime.

Record datetime : Type := mk_datetime {
  year : Z; month : Z; day : Z;
  hour : Z; minute : Z; second : Z; microsecond : Z
}.

Definition MINYEAR : Z := 1.
Definition MAXYEAR : Z := 9999.

Definition is_leap (y : Z) : bool :=
  (y mod 4 =? 0) && (negb (y mod 100 =? 0) || (y mod 400 =? 0)).

Definition DAYS_IN_MONTH : list Z :=
  [-1; 31; 28; 31; 30; 31; 30; 31; 31; 30; 31; 30; 31].
Definition DAYS_BEFORE_MONTH : list Z :=
  [-1; 0; 31; 59; 90; 120; 151; 181; 212; 243; 273; 304; 334].

Definition days_in_month (y m : Z) : Z :=
  if (m =? 2) && is_leap y then 29 else nth (Z.to_nat m) DAYS_IN_MONTH 0.

Definition days_before_month (y m : Z) : Z :=
  nth (Z.to_nat m) DAYS_BEFORE_MONTH 0
  + (if (2 <? m) && is_leap y then 1 else 0).

Definition days_before_year (y : Z) : Z :=
  let y := y - 1 in y * 365 + y / 4 - y / 100 + y / 400.

Definition ymd2ord (y m d : Z) : Z :=
  days_before_year y + days_before_month y m + d.

Definition DI400Y : Z := 146097.
Definition DI100Y : Z := 36524.
Definition DI4Y : Z := 1461.

Definition ord2ymd (n : Z) : Z * Z * Z :=
  let n := n - 1 in
  let n400 := n / DI400Y in
  let n := n mod DI400Y in
  let y := n400 * 400 + 1 in
  let n100 := n / DI100Y in
  let n := n mod DI100Y in
  let n4 := n / DI4Y in
  let n := n mod DI4Y in
  let n1 := n / 365 in
  let n := n mod 365 in
  let y := y + n100 * 100 + n4 * 4 + n1 in
  if (n1 =? 4) || (n100 =? 4) then (y - 1, 12, 31)
  else
    let leapyear := (n1 =? 3) && (negb (n4 =? 24) || (n100 =? 3)) in
    let m := (n + 50) / 32 in
    let preceding :=
      nth (Z.to_nat m) DAYS_BEFORE_MONTH 0
      + (if (2 <? m) && leapyear then 1 else 0) in
    if n <? preceding then
      let m := m - 1 in
      let preceding :=
        preceding - (nth (Z.to_nat m) DAYS_IN_MONTH 0
                     + (if (m =? 2) && leapyear then 1 else 0)) in
      (y, m, n - preceding + 1)
    else (y, m, n - preceding + 1).

Definition isoweek1monday (y : Z) : Z :=
  let firstday := ymd2ord y 1 1 in
  let firstweekday := (firstday + 6) mod 7 in
  let week1monday := firstday - firstweekday in
  if 3 <? firstweekday then week1monday + 7 else week1monday.

(** The date of an ISO week date.  The year 0 has no week dates: the
    calendar arithmetic leaves the months 1..12 there, and the constructor
    rejects the result. *)
Definition isoweek_to_gregorian (y week d : Z) : option (Z * Z * Z) :=
  if negb ((MINYEAR <=? y) && (y <=? MAXYEAR)) then None
  else
    let first_weekday := ymd2ord y 1 1 mod 7 in
    let week_ok :=
      ((0 <? week) && (week <? 53))
      || ((week =? 53)
          && ((first_weekday =? 4) || ((first_weekday =? 3) && is_leap y))) in
    if negb week_ok then None
    else if negb ((0 <? d) && (d <? 8)) then None
    else Some (ord2ymd (isoweek1monday y + ((week - 1) * 7 + (d - 1)))).

(** The constructor [datetime(...)] with its range checks. *)
Definition check_fields (y m d hh mm ss us : Z) : bool :=
  (MINYEAR <=? y) && (y <=? MAXYEAR)
  && (1 <=? m) && (m <=? 12)
  && (1 <=? d) && (d <=? days_in_month y m)
  && (0 <=? hh) && (hh <=? 23)
  && (0 <=? mm) && (mm <=? 59)
  && (0 <=? ss) && (ss <=? 59)
  && (0 <=? us) && (us <=? 999999).

Definition new_datetime (y m d hh mm ss us : Z) : option datetime :=
  if check_fields y m d hh mm ss us
  then Some (mk_datetime y m d hh mm ss us)
  else None.

(** Digits. *)
Definition is_ascii_digit (c : ascii) : bool :=
  (48 <=? Z.of_N (N_of_ascii c)) && (Z.of_N (N_of_ascii c) <=? 57).

Definition digit_value (c : ascii) : Z := Z.of_N (N_of_ascii c) - 48.

(** The text as the C code reads it: its UTF-8 bytes (two for a code
    point in 128..255), with a NUL after the last one. *)
Fixpoint utf8 (s : string) : string :=
  match s with
  | "" => ""
  | String c s' =>
      let n := N_of_ascii c in
      if (n <? 128)%N then String c (utf8 s')
      else String (ascii_of_N (192 + n / 64))
             (String (ascii_of_N (128 + n mod 64)) (utf8 s'))
  end.

Definition NUL : ascii := ascii_of_N 0.

(** [p[i]] *)
Definition byte_at (buf : string) (i : nat) : ascii :=
  match String.get i buf with
  | Some c => c
  | None => NUL
  end.

Definition byte_is (buf : string) (i : nat) (c : ascii) : bool :=
  bool_decide (byte_at buf i = c).

(** [parse_digits(ptr, var, num_digits)]: the value read, [None] for a
    NULL result; the pointer returned is [pos + num_digits]. *)
Fixpoint parse_digits (buf : string) (pos num_digits : nat) (var : Z)
    : option Z :=
  match num_digits with
  | O => Some var
  | S n =>
      let c := byte_at buf pos in
      if is_ascii_digit c
      then parse_digits buf (S pos) n (var * 10 + digit_value c)
      else None
  end.

(** The number of leading digits of [s]. *)
Fixpoint digit_run (s : string) : nat :=
  match s with
  | String c s' => if is_ascii_digit c then S (digit_run s') else O
  | "" => O
  end.

(** [_find_isoformat_datetime_separator]; [None] is the result -1. *)
Definition find_isoformat_datetime_separator (dtstr : string) (len : nat)
    : option nat :=
  if (len =? 7)%nat then Some 7%nat
  else if byte_is dtstr 4 "-" then
    if byte_is dtstr 5 "W" then
      if (len <? 8)%nat then None
      else if (8 <? len)%nat && byte_is dtstr 8 "-" then
        if (len =? 9)%nat then None
        else if (10 <? len)%nat && is_ascii_digit (byte_at dtstr 10)
        then Some 8%nat
        else Some 10%nat
      else Some 8%nat
    else Some 10%nat
  else if byte_is dtstr 4 "W" then
    let idx := (7 + digit_run (drop 7 dtstr))%nat in
    if (idx <? 9)%nat then Some idx
    else if Nat.even idx then Some 7%nat
    else Some 8%nat
  else Some 8%nat.

(** [parse_isoformat_date(dtstr, len, ...)]: the date at the start of the
    buffer; [len] is the separator location. *)
Definition parse_isoformat_date (dtstr : string) (len : nat)
    : option (Z * Z * Z) :=
  y ← parse_digits dtstr 0 4 0;
  let uses_separator := byte_is dtstr 4 "-" in
  let p := if uses_separator then 5%nat else 4%nat in
  if byte_is dtstr p "W" then
    let p := S p in
    iso_week ← parse_digits dtstr p 2 0;
    let p := (p + 2)%nat in
    if (p <? len)%nat then
      if uses_separator && negb (byte_is dtstr p "-") then None
      else
        let p := if uses_separator then S p else p in
        iso_day ← parse_digits dtstr p 1 0;
        isoweek_to_gregorian y iso_week iso_day
    else isoweek_to_gregorian y iso_week 1
  else
    m ← parse_digits dtstr p 2 0;
    let p := (p + 2)%nat in
    if uses_separator && negb (byte_is dtstr p "-") then None
    else
      let p := if uses_separator then S p else p in
      d ← parse_digits dtstr p 2 0;
      Some (y, m, d).

Definition FRACTION_CORRECTION : list Z := [100000; 10000; 1000; 100; 10].

(** How the loop over HH, MM, SS of [parse_hh_mm_ss_ff] is left: by a
    [return] (with "the string goes on"), or towards the fraction that
    starts at [p]. *)
Inductive hms_end : Type :=
  | hms_return (more : bool)
  | hms_fraction (p : nat).

(** The loop [for (i = 0; i < 3; ++i)]: [fuel] iterations are left.  It
    returns the components read (the others stay 0). *)
Fixpoint parse_hms (fuel i : nat) (has_separator : bool) (buf : string)
    (p p_end : nat) : option (list Z * hms_end) :=
  match fuel with
  | O => Some ([], hms_fraction p)
  | S fuel' =>
      v ← parse_digits buf p 2 0;
      let c := byte_at buf (p + 2) in
      let p := (p + 3)%nat in
      let has_separator :=
        if (i =? 0)%nat then bool_decide (c = ":"%char) else has_separator in
      if (p_end <=? p)%nat
      then Some ([v], hms_return (negb (bool_decide (c = NUL))))
      else if has_separator && bool_decide (c = ":"%char) then
        '(vs, e) ← parse_hms fuel' (S i) has_separator buf p p_end;
        Some (v :: vs, e)
      else if bool_decide (c = "."%char) || bool_decide (c = ","%char)
      then Some ([v], hms_fraction p)
      else if negb has_separator then
        '(vs, e) ← parse_hms fuel' (S i) has_separator buf (p - 1) p_end;
        Some (v :: vs, e)
      else None
  end.

(** [parse_hh_mm_ss_ff(tstr, tstr_end, ...)] on the bytes from [p] to
    [p_end]; the last component is the return code 1, "not the end of the
    string". *)
Definition parse_hh_mm_ss_ff (buf : string) (p p_end : nat)
    : option (Z * Z * Z * Z * bool) :=
  '(vals, e) ← parse_hms 3 0 true buf p p_end;
  let hh := nth 0 vals 0 in
  let mm := nth 1 vals 0 in
  let ss := nth 2 vals 0 in
  match e with
  | hms_return more => Some (hh, mm, ss, 0, more)
  | hms_fraction p =>
      let len_remains := (p_end - p)%nat in
      let to_parse := if (6 <=? len_remains)%nat then 6%nat else len_remains in
      f ← parse_digits buf p to_parse 0;
      let us :=
        if (to_parse <? 6)%nat
        then f * nth (to_parse - 1) FRACTION_CORRECTION 0
        else f in
      (* skip truncated digits *)
      let p := (p + to_parse + digit_run (drop (p + to_parse) buf))%nat in
      Some (hh, mm, ss, us, negb (bool_decide (byte_at buf p = NUL)))
  end.

(** The first of Z, + and - at or after [p]. *)
Fixpoint find_tzinfo (s : string) : option nat :=
  match s with
  | "" => None
  | String c s' =>
      if bool_decide (c = "Z"%char) || bool_decide (c = "+"%char)
         || bool_decide (c = "-"%char)
      then Some O
      else S <$> find_tzinfo s'
  end.

(** [new_timezone] accepts an offset strictly inside one day. *)
Definition tz_offset_ok (c : Z * Z * Z * Z) : bool :=
  let '(hh, mm, ss, us) := c in
  ((hh * 3600 + mm * 60 + ss) * 1000000 + us <? 86400 * 1000000).

(** [parse_isoformat_time(dtstr, dtlen, ...)] on the [dtlen] bytes from
    [p]; the offset is parsed and checked, and then dropped, as the
    callers overwrite it. *)
Definition parse_isoformat_time (buf : string) (p dtlen : nat)
    : option (Z * Z * Z * Z) :=
  let p_end := (p + dtlen)%nat in
  let tzinfo_pos :=
    match find_tzinfo (drop p buf) with
    | Some i => (p + i)%nat
    | None => Nat.max p_end (S p)
    end in
  '(hh, mm, ss, us, more) ← parse_hh_mm_ss_ff buf p tzinfo_pos;
  if (tzinfo_pos =? p_end)%nat then
    if negb more then Some (hh, mm, ss, us) else None
  else if byte_is buf tzinfo_pos "Z" then
    if byte_is buf (S tzinfo_pos) NUL then Some (hh, mm, ss, us) else None
  else
    '(tzh, tzm, tzs, tzus, more) ← parse_hh_mm_ss_ff buf (S tzinfo_pos) p_end;
    if negb more && tz_offset_ok (tzh, tzm, tzs, tzus)
    then Some (hh, mm, ss, us)
    else None.

(** [datetime.fromisoformat]: the text has at least 7 characters; the
    date runs up to the separator, which is one character of any kind. *)
Definition fromisoformat (date_string : string) : option datetime :=
  if (String.length date_string <? 7)%nat then None
  else
    let dt_ptr := utf8 date_string in
    let len := String.length dt_ptr in
    separator_location ← find_isoformat_datetime_separator dt_ptr len;
    '(y, m, d) ← parse_isoformat_date dt_ptr separator_location;
    '(hh, mm, ss, us) ←
      (if (separator_location <? len)%nat then
         let width :=
           if (N_of_ascii (byte_at dt_ptr separator_location) <? 128)%N
           then 1%nat else 2%nat in
         let p := (separator_location + width)%nat in
         parse_isoformat_time dt_ptr p (len - p)
       else Some (0, 0, 0, 0));
    new_datetime y m d hh mm ss us.

(** [strftime]: the fields of two digits are zero-padded; [%Y] is the
    year in decimal without padding, as the C library of the platform
    (glibc) writes it.  The year of a [datetime] is in 1..9999. *)
Definition digit_char (d : Z) : ascii := ascii_of_N (48 + Z.to_N d).

Definition zfill2 (n : Z) : string :=
  String (digit_char (n / 10)) (String (digit_char (n mod 10)) "").

Definition zfill4 (n : Z) : string :=
  String (digit_char (n / 1000))
    (String (digit_char (n / 100 mod 10))
       (String (digit_char (n / 10 mod 10))
          (String (digit_char (n mod 10)) ""))).

Definition decimal_year (y : Z) : string :=
  if y <? 10 then String (digit_char y) ""
  else if y <? 100 then zfill2 y
  else if y <? 1000 then String (digit_char (y / 100)) (zfill2 (y mod 100))
  else zfill4 y.

(** [dt.strftime("%Y%m%d")] *)
Definition strftime_date (dt : datetime) : string :=
  decimal_year (year dt) +:+ zfill2 (month dt) +:+ zfill2 (day dt).

(** [dt.strftime("%Y%m%dT%H%M%SZ")] *)
Definition strftime_basic (dt : datetime) : string :=
  strftime_date dt +:+ "T"
  +:+ zfill2 (hour dt) +:+ zfill2 (minute dt) +:+ zfill2 (second dt) +:+ "Z".

End Datetime.
Import Datetime.

(** ** The parsed input

    What [ElementTree] hands to the engine: the [event] children of the
    root, in document order.  [findtext] gives [None] for a missing child
    and the child's text otherwise; only the attributes of a [recurrence]
    child are read. *)
Module Xml.

Record element : Type := mk_element {
  attrib : gmap string string
}.

Record event : Type := mk_event {
  ev_attrib : gmap string string;
  ev_title : option string;
  ev_description : option string;
  ev_start_date : option string;
  ev_end_date : option string;
  ev_location : option string;
  ev_recurrence : option element
}.

(** [d.get(k, default)] *)
Definition get_default (d : gmap string string) (k default : string) : string :=
  match d !! k with
  | Some v => v
  | None => default
  end.

(** [o or ""] *)
Definition or_empty (o : option string) : string :=
  match o with
  | Some s => s
  | None => ""
  end.

End Xml.
Import Xml.

(** ** Regular expressions of the two modules *)
Module Re.

(** The class [[0-9\-:T\.]]. *)
Definition in_class (c : ascii) : bool :=
  is_ascii_digit c
  || bool_decide (c = "-"%char) || bool_decide (c = ":"%char)
  || bool_decide (c = "T"%char) || bool_decide (c = "."%char).

(** The longest prefix of class characters, and what follows it. *)
Fixpoint class_run (s : string) : string * string :=
  match s with
  | String c s' =>
      if in_class c
      then let '(run, rest) := class_run s' in (String c run, rest)
      else ("", s)
  | "" => ("", "")
  end.

(** A match of [\{utcdatetime:U([0-9\-:T\.]+)\}] at the start of [s]; the
    result is group 1.  The closing brace is not in the class, so only
    the longest run of class characters can be followed by it. *)
Definition match_wrapper (s : string) : option string :=
  if startswith "{utcdatetime:U" s then
    match class_run (drop 14 s) with
    | (String c run, String "}" _) => Some (String c run)
    | _ => None
    end
  else None.

(** [re.search(r"\{utcdatetime:U([0-9\-:T\.]+)\}", s)]: group 1 of the
    leftmost match. *)
Fixpoint search_wrapper (s : string) : option string :=
  match match_wrapper s with
  | Some g => Some g
  | None =>
      match s with
      | String _ s' => search_wrapper s'
      | "" => None
      end
  end.

(** [re.sub(r"<[^>]+>", "", s)]: at a ["<"] a tag runs to the next [">"],
    which must not follow at once; [skip] counts the characters of the
    tag that are still to be dropped. *)
Fixpoint sub_tags_from (skip : nat) (s : string) : string :=
  match s with
  | "" => ""
  | String c s' =>
      match skip with
      | S k => sub_tags_from k s'
      | O =>
          if bool_decide (c = "<"%char) then
            match find ">" s' with
            | Some (S i) => sub_tags_from (S (S i)) s'
            | _ => String c (sub_tags_from O s')
            end
          else String c (sub_tags_from O s')
      end
  end.

Definition sub_tags (s : string) : string := sub_tags_from O s.

End Re.
Import Re.

(** ** mxl_to_ics_impl.py *)
Module Impl.

Definition parse_utcdatetime (s : option string) : result (option datetime) :=
  match s with
  | None => Ok None
  | Some s =>
      match search_wrapper s with
      | None =>
          (* Try plain ISO *)
          match fromisoformat (replace "Z" "" s) with
          | Some dt => Ok (Some dt)
          | None => Raise (ValueError ("Unrecognized datetime format: " +:+ s))
          end
      | Some iso =>
          (* Trim milliseconds if present *)
          let iso :=
            if endswith ".000" iso then take (String.length iso - 4) iso
            else iso in
          match fromisoformat iso with
          | Some dt => Ok (Some dt)
          | None => Raise (IsoformatError iso)
          end
      end
  end.

Definition ics_escape (s : option string) : string :=
  match s with
  | None => ""
  | Some s =>
      let s := sub_tags s in
      let s := replace (String BACKSLASH "") (String BACKSLASH (String BACKSLASH "")) s in
      let s := replace ";" (String BACKSLASH ";") s in
      let s := replace "," (String BACKSLASH ",") s in
      (* Normalize newlines *)
      let s := replace CRLF (String BACKSLASH "n") s in
      replace (String LF "") (String BACKSLASH "n") s
  end.

Definition max_len : nat := 75.

(** The [while] loop of [fold_ics_line] together with the final
    [parts.append(line)]: the parts, in order. *)
Equations? fold_parts (line : string) : list string
    by wf (String.length line) lt :=
  fold_parts line with le_lt_dec (String.length line) max_len := {
    | left _ => [line]
    | right Hlen => take max_len line :: fold_parts (" " +:+ drop max_len line) }.
Proof.
  unfold max_len in *.
  change (S (String.length (drop 75 line)) < String.length line)%nat.
  rewrite length_drop. lia.
Qed.

Definition fold_ics_line (line : string) : string :=
  if (String.length line <=? max_len)%nat then line
  else String.concat CRLF (fold_parts line).

Definition dow_map : list string := ["SU"; "MO"; "TU"; "WE"; "TH"; "FR"; "SA"].

(** [[dow_map[i] for i, ch in enumerate(repeat_on) if ch == "1"]], with
    the enumeration starting at [i].  The caller has checked that the
    mask has 7 characters, so the index is in range. *)
Fixpoint active_days (i : nat) (repeat_on : string) : list string :=
  match repeat_on with
  | "" => []
  | String ch s' =>
      if bool_decide (ch = "1"%char)
      then default "" (dow_map !! i) :: active_days (S i) s'
      else active_days (S i) s'
  end.

(** [x.strftime(fmt)] on the result of [parse_utcdatetime]; on [None] the
    attribute lookup fails. *)
Definition strftime_of (fmt : datetime → string) (x : option datetime) : result string :=
  match x with
  | Some dt => Ok (fmt dt)
  | None => Raise (AttributeError "'NoneType' object has no attribute 'strftime'")
  end.

Definition build_rrule (recur_el : option element) : result (option string) :=
  match recur_el with
  | None => Ok None
  | Some recur_el =>
      match attrib recur_el !! "type" with
      | None => Ok None
      | Some rtype =>
          let rtype := capitalize rtype in
          if negb (bool_decide (rtype = "Weekly")) then Ok None
          else
            let interval := get_default (attrib recur_el) "repeat_every" "1" in
            let until_raw :=
              or_else (attrib recur_el !! "until_date")
                      (attrib recur_el !! "unitil_date") in
            let repeat_on := attrib recur_el !! "repeat_on" in
            let byday :=
              if truthy repeat_on
                 && (String.length (or_empty repeat_on) =? 7)%nat
              then
                match active_days 0 (or_empty repeat_on) with
                | [] => None
                | days => Some (String.concat "," days)
                end
              else None in
            let parts := ["FREQ=WEEKLY"; "INTERVAL=" +:+ interval] in
            parts ←?
              (if truthy until_raw then
                 u_dt ←? parse_utcdatetime until_raw;
                 until_str ←? strftime_of strftime_basic u_dt;
                 Ok (parts ++ ["UNTIL=" +:+ until_str])
               else Ok parts);
            let parts :=
              if truthy byday then parts ++ ["BYDAY=" +:+ or_empty byday]
              else parts in
            Ok (Some (String.concat ";" parts))
      end
  end.

Definition dt_to_ics (dt : datetime) : string := strftime_basic dt.

Definition make_uid (event_id : string) (start_dt : datetime) : string :=
  event_id +:+ "-" +:+ dt_to_ics start_dt +:+ "@mxl2ics".

Definition header : list string :=
  ["BEGIN:VCALENDAR"; "PRODID:-//mxl-to-ics//saskpolytech//EN";
   "VERSION:2.0"; "CALSCALE:GREGORIAN"; "METHOD:PUBLISH"].

(** The clock: [now t] is the result of the [t]-th call of
    [datetime.now(timezone.utc)] of a run; the number of calls made so
    far is threaded through the loop. *)
Section Assembler.
Variable now : nat → datetime.

(** One iteration of the loop over the events: the lines it appends. *)
Definition event_lines (ev : event) (t : nat) : result (list string * nat) :=
  let title := strip (or_empty (ev_title ev)) in
  let desc := or_empty (ev_description ev) in
  let start_raw := ev_start_date ev in
  let end_raw := ev_end_date ev in
  let loc := strip (or_empty (ev_location ev)) in
  let recur_el := ev_recurrence ev in
  let is_all_day :=
    bool_decide
      (lower (get_default (ev_attrib ev) "is_allday_event" "False") = "true") in
  start_dt ←? (if truthy start_raw then parse_utcdatetime start_raw else Ok None);
  end_dt ←? (if truthy end_raw then parse_utcdatetime end_raw else Ok None);
  let dtstart :=
    match start_dt with
    | Some dt =>
        if is_all_day then ["DTSTART;VALUE=DATE:" +:+ strftime_date dt]
        else ["DTSTART:" +:+ dt_to_ics dt]
    | None => []
    end in
  let dtend :=
    match end_dt with
    | Some dt =>
        if is_all_day then ["DTEND;VALUE=DATE:" +:+ strftime_date dt]
        else ["DTEND:" +:+ dt_to_ics dt]
    | None => []
    end in
  let '(uid_dt, t) :=
    match start_dt with
    | Some dt => (dt, t)
    | None => (now t, S t)
    end in
  let uid := make_uid (get_default (ev_attrib ev) "id" "x") uid_dt in
  let summary := [fold_ics_line ("SUMMARY:" +:+ ics_escape (Some title))] in
  let description :=
    if truthy (Some desc)
    then [fold_ics_line ("DESCRIPTION:" +:+ ics_escape (Some desc))] else [] in
  let location :=
    if truthy (Some loc)
    then [fold_ics_line ("LOCATION:" +:+ ics_escape (Some loc))] else [] in
  rrule ←? build_rrule recur_el;
  let rrule_line :=
    if truthy rrule then ["RRULE:" +:+ or_empty rrule] else [] in
  Ok (["BEGIN:VEVENT"] ++ dtstart ++ dtend ++ ["UID:" +:+ uid] ++ summary
      ++ description ++ location ++ rrule_line
      ++ ["DTSTAMP:" +:+ dt_to_ics (now t); "END:VEVENT"],
      S t).

Fixpoint for_events (evs : list event) (lines : list string) (t : nat)
    : result (list string * nat) :=
  match evs with
  | [] => Ok (lines, t)
  | ev :: evs' =>
      '(added, t') ←? event_lines ev t;
      for_events evs' (lines ++ added) t'
  end.

(** The list [lines] when the loop is over and the footer is appended. *)
Definition document_lines (root : list event) : result (list string) :=
  '(lines, _) ←? for_events root header O;
  Ok (lines ++ ["END:VCALENDAR"]).

(** [mxl_to_ics]: the file system maps a path to the text of the file;
    [ics_out.write_text(final)] is the last statement. *)
Definition mxl_to_ics (root : list event) (ics_out : string)
    (fs : gmap string string) : result () * gmap string string :=
  match document_lines root with
  | Raise e => (Raise e, fs)
  | Ok lines =>
      (* Fold all lines and ensure CRLF *)
      let final := String.concat CRLF (fold_ics_line <$> lines) +:+ CRLF in
      (Ok (), <[ics_out := final]> fs)
  end.

End Assembler.
End Impl.

(** ** __init__.py: the HTTP function *)
Module Func.

Definition parse_utcdatetime (s : option string) : result (option datetime) :=
  match s with
  | None => Ok None
  | Some s =>
      match search_wrapper s with
      | None =>
          let plain := replace "Z" "" s in
          match fromisoformat plain with
          | Some dt => Ok (Some dt)
          | None => Raise (IsoformatError plain)
          end
      | Some iso =>
          let iso :=
            if endswith ".000" iso then take (String.length iso - 4) iso
            else iso in
          match fromisoformat iso with
          | Some dt => Ok (Some dt)
          | None => Raise (IsoformatError iso)
          end
      end
  end.

Definition dt_to_ics (dt : datetime) : string := strftime_basic dt.

Definition ics_escape (s : option string) : string :=
  if negb (truthy s) then ""
  else
    let s := sub_tags (or_empty s) in
    let s := replace (String BACKSLASH "") (String BACKSLASH (String BACKSLASH "")) s in
    let s := replace ";" (String BACKSLASH ";") s in
    let s := replace "," (String BACKSLASH ",") s in
    replace (String LF "") (String BACKSLASH "n")
      (replace CRLF (String BACKSLASH "n") s).

Definition map_dow : list string := ["SU"; "MO"; "TU"; "WE"; "TH"; "FR"; "SA"].

(** [map_dow[i] for i,c in enumerate(rep) if c=="1"], from index [i] on. *)
Fixpoint active_days (i : nat) (rep : string) : list string :=
  match rep with
  | "" => []
  | String c s' =>
      if bool_decide (c = "1"%char)
      then default "" (map_dow !! i) :: active_days (S i) s'
      else active_days (S i) s'
  end.

Definition build_rrule (el : option element) : result (option string) :=
  match el with
  | None => Ok None
  | Some el =>
      let rtype := capitalize (or_empty (or_else (attrib el !! "type") (Some ""))) in
      if negb (bool_decide (rtype = "Weekly")) then Ok None
      else
        let interval := get_default (attrib el) "repeat_every" "1" in
        let until_raw :=
          or_else (attrib el !! "until_date") (attrib el !! "unitil_date") in
        let rep := attrib el !! "repeat_on" in
        let byday :=
          if truthy rep && (String.length (or_empty rep) =? 7)%nat
          then
            or_else (Some (String.concat "," (active_days 0 (or_empty rep)))) None
          else None in
        let parts := ["FREQ=WEEKLY"; "INTERVAL=" +:+ interval] in
        parts ←?
          (if truthy until_raw then
             u_dt ←? parse_utcdatetime until_raw;
             until_str ←? Impl.strftime_of strftime_basic u_dt;
             Ok (parts ++ ["UNTIL=" +:+ until_str])
           else Ok parts);
        let parts :=
          if truthy byday then parts ++ ["BYDAY=" +:+ or_empty byday]
          else parts in
        Ok (Some (String.concat ";" parts))
  end.

Section Convert.
Variable clock : nat → datetime.

(** One iteration of the loop of [convert]; [now] is the time stamp taken
    before the loop. *)
Definition event_lines (now : string) (ev : event) (t : nat)
    : result (list string * nat) :=
  let title := strip (or_empty (ev_title ev)) in
  let desc := or_empty (ev_description ev) in
  let start_raw := ev_start_date ev in
  let end_raw := ev_end_date ev in
  let loc := strip (or_empty (ev_location ev)) in
  let recur := ev_recurrence ev in
  let all_day :=
    bool_decide
      (lower (get_default (ev_attrib ev) "is_allday_event" "False") = "true") in
  sdt ←? (if truthy start_raw then parse_utcdatetime start_raw else Ok None);
  edt ←? (if truthy end_raw then parse_utcdatetime end_raw else Ok None);
  let dtstart :=
    match sdt with
    | Some dt =>
        [if all_day then "DTSTART;VALUE=DATE:" +:+ strftime_date dt
         else "DTSTART:" +:+ dt_to_ics dt]
    | None => []
    end in
  let dtend :=
    match edt with
    | Some dt =>
        [if all_day then "DTEND;VALUE=DATE:" +:+ strftime_date dt
         else "DTEND:" +:+ dt_to_ics dt]
    | None => []
    end in
  let '(uid_dt, t) :=
    match sdt with
    | Some dt => (dt, t)
    | None => (clock t, S t)
    end in
  let uid :=
    get_default (ev_attrib ev) "id" "x" +:+ "-" +:+ dt_to_ics uid_dt
    +:+ "@mxl2ics" in
  let description :=
    if truthy (Some desc) then ["DESCRIPTION:" +:+ ics_escape (Some desc)]
    else [] in
  let location :=
    if truthy (Some loc) then ["LOCATION:" +:+ ics_escape (Some loc)]
    else [] in
  rrule ←? build_rrule recur;
  let rrule_line :=
    if truthy rrule then ["RRULE:" +:+ or_empty rrule] else [] in
  Ok (["BEGIN:VEVENT"] ++ dtstart ++ dtend ++ ["UID:" +:+ uid]
      ++ ["SUMMARY:" +:+ ics_escape (Some title)]
      ++ description ++ location ++ rrule_line
      ++ ["DTSTAMP:" +:+ now; "END:VEVENT"],
      t).

Fixpoint for_events (now : string) (evs : list event) (lines : list string)
    (t : nat) : result (list string * nat) :=
  match evs with
  | [] => Ok (lines, t)
  | ev :: evs' =>
      '(added, t') ←? event_lines now ev t;
      for_events now evs' (lines ++ added) t'
  end.

Definition document_lines (root : list event) : result (list string) :=
  let now := dt_to_ics (clock O) in
  '(lines, _) ←? for_events now root Impl.header 1%nat;
  Ok (lines ++ ["END:VCALENDAR"]).

Definition convert (root : list event) : result string :=
  lines ←? document_lines root;
  Ok (String.concat CRLF lines +:+ CRLF).

End Convert.
End Func.

(** * Properties *)

(** ** The model on the inputs of the specification *)
Section Scenarios.

Let clock : nat → datetime := λ _, mk_datetime 2026 1 2 3 4 5 6.

Example fromisoformat_extended :
  fromisoformat "2022-07-14T19:00:00" = Some (mk_datetime 2022 7 14 19 0 0 0).
Proof. vm_compute. reflexivity. Qed.

Example fromisoformat_basic :
  fromisoformat "20220714T190000" = Some (mk_datetime 2022 7 14 19 0 0 0).
Proof. vm_compute. reflexivity. Qed.

Example fromisoformat_date_only :
  fromisoformat "2022-07-14" = Some (mk_datetime 2022 7 14 0 0 0 0).
Proof. vm_compute. reflexivity. Qed.

Example fromisoformat_week_date :
  fromisoformat "2022-W28-4T19" = Some (mk_datetime 2022 7 14 19 0 0 0).
Proof. vm_compute. reflexivity. Qed.

Example fromisoformat_offset_read :
  fromisoformat "2022-07-14 19:00:00.5-05:00"
  = Some (mk_datetime 2022 7 14 19 0 0 500000).
Proof. vm_compute. reflexivity. Qed.

Example fromisoformat_fraction_after_minutes :
  fromisoformat "2022-07-14T23:59.59"
  = Some (mk_datetime 2022 7 14 23 59 0 590000).
Proof. vm_compute. reflexivity. Qed.

Example fromisoformat_bare_separator : fromisoformat "2022-07-14T" = None.
Proof. vm_compute. reflexivity. Qed.

Example strftime_year_not_padded :
  strftime_basic (mk_datetime 999 2 28 23 59 59 0) = "9990228T235959Z"
  ∧ strftime_date (mk_datetime 1 1 1 0 0 0 0) = "10101".
Proof. split; vm_compute; reflexivity. Qed.

Example fromisoformat_no_such_day : fromisoformat "2022-02-29" = None.
Proof. vm_compute. reflexivity. Qed.

Example fromisoformat_not_a_date : fromisoformat "not-a-date" = None.
Proof. vm_compute. reflexivity. Qed.

Example parse_wrapped :
  Impl.parse_utcdatetime (Some "{utcdatetime:U2022-07-14T19:00:00.000}")
  = Ok (Some (mk_datetime 2022 7 14 19 0 0 0)).
Proof. vm_compute. reflexivity. Qed.

Example parse_plain_with_z :
  Impl.parse_utcdatetime (Some "2022-07-14T19:00:00Z")
  = Ok (Some (mk_datetime 2022 7 14 19 0 0 0)).
Proof. vm_compute. reflexivity. Qed.

Example escape_strips_tags :
  Impl.ics_escape (Some "Intro <b>Class</b>; a,b <> < x")
  = "Intro Class" +:+ String BACKSLASH "; a" +:+ String BACKSLASH ",b <> < x".
Proof. vm_compute. reflexivity. Qed.

Example escape_newlines :
  Impl.ics_escape (Some ("a" +:+ CRLF +:+ "b" +:+ String LF "c"))
  = "a" +:+ String BACKSLASH "nb" +:+ String BACKSLASH "nc".
Proof. vm_compute. reflexivity. Qed.

Example scenario_timed_event :
  Func.convert clock
    [mk_event (list_to_map [("id", "7"); ("is_allday_event", "False")])
       (Some "Intro <b>Class</b>") None
       (Some "{utcdatetime:U2022-07-14T19:00:00.000}") None None None]
  = Ok (String.concat CRLF
          ["BEGIN:VCALENDAR"; "PRODID:-//mxl-to-ics//saskpolytech//EN";
           "VERSION:2.0"; "CALSCALE:GREGORIAN"; "METHOD:PUBLISH";
           "BEGIN:VEVENT"; "DTSTART:20220714T190000Z";
           "UID:7-20220714T190000Z@mxl2ics"; "SUMMARY:Intro Class";
           "DTSTAMP:20260102T030405Z"; "END:VEVENT"; "END:VCALENDAR"]
        +:+ CRLF).
Proof. vm_compute. reflexivity. Qed.

Example scenario_all_day_event :
  Impl.document_lines clock
    [mk_event (list_to_map [("id", "7"); ("is_allday_event", "True")])
       (Some "Intro <b>Class</b>") None
       (Some "{utcdatetime:U2022-07-14T19:00:00.000}")
       (Some "{utcdatetime:U2022-07-15T19:00:00.000}") None None]
  = Ok ["BEGIN:VCALENDAR"; "PRODID:-//mxl-to-ics//saskpolytech//EN";
        "VERSION:2.0"; "CALSCALE:GREGORIAN"; "METHOD:PUBLISH";
        "BEGIN:VEVENT"; "DTSTART;VALUE=DATE:20220714";
        "DTEND;VALUE=DATE:20220715"; "UID:7-20220714T190000Z@mxl2ics";
        "SUMMARY:Intro Class"; "DTSTAMP:20260102T030405Z"; "END:VEVENT";
        "END:VCALENDAR"].
Proof. vm_compute. reflexivity. Qed.

Example scenario_no_events :
  Impl.document_lines clock [] = Ok (Impl.header ++ ["END:VCALENDAR"])
  ∧ Func.convert clock []
    = Ok (String.concat CRLF (Impl.header ++ ["END:VCALENDAR"]) +:+ CRLF).
Proof. split; vm_compute; reflexivity. Qed.

End Scenarios.

#[local] Arguments take _ _ : simpl nomatch.
#[local] Arguments drop _ _ : simpl nomatch.

(** ** Strings *)
Section StringFacts.

Lemma app_cons (c : ascii) (s t : string) :
  String c s +:+ t = String c (s +:+ t).
Proof. reflexivity. Qed.

Lemma app_empty_r (s : string) : s +:+ "" = s.
Proof. induction s as [|c s IH]; simpl; [reflexivity | now rewrite IH]. Qed.

Lemma app_assoc_str (s t u : string) : (s +:+ t) +:+ u = s +:+ (t +:+ u).
Proof. induction s as [|c s IH]; simpl; [reflexivity | now rewrite IH]. Qed.

Lemma length_app_str (s t : string) :
  String.length (s +:+ t) = (String.length s + String.length t)%nat.
Proof. induction s as [|c s IH]; simpl; [reflexivity | now rewrite IH]. Qed.

Lemma length_take (n : nat) (s : string) :
  String.length (take n s) = Nat.min n (String.length s).
Proof.
  revert s; induction n as [|n IH]; intros [|c s]; simpl; auto.
Qed.

Lemma take_drop_str (n : nat) (s : string) : take n s +:+ drop n s = s.
Proof.
  revert s; induction n as [|n IH]; intros [|c s]; simpl; auto.
  now rewrite IH.
Qed.

Lemma take_all (n : nat) (s : string) :
  (String.length s ≤ n)%nat → take n s = s.
Proof.
  revert s; induction n as [|n IH]; intros [|c s]; simpl; auto; try lia.
  intros H. rewrite IH; [reflexivity | lia].
Qed.

Lemma take_app_exact (s t : string) : take (String.length s) (s +:+ t) = s.
Proof. induction s as [|c s IH]; simpl; [now destruct t | now rewrite IH]. Qed.

Lemma drop_app_exact (s t : string) : drop (String.length s) (s +:+ t) = t.
Proof. induction s as [|c s IH]; simpl; auto. Qed.

End StringFacts.

(** ** Line folding *)
Section Folding.

(** The loop of [fold_ics_line], one iteration at a time. *)
Lemma fold_parts_short (line : string) :
  (String.length line ≤ 75)%nat → Impl.fold_parts line = [line].
Proof.
  intros H. rewrite Impl.fold_parts_equation_1.
  destruct (le_lt_dec (String.length line) Impl.max_len) as [Hle|Hgt];
    [reflexivity | unfold Impl.max_len in Hgt; lia].
Qed.

Lemma fold_parts_long (line : string) :
  (75 < String.length line)%nat →
  Impl.fold_parts line
  = take 75 line :: Impl.fold_parts (" " +:+ drop 75 line).
Proof.
  intros H. rewrite Impl.fold_parts_equation_1.
  destruct (le_lt_dec (String.length line) Impl.max_len) as [Hle|Hgt];
    [unfold Impl.max_len in Hle; lia | reflexivity].
Qed.

Lemma fold_ics_line_parts (line : string) :
  Impl.fold_ics_line line = String.concat CRLF (Impl.fold_parts line).
Proof.
  unfold Impl.fold_ics_line, Impl.max_len.
  destruct (String.length line <=? 75)%nat eqn:E; [|reflexivity].
  apply Nat.leb_le in E. now rewrite fold_parts_short.
Qed.

(** Undoing the fold on the list of segments: the first segment as it is,
    every continuation segment without its first character. *)
Definition unfold_parts (parts : list string) : string :=
  match parts with
  | [] => ""
  | p :: ps => p +:+ String.concat "" (drop 1 <$> ps)
  end.

(** Induction along the iterations of the loop. *)
Lemma fold_parts_ind (P : string → list string → Prop) :
  (∀ line, (String.length line ≤ 75)%nat → P line [line]) →
  (∀ line, (75 < String.length line)%nat →
     P (" " +:+ drop 75 line) (Impl.fold_parts (" " +:+ drop 75 line)) →
     P line (take 75 line :: Impl.fold_parts (" " +:+ drop 75 line))) →
  ∀ line, P line (Impl.fold_parts line).
Proof.
  intros Hshort Hlong line.
  remember (String.length line) as n eqn:Hn.
  revert line Hn. induction n as [n IH] using lt_wf_ind. intros line ->.
  destruct (le_lt_dec (String.length line) 75) as [Hle|Hgt].
  - rewrite fold_parts_short by exact Hle. now apply Hshort.
  - rewrite fold_parts_long by exact Hgt. apply Hlong; [exact Hgt|].
    apply (IH (String.length (" " +:+ drop 75 line))); [|reflexivity].
    rewrite length_app_str, length_drop.
    change (String.length " ") with 1%nat. lia.
Qed.

Lemma fold_parts_bound (line : string) :
  Forall (λ p, (String.length p ≤ 75)%nat) (Impl.fold_parts line).
Proof.
  apply (fold_parts_ind (λ _ parts, Forall (λ p, (String.length p ≤ 75)%nat) parts)).
  - intros l H. constructor; [exact H | constructor].
  - intros l H IH. constructor; [|exact IH].
    rewrite length_take. lia.
Qed.

Lemma concat_cons (sep x : string) (xs : list string) :
  xs ≠ [] → String.concat sep (x :: xs) = x +:+ sep +:+ String.concat sep xs.
Proof. destruct xs; [congruence | reflexivity]. Qed.

Lemma concat_empty_cons (x : string) (xs : list string) :
  String.concat "" (x :: xs) = x +:+ String.concat "" xs.
Proof. destruct xs; simpl; [now rewrite app_empty_r | reflexivity]. Qed.

Lemma fold_parts_head (line : string) :
  Impl.fold_parts line = take 75 line :: tail (Impl.fold_parts line).
Proof.
  destruct (le_lt_dec (String.length line) 75) as [Hle|Hgt].
  - rewrite fold_parts_short by exact Hle. simpl. now rewrite take_all.
  - now rewrite fold_parts_long by exact Hgt.
Qed.

Lemma fold_parts_continuations (line : string) :
  Forall (λ p, startswith " " p = true) (tail (Impl.fold_parts line)).
Proof.
  apply (fold_parts_ind
           (λ _ parts, Forall (λ p, startswith " " p = true) (tail parts))).
  - intros l H. constructor.
  - intros l H IH. simpl. rewrite fold_parts_head.
    constructor; [reflexivity | exact IH].
Qed.

Lemma fold_parts_unfold (line : string) :
  unfold_parts (Impl.fold_parts line) = line.
Proof.
  apply (fold_parts_ind (λ l parts, unfold_parts parts = l)).
  - intros l H. simpl. apply app_empty_r.
  - intros l H IH. unfold unfold_parts in *.
    rewrite fold_parts_head in IH |- *.
    rewrite fmap_cons, concat_empty_cons.
    change (take 75 (" " +:+ drop 75 l)) with (String " " (take 74 (drop 75 l))) in *.
    simpl in IH. injection IH as IH.
    change (drop 1 (String " " (take 74 (drop 75 l)))) with (take 74 (drop 75 l)).
    change (" " +:+ drop 75 l) with (String " " (drop 75 l)).
    rewrite IH. apply take_drop_str.
Qed.

(** Unfolding on the text, as a reader of the document does it: every
    CRLF that is followed by a space goes away together with the space. *)
Definition unfold_text (s : string) : string :=
  replace (CRLF +:+ " ") "" s.

Lemma find_take_none (c : ascii) (n : nat) (s : string) :
  find c s = None → find c (take n s) = None.
Proof.
  revert s; induction n as [|n IH]; intros [|a s]; simpl; auto.
  case_bool_decide; [discriminate|].
  destruct (find c s) eqn:E; [discriminate|]. intros _. now rewrite IH.
Qed.

Lemma find_drop_none (c : ascii) (n : nat) (s : string) :
  find c s = None → find c (drop n s) = None.
Proof.
  revert s; induction n as [|n IH]; intros [|a s]; simpl; auto.
  case_bool_decide; [discriminate|].
  destruct (find c s) eqn:E; [discriminate|]. intros _. now apply IH.
Qed.

(** A stretch of text without LF is copied by the unfolding, as long as
    what follows does not begin with LF. *)
Lemma unfold_text_app (p rest : string) :
  find LF p = None →
  startswith (String LF "") rest = false →
  unfold_text (p +:+ rest) = p +:+ unfold_text rest.
Proof.
  unfold unfold_text, replace. intros Hp Hrest.
  induction p as [|c p IH]; [reflexivity|].
  simpl in Hp. case_bool_decide as Hc; [discriminate|].
  destruct (find LF p) eqn:Hf; [discriminate|]. clear Hp.
  rewrite app_cons.
  change (replace_from (CRLF +:+ " ") "" 0 (String c (p +:+ rest)))
    with (if startswith (CRLF +:+ " ") (String c (p +:+ rest))
          then "" +:+ replace_from (CRLF +:+ " ") "" 2 (p +:+ rest)
          else String c (replace_from (CRLF +:+ " ") "" 0 (p +:+ rest))).
  assert (startswith (CRLF +:+ " ") (String c (p +:+ rest)) = false) as ->.
  { change (CRLF +:+ " ") with (String CR (String LF " ")).
    cbn [startswith]. destruct (bool_decide (CR = c)); [|reflexivity].
    destruct p as [|d p]; simpl.
    - destruct rest as [|r rest]; [reflexivity|].
      simpl in Hrest |- *. destruct (bool_decide (LF = r)); [|reflexivity].
      discriminate.
    - simpl in Hf. case_bool_decide as Hd; [discriminate|].
      rewrite bool_decide_false by congruence. reflexivity. }
  now rewrite IH.
Qed.

Lemma unfold_text_no_lf (p : string) :
  find LF p = None → unfold_text p = p.
Proof.
  intros Hp. rewrite <- (app_empty_r p) at 1.
  rewrite unfold_text_app by (exact Hp || reflexivity).
  apply app_empty_r.
Qed.

Lemma unfold_text_artifact (s : string) :
  unfold_text (CRLF +:+ String " " s) = unfold_text s.
Proof. reflexivity. Qed.

Lemma unfold_text_space (s : string) :
  unfold_text (String " " s) = String " " (unfold_text s).
Proof. reflexivity. Qed.

Lemma concat_fold_parts_head (line : string) :
  ∃ r, String.concat CRLF (Impl.fold_parts line) = take 75 line +:+ r.
Proof.
  rewrite fold_parts_head.
  destruct (tail (Impl.fold_parts line)) as [|p ps].
  - exists "". simpl. now rewrite app_empty_r.
  - eexists. rewrite concat_cons by discriminate. reflexivity.
Qed.

Lemma fold_parts_unfold_text (line : string) :
  find LF line = None →
  unfold_text (String.concat CRLF (Impl.fold_parts line)) = line.
Proof.
  apply (fold_parts_ind
           (λ l parts, find LF l = None
                       → unfold_text (String.concat CRLF parts) = l)).
  - intros l _ Hl. simpl. now apply unfold_text_no_lf.
  - intros l Hlen IH Hl.
    assert (find LF (String " " (drop 75 l)) = None) as Hl'.
    { simpl. now rewrite find_drop_none. }
    specialize (IH Hl').
    destruct (concat_fold_parts_head (" " +:+ drop 75 l)) as [r Hr].
    rewrite concat_cons
      by (rewrite fold_parts_head; discriminate).
    rewrite Hr in IH |- *.
    change (take 75 (" " +:+ drop 75 l))
      with (String " " (take 74 (drop 75 l))) in *.
    rewrite app_cons in IH |- *.
    rewrite unfold_text_app by (auto using find_take_none).
    rewrite unfold_text_artifact.
    rewrite unfold_text_space in IH.
    injection IH as IH. rewrite IH. apply take_drop_str.
Qed.

End Folding.

(** C4.  [fold_ics_line] joins with CRLF the segments the loop cuts; no
    segment is longer than 75 characters, every continuation segment
    begins with one space, and the first segment followed by the other
    segments without that space is the line again.  A line of at most 75
    characters is returned as it is, and on a line without line breaks
    the unfolding of the folded text gives the line back. *)
Theorem fold_ics_line_segments (line : string) :
  let parts := Impl.fold_parts line in
  Impl.fold_ics_line line = String.concat CRLF parts
  ∧ Forall (λ p, (String.length p ≤ 75)%nat) parts
  ∧ Forall (λ p, startswith " " p = true) (tail parts)
  ∧ unfold_parts parts = line
  ∧ ((String.length line ≤ 75)%nat → Impl.fold_ics_line line = line)
  ∧ (find LF line = None → unfold_text (Impl.fold_ics_line line) = line).
Proof.
  cbv zeta. split; [apply fold_ics_line_parts|].
  split; [apply fold_parts_bound|].
  split; [apply fold_parts_continuations|].
  split; [apply fold_parts_unfold|].
  split.
  - intros H. rewrite fold_ics_line_parts, fold_parts_short by exact H.
    reflexivity.
  - intros H. rewrite fold_ics_line_parts. now apply fold_parts_unfold_text.
Qed.

Definition sample_long_line : string :=
  "DESCRIPTION:0123456789012345678901234567890123456789012345678901234567890123456789012345678901234567890123456789012345678901234567890123456789012345678901234567890123456789".

Lemma fold_ics_line_segments_witness :
  Impl.fold_ics_line "SUMMARY:Intro Class" = "SUMMARY:Intro Class"
  ∧ unfold_text (Impl.fold_ics_line sample_long_line) = sample_long_line.
Proof.
  split.
  - destruct (fold_ics_line_segments "SUMMARY:Intro Class")
      as (_ & _ & _ & _ & Hshort & _).
    apply Hshort. simpl. lia.
  - destruct (fold_ics_line_segments sample_long_line)
      as (_ & _ & _ & _ & _ & Hback).
    apply Hback. vm_compute. reflexivity.
Defined.

(** ** The recurrence translator *)
Section Recurrence.

(** The value of the until attribute that [build_rrule] reads: the
    attribute [until_date], or else the misspelt [unitil_date]. *)
Definition until_raw (el : element) : option string :=
  or_else (attrib el !! "until_date") (attrib el !! "unitil_date").

(** The UNTIL part of the rule for a given parser: nothing when the
    attribute is missing or empty, the rendered time stamp when it
    parses, and the parser's exception otherwise. *)
Definition until_clause (parse : option string → result (option datetime))
    (el : element) : result (list string) :=
  if truthy (until_raw el) then
    u_dt ←? parse (until_raw el);
    until_str ←? Impl.strftime_of strftime_basic u_dt;
    Ok ["UNTIL=" +:+ until_str]
  else Ok [].

Definition day_codes : list string := ["SU"; "MO"; "TU"; "WE"; "TH"; "FR"; "SA"].

(** The day codes of a mask, in the words of the specification: for the
    indices 0 to 6 in this order, the code of the index when the mask has
    the character 1 there. *)
Definition mask_days (mask : string) : list string :=
  omap (λ i, if bool_decide (String.get i mask = Some "1"%char)
             then day_codes !! i else None)
       (seq 0 7).

(** The BYDAY part: present when the mask is there, has exactly 7
    characters and selects at least one day. *)
Definition byday_clause (mask : option string) : list string :=
  match mask with
  | Some m =>
      if bool_decide (String.length m = 7%nat)
      then match mask_days m with
           | [] => []
           | days => ["BYDAY=" +:+ String.concat "," days]
           end
      else []
  | None => []
  end.

(** The rule of a weekly recurrence: FREQ, INTERVAL, [UNTIL], [BYDAY]. *)
Definition weekly_rule (parse : option string → result (option datetime))
    (el : element) : result (option string) :=
  u ←? until_clause parse el;
  Ok (Some (String.concat ";"
              (["FREQ=WEEKLY";
                "INTERVAL=" +:+ get_default (attrib el) "repeat_every" "1"]
               ++ u ++ byday_clause (attrib el !! "repeat_on")))).

Lemma upper_W_iff_lower_w (c : ascii) :
  upper_char c = "W"%char ↔ lower_char c = "w"%char.
Proof.
  destruct c as [[] [] [] [] [] [] [] []]; vm_compute; split; congruence.
Qed.

Lemma capitalize_weekly (s : string) :
  capitalize s = "Weekly" ↔ lower s = "weekly".
Proof.
  destruct s as [|c s]; simpl; [split; discriminate|].
  split; intros H; injection H as Hc Hs; f_equal;
    try (apply upper_W_iff_lower_w); auto.
Qed.

Lemma bool_decide_some_char (c d : ascii) :
  bool_decide (Some c = Some d) = bool_decide (c = d).
Proof. apply bool_decide_ext. split; congruence. Qed.

Lemma active_days_mask (m : string) :
  String.length m = 7%nat → Impl.active_days 0 m = mask_days m.
Proof.
  intros H.
  do 8 (destruct m as [|? m]; try discriminate H). clear H.
  unfold mask_days. cbn [Impl.active_days seq omap list_omap String.get].
  rewrite !bool_decide_some_char.
  repeat match goal with
         | |- context [bool_decide (?c = "1"%char)] =>
             destruct (bool_decide (c = "1"%char))
         end; reflexivity.
Qed.

Lemma func_active_days (i : nat) (m : string) :
  Func.active_days i m = Impl.active_days i m.
Proof. revert i; induction m as [|c m IH]; intros i; simpl; [|rewrite IH]; reflexivity. Qed.

(** A mask that selects a day gives a non-empty list of codes. *)
Lemma mask_days_joined (m d : string) (ds : list string) :
  mask_days m = d :: ds → truthy (Some (String.concat "," (d :: ds))) = true.
Proof.
  intros H.
  assert (d ∈ day_codes) as Hd.
  { assert (d ∈ mask_days m) as Hin by (rewrite H; left).
    apply list_elem_of_omap in Hin as (i & _ & Hi).
    case_bool_decide; [|discriminate].
    eapply list_elem_of_lookup_2, Hi. }
  assert (∃ c r, d = String c r) as (c & r & ->).
  { unfold day_codes in Hd. set_unfold.
    destruct Hd as [->|[->|[->|[->|[->|[->|[->|[]]]]]]]]; eauto. }
  destruct ds; reflexivity.
Qed.

(** The optional [byday] of the code against the BYDAY part above. *)
Lemma impl_byday (rep : option string) (parts : list string) :
  (let byday :=
     if truthy rep && (String.length (or_empty rep) =? 7)%nat
     then match Impl.active_days 0 (or_empty rep) with
          | [] => None
          | days => Some (String.concat "," days)
          end
     else None in
   if truthy byday then parts ++ ["BYDAY=" +:+ or_empty byday] else parts)
  = parts ++ byday_clause rep.
Proof.
  destruct rep as [m|]; [|simpl; now rewrite app_nil_r].
  unfold byday_clause. cbn [or_empty]. cbv zeta.
  case_bool_decide as Hlen.
  - rewrite active_days_mask by exact Hlen.
    rewrite Hlen, Nat.eqb_refl.
    replace (truthy (Some m)) with true by (now destruct m).
    cbn [andb].
    destruct (mask_days m) as [|d ds] eqn:E; [simpl; now rewrite app_nil_r|].
    now rewrite (mask_days_joined m d ds E).
  - apply Nat.eqb_neq in Hlen. rewrite Hlen, andb_false_r.
    simpl. now rewrite app_nil_r.
Qed.

Lemma func_byday (rep : option string) (parts : list string) :
  (let byday :=
     if truthy rep && (String.length (or_empty rep) =? 7)%nat
     then or_else (Some (String.concat "," (Func.active_days 0 (or_empty rep)))) None
     else None in
   if truthy byday then parts ++ ["BYDAY=" +:+ or_empty byday] else parts)
  = parts ++ byday_clause rep.
Proof.
  rewrite <- impl_byday. cbv zeta. rewrite func_active_days.
  destruct (truthy rep && (String.length (or_empty rep) =? 7)%nat);
    [|reflexivity].
  destruct (Impl.active_days 0 (or_empty rep)) as [|d ds] eqn:E; [reflexivity|].
  unfold or_else.
  destruct (truthy (Some (String.concat "," (d :: ds)))) eqn:T;
    rewrite ?T; reflexivity.
Qed.

(** [build_rrule] on a weekly recurrence, in both modules. *)
Lemma impl_build_rrule_weekly (el : element) (t : string) :
  attrib el !! "type" = Some t → lower t = "weekly" →
  Impl.build_rrule (Some el) = weekly_rule Impl.parse_utcdatetime el.
Proof.
  intros Ht Hw. unfold Impl.build_rrule. rewrite Ht.
  rewrite bool_decide_true by (now apply capitalize_weekly).
  cbn [negb]. cbv zeta.
  unfold weekly_rule, until_clause. fold (until_raw el).
  destruct (truthy (until_raw el)); cbn [bind].
  - destruct (Impl.parse_utcdatetime (until_raw el)) as [[dt|]|e];
      cbn [bind Impl.strftime_of]; try reflexivity.
    rewrite impl_byday. now rewrite <- app_assoc.
  - now rewrite impl_byday.
Qed.

Lemma func_build_rrule_weekly (el : element) (t : string) :
  attrib el !! "type" = Some t → lower t = "weekly" →
  Func.build_rrule (Some el) = weekly_rule Func.parse_utcdatetime el.
Proof.
  intros Ht Hw. unfold Func.build_rrule. rewrite Ht.
  assert (or_empty (or_else (Some t) (Some "")) = t) as ->
    by (now destruct t).
  rewrite bool_decide_true by (now apply capitalize_weekly).
  cbn [negb]. cbv zeta.
  unfold weekly_rule, until_clause. fold (until_raw el).
  destruct (truthy (until_raw el)); cbn [bind].
  - destruct (Func.parse_utcdatetime (until_raw el)) as [[dt|]|e];
      cbn [bind Impl.strftime_of]; try reflexivity.
    rewrite func_byday. now rewrite <- app_assoc.
  - now rewrite func_byday.
Qed.

(** A recurrence is weekly when its type attribute is there and reads
    "weekly" whatever the case of its letters. *)
Definition is_weekly (el : element) : Prop :=
  ∃ t, attrib el !! "type" = Some t ∧ lower t = "weekly".

Lemma impl_build_rrule_other (el : element) :
  ¬ is_weekly el → Impl.build_rrule (Some el) = Ok None.
Proof.
  intros Hn. unfold Impl.build_rrule.
  destruct (attrib el !! "type") as [t|] eqn:Ht; [|reflexivity].
  rewrite bool_decide_false; [reflexivity|].
  intros Hc. apply Hn. exists t. split; [exact Ht | now apply capitalize_weekly].
Qed.

Lemma func_build_rrule_other (el : element) :
  ¬ is_weekly el → Func.build_rrule (Some el) = Ok None.
Proof.
  intros Hn. unfold Func.build_rrule.
  rewrite bool_decide_false; [reflexivity|].
  intros Hc. apply Hn.
  destruct (attrib el !! "type") as [t|] eqn:Ht; [|discriminate Hc].
  exists t. split; [exact Ht|]. apply capitalize_weekly.
  destruct t; [discriminate Hc | exact Hc].
Qed.

(** The two parsers differ in the exception only. *)
Lemma parse_utcdatetime_agree (s : option string) (x : option datetime) :
  Func.parse_utcdatetime s = Ok x ↔ Impl.parse_utcdatetime s = Ok x.
Proof.
  unfold Func.parse_utcdatetime, Impl.parse_utcdatetime.
  destruct s as [s|]; [|reflexivity].
  destruct (search_wrapper s) as [iso|]; [reflexivity|].
  destruct (fromisoformat (replace "Z" "" s)); [reflexivity|].
  split; discriminate.
Qed.

Lemma until_clause_agree (el : element) (u : list string) :
  until_clause Func.parse_utcdatetime el = Ok u
  ↔ until_clause Impl.parse_utcdatetime el = Ok u.
Proof.
  unfold until_clause. destruct (truthy (until_raw el)); [|reflexivity].
  destruct (Func.parse_utcdatetime (until_raw el)) as [x|e] eqn:E.
  - apply parse_utcdatetime_agree in E. now rewrite E.
  - destruct (Impl.parse_utcdatetime (until_raw el)) as [x|e'] eqn:E'.
    + apply parse_utcdatetime_agree in E'. congruence.
    + split; discriminate.
Qed.

(** What the UNTIL part can be. *)
Lemma until_clause_ok (el : element) (u : list string) :
  until_clause Impl.parse_utcdatetime el = Ok u →
  (truthy (until_raw el) = false ∧ u = [])
  ∨ (∃ dt, truthy (until_raw el) = true
           ∧ Impl.parse_utcdatetime (until_raw el) = Ok (Some dt)
           ∧ u = ["UNTIL=" +:+ strftime_basic dt]).
Proof.
  unfold until_clause. destruct (truthy (until_raw el)).
  - destruct (Impl.parse_utcdatetime (until_raw el)) as [[dt|]|e];
      cbn; intros H; try discriminate H.
    injection H as <-. right. eauto.
  - intros H. injection H as <-. now left.
Qed.

(** A rule that is produced comes from a weekly recurrence and is built
    in the order FREQ, INTERVAL, [UNTIL], [BYDAY]. *)
Lemma build_rrule_produced (recur_el : option element) (v : string) :
  Impl.build_rrule recur_el = Ok (Some v)
  ∨ Func.build_rrule recur_el = Ok (Some v) →
  ∃ el u,
    recur_el = Some el ∧ is_weekly el
    ∧ until_clause Impl.parse_utcdatetime el = Ok u
    ∧ v = String.concat ";"
            (["FREQ=WEEKLY";
              "INTERVAL=" +:+ get_default (attrib el) "repeat_every" "1"]
             ++ u ++ byday_clause (attrib el !! "repeat_on")).
Proof.
  intros H. destruct recur_el as [el|]; [|destruct H; discriminate].
  destruct (attrib el !! "type") as [t|] eqn:Ht.
  2:{ destruct H as [H|H];
        [rewrite impl_build_rrule_other in H | rewrite func_build_rrule_other in H];
        try discriminate; intros (t & Ht' & _); congruence. }
  destruct (decide (lower t = "weekly")) as [Hw|Hw].
  2:{ destruct H as [H|H];
        [rewrite impl_build_rrule_other in H | rewrite func_build_rrule_other in H];
        try discriminate; intros (t' & Ht' & Hw'); congruence. }
  assert (is_weekly el) as Hweekly by (exists t; auto).
  assert (∃ u, until_clause Impl.parse_utcdatetime el = Ok u
               ∧ Some v = Some (String.concat ";"
                   (["FREQ=WEEKLY";
                     "INTERVAL=" +:+ get_default (attrib el) "repeat_every" "1"]
                    ++ u ++ byday_clause (attrib el !! "repeat_on"))))
    as (u & Hu & Hv).
  { destruct H as [H|H].
    - rewrite (impl_build_rrule_weekly el t Ht Hw) in H. unfold weekly_rule in H.
      destruct (until_clause Impl.parse_utcdatetime el) as [u|e];
        [|discriminate H].
      cbn [bind] in H. exists u. split; [reflexivity | congruence].
    - rewrite (func_build_rrule_weekly el t Ht Hw) in H. unfold weekly_rule in H.
      destruct (until_clause Func.parse_utcdatetime el) as [u|e] eqn:E;
        [|discriminate H].
      cbn [bind] in H. exists u. split; [now apply until_clause_agree | congruence]. }
  exists el, u. repeat split; auto. congruence.
Qed.

End Recurrence.

Definition scenario_recurrence : element :=
  mk_element
    (list_to_map
       [("type", "Weekly"); ("repeat_every", "2"); ("repeat_on", "0010010");
        ("until_date", "{utcdatetime:U2022-08-01T00:00:00.000}")]).

(** C1.  On the recurrence of the scenario both modules give
    FREQ=WEEKLY;INTERVAL=2;UNTIL=20220801T000000Z;BYDAY=TU,FR, and every
    rule that [build_rrule] produces is the list FREQ=WEEKLY, INTERVAL=
    followed by the raw interval, then at most one UNTIL part, then at
    most one BYDAY part, joined with semicolons. *)
Theorem build_rrule_scenario_and_order :
  Impl.build_rrule (Some scenario_recurrence)
  = Ok (Some "FREQ=WEEKLY;INTERVAL=2;UNTIL=20220801T000000Z;BYDAY=TU,FR")
  ∧ Func.build_rrule (Some scenario_recurrence)
    = Ok (Some "FREQ=WEEKLY;INTERVAL=2;UNTIL=20220801T000000Z;BYDAY=TU,FR")
  ∧ ∀ (recur_el : option element) (v : string),
      Impl.build_rrule recur_el = Ok (Some v)
      ∨ Func.build_rrule recur_el = Ok (Some v) →
      ∃ el until byday,
        recur_el = Some el
        ∧ v = String.concat ";"
                (["FREQ=WEEKLY";
                  "INTERVAL=" +:+ get_default (attrib el) "repeat_every" "1"]
                 ++ until ++ byday)
        ∧ (until = []
           ∨ ∃ dt, Impl.parse_utcdatetime (until_raw el) = Ok (Some dt)
                   ∧ until = ["UNTIL=" +:+ strftime_basic dt])
        ∧ (byday = []
           ∨ ∃ m, attrib el !! "repeat_on" = Some m
                  ∧ byday = ["BYDAY=" +:+ String.concat "," (mask_days m)]).
Proof.
  split; [vm_compute; reflexivity|].
  split; [vm_compute; reflexivity|].
  intros recur_el v H.
  apply build_rrule_produced in H as (el & u & -> & _ & Hu & ->).
  exists el, u, (byday_clause (attrib el !! "repeat_on")).
  split; [reflexivity|]. split; [reflexivity|]. split.
  - apply until_clause_ok in Hu as [[_ ->]|(dt & _ & Hdt & ->)]; eauto.
  - unfold byday_clause. destruct (attrib el !! "repeat_on") as [m|]; [|now left].
    case_bool_decide; [|now left].
    destruct (mask_days m) eqn:E; [now left|]. right. exists m. now rewrite E.
Qed.

Lemma build_rrule_scenario_and_order_witness :
  ∃ el until byday,
    Some scenario_recurrence = Some el
    ∧ "FREQ=WEEKLY;INTERVAL=2;UNTIL=20220801T000000Z;BYDAY=TU,FR"
      = String.concat ";"
          (["FREQ=WEEKLY";
            "INTERVAL=" +:+ get_default (attrib el) "repeat_every" "1"]
           ++ until ++ byday)
    ∧ (until = []
       ∨ ∃ dt, Impl.parse_utcdatetime (until_raw el) = Ok (Some dt)
               ∧ until = ["UNTIL=" +:+ strftime_basic dt])
    ∧ (byday = []
       ∨ ∃ m, attrib el !! "repeat_on" = Some m
              ∧ byday = ["BYDAY=" +:+ String.concat "," (mask_days m)]).
Proof.
  destruct build_rrule_scenario_and_order as (_ & _ & Hgen).
  apply Hgen. left. vm_compute. reflexivity.
Defined.

(** ** The BYDAY clause *)
Section Byday.

(** [mask_days] lists exactly the codes of the indices that hold a 1. *)
Lemma mask_days_exact (m d : string) :
  d ∈ mask_days m
  ↔ ∃ i, String.get i m = Some "1"%char ∧ day_codes !! i = Some d.
Proof.
  unfold mask_days. rewrite list_elem_of_omap. split.
  - intros (i & _ & Hi). case_bool_decide; [eauto | discriminate].
  - intros (i & Hget & Hd). exists i. split.
    + apply elem_of_seq. apply lookup_lt_Some in Hd. simpl in Hd. lia.
    + now rewrite bool_decide_true.
Qed.

(** ... in the order SU, MO, TU, WE, TH, FR, SA. *)
Lemma omap_guard_sublist {A B : Type} (b : A → bool) (g : A → option B)
    (l : list A) :
  sublist (omap (λ i, if b i then g i else None) l) (omap g l).
Proof.
  induction l as [|a l IH]; cbn [omap list_omap]; [constructor|].
  destruct (b a), (g a); try constructor; exact IH.
Qed.

Lemma mask_days_order (m : string) : sublist (mask_days m) day_codes.
Proof.
  change day_codes with (omap (λ i, day_codes !! i) (seq 0 7)).
  apply (omap_guard_sublist
           (λ i, bool_decide (String.get i m = Some "1"%char))).
Qed.

End Byday.

(** C5.  A weekly recurrence whose until value is missing, empty or
    parses gets its rule from both modules, and the rule ends with the
    BYDAY part of the mask: for a mask of exactly 7 characters that part
    is BYDAY= followed by the comma-joined codes of the indices holding a
    1, in the order SU,MO,TU,WE,TH,FR,SA, and it is left out when no index
    holds a 1 (as for 0000000); for a missing mask and for a mask of
    another length there is no BYDAY part. *)
Theorem build_rrule_byday (el : element) (until : list string) :
  is_weekly el →
  until_clause Impl.parse_utcdatetime el = Ok until →
  let byday :=
    match attrib el !! "repeat_on" with
    | Some m =>
        if bool_decide (String.length m = 7%nat ∧ mask_days m ≠ [])
        then ["BYDAY=" +:+ String.concat "," (mask_days m)]
        else []
    | None => []
    end in
  let rule :=
    String.concat ";"
      (["FREQ=WEEKLY";
        "INTERVAL=" +:+ get_default (attrib el) "repeat_every" "1"]
       ++ until ++ byday) in
  Impl.build_rrule (Some el) = Ok (Some rule)
  ∧ Func.build_rrule (Some el) = Ok (Some rule)
  ∧ (∀ m d, d ∈ mask_days m
            ↔ ∃ i, String.get i m = Some "1"%char ∧ day_codes !! i = Some d)
  ∧ (∀ m, sublist (mask_days m) day_codes)
  ∧ (∀ m i, String.length m = 7%nat → String.get i m = Some "1"%char →
            mask_days m ≠ [])
  ∧ mask_days "0000000" = []
  ∧ mask_days "0010010" = ["TU"; "FR"].
Proof.
  intros (ty & Hty & Hw) Hu. cbv zeta.
  assert (byday_clause (attrib el !! "repeat_on")
          = match attrib el !! "repeat_on" with
            | Some m =>
                if bool_decide (String.length m = 7%nat ∧ mask_days m ≠ [])
                then ["BYDAY=" +:+ String.concat "," (mask_days m)]
                else []
            | None => []
            end) as Hby.
  { unfold byday_clause.
    destruct (attrib el !! "repeat_on") as [m|]; [|reflexivity].
    case_bool_decide as Hlen.
    + destruct (mask_days m) eqn:E.
      * rewrite bool_decide_false; [reflexivity | intros [_ ?]; congruence].
      * rewrite bool_decide_true; [reflexivity | split; congruence].
    + rewrite bool_decide_false; [reflexivity | intros [? _]; congruence]. }
  rewrite (impl_build_rrule_weekly el ty Hty Hw),
    (func_build_rrule_weekly el ty Hty Hw).
  unfold weekly_rule. rewrite (proj2 (until_clause_agree el until) Hu), Hu.
  cbn [bind]. rewrite Hby.
  split; [reflexivity|]. split; [reflexivity|].
  split; [apply mask_days_exact|]. split; [apply mask_days_order|].
  split; [|split; reflexivity].
  intros m i Hlen Hget Hnil.
  assert (i < 7)%nat as Hi.
  { rewrite <- Hlen. clear -Hget. revert i Hget.
    induction m as [|c m IH]; intros [|i] H; cbn in *;
      try discriminate; [lia|].
    apply IH in H. lia. }
  destruct (lookup_lt_is_Some_2 day_codes i Hi) as [d Hd].
  assert (d ∈ mask_days m) as Hin by (apply mask_days_exact; eauto).
  rewrite Hnil in Hin. now apply elem_of_nil in Hin.
Qed.

Lemma build_rrule_byday_witness :
  Impl.build_rrule (Some scenario_recurrence)
  = Ok (Some "FREQ=WEEKLY;INTERVAL=2;UNTIL=20220801T000000Z;BYDAY=TU,FR")
  ∧ Func.build_rrule (Some scenario_recurrence)
    = Ok (Some "FREQ=WEEKLY;INTERVAL=2;UNTIL=20220801T000000Z;BYDAY=TU,FR").
Proof.
  destruct (build_rrule_byday scenario_recurrence ["UNTIL=20220801T000000Z"])
    as (Hi & Hf & _).
  - exists "Weekly". split; reflexivity.
  - vm_compute. reflexivity.
  - split; [exact Hi | exact Hf].
Defined.

(** ** Recurrences that are not weekly *)
Section NoRule.








End NoRule.






(** ** Escaping *)
Section Escaping.

(** Occurrences of a character. *)
Fixpoint count_char (c : ascii) (s : string) : nat :=
  match s with
  | "" => O
  | String a s' => ((if bool_decide (a = c) then 1 else 0) + count_char c s')%nat
  end.

Lemma count_char_none (c : ascii) (s : string) :
  count_char c s = O ↔ find c s = None.
Proof.
  induction s as [|a s IH]; simpl; [tauto|].
  case_bool_decide; [split; [lia | discriminate]|].
  rewrite Nat.add_0_l, IH. destruct (find c s); simpl; split; congruence.
Qed.

(** [replace] with a pattern of one character, step by step. *)
Lemma replace_char_cons (c a : ascii) (new s : string) :
  replace (String c "") new (String a s)
  = if bool_decide (c = a) then new +:+ replace (String c "") new s
    else String a (replace (String c "") new s).
Proof.
  unfold replace. simpl. destruct (bool_decide (c = a)); reflexivity.
Qed.

Lemma replace_char_app (c : ascii) (new s t : string) :
  replace (String c "") new (s +:+ t)
  = replace (String c "") new s +:+ replace (String c "") new t.
Proof.
  induction s as [|a s IH]; [reflexivity|].
  rewrite app_cons, !replace_char_cons, IH.
  destruct (bool_decide (c = a)); [now rewrite app_assoc_str | reflexivity].
Qed.

Lemma replace_char_length (c x y : ascii) (s : string) :
  String.length (replace (String c "") (String x (String y "")) s)
  = (String.length s + count_char c s)%nat.
Proof.
  induction s as [|a s IH]; [reflexivity|].
  rewrite replace_char_cons. simpl count_char.
  rewrite (bool_decide_ext (a = c) (c = a)) by (split; congruence).
  destruct (bool_decide (c = a)); simpl; rewrite IH; lia.
Qed.

Lemma replace_char_absent (c : ascii) (new s : string) :
  find c s = None → replace (String c "") new s = s.
Proof.
  induction s as [|a s IH]; [reflexivity|].
  rewrite replace_char_cons. simpl.
  rewrite (bool_decide_ext (a = c) (c = a)) by (split; congruence).
  destruct (bool_decide (c = a)); [discriminate|].
  destruct (find c s); [discriminate|]. intros _. now rewrite IH.
Qed.

Lemma find_app_none (c : ascii) (s t : string) :
  find c s = None → find c t = None → find c (s +:+ t) = None.
Proof.
  intros Hs Ht. induction s as [|a s IH]; [exact Ht|].
  simpl in Hs |- *. destruct (bool_decide (a = c)); [discriminate|].
  destruct (find c s); [discriminate|]. now rewrite IH.
Qed.

(** After [replace("\n", ...)] no LF is left. *)
Lemma replace_lf_none (new : string) (s : string) :
  find LF new = None →
  find LF (replace (String LF "") new s) = None.
Proof.
  intros Hnew. induction s as [|a s IH]; [reflexivity|].
  rewrite replace_char_cons. case_bool_decide as Ha.
  - now apply find_app_none.
  - simpl. rewrite bool_decide_false by congruence. now rewrite IH.
Qed.

(** [replace("\r\n", "\\n")] keeps the length, and copies a text
    without LF. *)
Lemma replace_crlf_length (x y : ascii) (s : string) :
  String.length (replace_from CRLF (String x (String y "")) 0 s) = String.length s
  ∧ String.length (replace_from CRLF (String x (String y "")) 1 s)
    = (String.length s - 1)%nat.
Proof.
  induction s as [|a s [IH0 IH1]]; [split; reflexivity|]. split.
  - cbn [replace_from].
    destruct (startswith CRLF (String a s)) eqn:E.
    + change (String.length CRLF - 1)%nat with 1%nat.
      rewrite app_cons. cbn [String.length String.append]. rewrite IH1.
      destruct s as [|b s]; [|simpl; lia].
      simpl in E. now rewrite andb_false_r in E.
    + simpl. now rewrite IH0.
  - cbn [replace_from]. rewrite IH0. simpl. lia.
Qed.

Lemma replace_crlf_absent (new s : string) :
  find LF s = None → replace CRLF new s = s.
Proof.
  unfold replace. induction s as [|a s IH]; [reflexivity|].
  simpl find. case_bool_decide as Ha; [discriminate|].
  destruct (find LF s) eqn:Hf; [discriminate|]. intros _.
  cbn [replace_from].
  assert (startswith CRLF (String a s) = false) as ->.
  { simpl. destruct (bool_decide (CR = a)); [|reflexivity].
    destruct s as [|b s]; [reflexivity|]. simpl in Hf.
    destruct (bool_decide (b = LF)) eqn:Eb; [discriminate|].
    apply bool_decide_eq_false in Eb. simpl.
    now rewrite (bool_decide_false (LF = b)) by congruence. }
  now rewrite IH.
Qed.

(** A text is plain when it has no backslash, semicolon, comma or LF. *)
Definition plain (s : string) : Prop :=
  find BACKSLASH s = None ∧ find ";" s = None ∧ find "," s = None
  ∧ find LF s = None.

(** A text has no tag when the substitution of the tags removes nothing. *)
Definition no_tags (s : string) : Prop := sub_tags s = s.

Lemma no_open_no_tags (s : string) : find "<" s = None → no_tags s.
Proof.
  unfold no_tags, sub_tags. induction s as [|a s IH]; [reflexivity|].
  simpl. case_bool_decide as Ha; [discriminate|].
  destruct (find "<" s); [discriminate|]. intros _. now rewrite IH.
Qed.

Lemma func_ics_escape (s : option string) :
  Func.ics_escape s = Impl.ics_escape s.
Proof. destruct s as [[|c s]|]; reflexivity. Qed.

Lemma ics_escape_plain (s : string) :
  no_tags s → plain s → Impl.ics_escape (Some s) = s.
Proof.
  intros Ht (Hb & Hs & Hc & Hl). unfold Impl.ics_escape. rewrite Ht.
  rewrite (replace_char_absent BACKSLASH) by exact Hb.
  change ";" with (String ";"%char "") at 1.
  rewrite (replace_char_absent ";") by exact Hs.
  change "," with (String ","%char "") at 1.
  rewrite (replace_char_absent ",") by exact Hc.
  rewrite replace_crlf_absent by exact Hl.
  now apply replace_char_absent.
Qed.

Lemma ics_escape_fixed (s : string) :
  no_tags s → Impl.ics_escape (Some s) = s → plain s.
Proof.
  intros Ht. unfold Impl.ics_escape. rewrite Ht.
  set (e1 := replace (String BACKSLASH "") _ s).
  set (e2 := replace ";" _ e1).
  set (e3 := replace "," _ e2).
  set (e4 := replace CRLF _ e3).
  intros H5.
  assert (String.length e1 = String.length s + count_char BACKSLASH s)%nat
    as L1 by apply replace_char_length.
  assert (String.length e2 = String.length e1 + count_char ";" e1)%nat
    as L2 by apply (replace_char_length ";").
  assert (String.length e3 = String.length e2 + count_char "," e2)%nat
    as L3 by apply (replace_char_length ",").
  assert (String.length e4 = String.length e3)
    as L4 by apply replace_crlf_length.
  assert (String.length s = String.length e4 + count_char LF e4)%nat as L5.
  { rewrite <- H5 at 1. apply (replace_char_length LF). }
  assert (find BACKSLASH s = None) as Hb by (apply count_char_none; lia).
  assert (e1 = s) as E1 by (now apply replace_char_absent).
  assert (find ";" s = None) as Hs by (apply count_char_none; rewrite <- E1; lia).
  assert (e2 = s) as E2.
  { unfold e2. rewrite E1. now apply (replace_char_absent ";"). }
  assert (find "," s = None) as Hc by (apply count_char_none; rewrite <- E2; lia).
  assert (find LF s = None) as Hl.
  { rewrite <- H5. apply replace_lf_none. reflexivity. }
  repeat split; assumption.
Qed.

End Escaping.

(** C6, as stated, fails: the escaped form of a semicolon has no tag and
    no line break, and escaping it once more changes it. *)
Lemma ics_escape_not_idempotent :
  let escaped := Impl.ics_escape (Some ";") in
  escaped = String BACKSLASH ";"
  ∧ no_tags escaped ∧ find LF escaped = None
  ∧ Impl.ics_escape (Some escaped)
    = String BACKSLASH (String BACKSLASH (String BACKSLASH ";"))
  ∧ Impl.ics_escape (Some escaped) ≠ escaped
  ∧ Func.ics_escape (Some (Func.ics_escape (Some ";")))
    ≠ Func.ics_escape (Some ";").
Proof.
  cbv zeta. repeat split; try (vm_compute; reflexivity);
    vm_compute; discriminate.
Qed.

(** C6, amended.  On a text without tags, [ics_escape] returns the text
    unchanged exactly when the text has no backslash, semicolon, comma or
    LF.  So escaping twice is the same as escaping once exactly when the
    escaped text carries none of these characters: text with no special
    character, tag or line break is returned as it is, and an escaped
    backslash, semicolon or comma is escaped again.  Both modules escape
    alike. *)
Theorem ics_escape_fixed_points (s : string) :
  no_tags s →
  (Impl.ics_escape (Some s) = s ↔ plain s)
  ∧ (plain s → Impl.ics_escape (Some (Impl.ics_escape (Some s)))
               = Impl.ics_escape (Some s))
  ∧ (no_tags (Impl.ics_escape (Some s)) →
     (Impl.ics_escape (Some (Impl.ics_escape (Some s)))
      = Impl.ics_escape (Some s)
      ↔ plain (Impl.ics_escape (Some s))))
  ∧ (∀ o, Func.ics_escape o = Impl.ics_escape o).
Proof.
  intros Ht. split; [|split; [|split]].
  - split; [now apply ics_escape_fixed | now apply ics_escape_plain].
  - intros Hp. now rewrite !(ics_escape_plain s Ht Hp).
  - intros Ht'. split; [now apply ics_escape_fixed | now apply ics_escape_plain].
  - apply func_ics_escape.
Qed.

Lemma ics_escape_fixed_points_witness :
  Impl.ics_escape (Some "Intro Class") = "Intro Class"
  ∧ Impl.ics_escape (Some (Impl.ics_escape (Some "Intro Class")))
    = Impl.ics_escape (Some "Intro Class").
Proof.
  assert (no_tags "Intro Class") as Ht by (vm_compute; reflexivity).
  assert (plain "Intro Class") as Hp by (repeat split; vm_compute; reflexivity).
  destruct (ics_escape_fixed_points "Intro Class" Ht) as (Hfix & Hidem & _).
  split; [now apply Hfix | now apply Hidem].
Defined.

(** ** Parsing and rendering time stamps *)
Section RoundTrip.

(** [fromisoformat] returns only what the constructor accepts. *)
Lemma fromisoformat_fields (s : string) (dt : datetime) :
  fromisoformat s = Some dt →
  check_fields (year dt) (month dt) (day dt) (hour dt) (minute dt)
    (second dt) (microsecond dt) = true.
Proof.
  unfold fromisoformat. destruct (_ <? 7)%nat; [discriminate|].
  intros H. apply bind_Some in H as (sep & _ & H).
  apply bind_Some in H as ([[y m] d] & _ & H).
  apply bind_Some in H as ([[[hh mm] ss] us] & _ & H).
  unfold new_datetime in H.
  destruct (check_fields y m d hh mm ss us) eqn:E; [|discriminate].
  injection H as <-. exact E.
Qed.

Definition digits2 (a b : ascii) : Z := digit_value a * 10 + digit_value b.
Definition digits4 (a b c d : ascii) : Z :=
  ((digit_value a * 10 + digit_value b) * 10 + digit_value c) * 10
  + digit_value d.

Lemma digit_not (c x : ascii) :
  is_ascii_digit c = true → is_ascii_digit x = false →
  bool_decide (c = x) = false.
Proof. intros Hc Hx. apply bool_decide_false. intros ->. congruence. Qed.

Lemma not_digit (c x : ascii) :
  is_ascii_digit c = true → is_ascii_digit x = false →
  bool_decide (x = c) = false.
Proof. intros Hc Hx. apply bool_decide_false. intros ->. congruence. Qed.

#[local] Arguments is_ascii_digit : simpl never.
#[local] Arguments digit_value : simpl never.

Ltac digit_facts :=
  repeat match goal with
    | H : is_ascii_digit ?c = true |- context [bool_decide (?c = ?x)] =>
        rewrite (digit_not c x H eq_refl)
    | H : is_ascii_digit ?c = true |- context [bool_decide (?x = ?c)] =>
        rewrite (not_digit c x H eq_refl)
    | H : is_ascii_digit ?c = true |- context [is_ascii_digit ?c] =>
        rewrite H
    end.

Lemma digit_low (c : ascii) :
  is_ascii_digit c = true → (N_of_ascii c <? 128)%N = true.
Proof.
  unfold is_ascii_digit. intros H. apply andb_prop in H as [_ H].
  apply Z.leb_le in H. apply N.ltb_lt. lia.
Qed.

Lemma utf8_low (c : ascii) (s : string) :
  (N_of_ascii c <? 128)%N = true → utf8 (String c s) = String c (utf8 s).
Proof. intros H. cbn [utf8]. now rewrite H. Qed.

(** The buffer of a text of digits and known ASCII characters. *)
Ltac utf8_plain :=
  rewrite ?utf8_low by first [apply digit_low; assumption | reflexivity];
  change (utf8 "") with "".

(** Tests on characters that are known. *)
Ltac known_chars :=
  repeat match goal with
    | |- context [bool_decide (Ascii ?a ?b ?c ?d ?e ?f ?g ?h = ?y)] =>
        first
          [ rewrite (bool_decide_true (Ascii a b c d e f g h = y)) by reflexivity
          | rewrite (bool_decide_false (Ascii a b c d e f g h = y)) by discriminate ]
    | |- context [is_ascii_digit (Ascii ?a ?b ?c ?d ?e ?f ?g ?h)] =>
        let v := eval vm_compute in (is_ascii_digit (Ascii a b c d e f g h)) in
        change (is_ascii_digit (Ascii a b c d e f g h)) with v
    | |- context [(N_of_ascii (Ascii ?a ?b ?c ?d ?e ?f ?g ?h) <? 128)%N] =>
        let v := eval vm_compute in (N_of_ascii (Ascii a b c d e f g h) <? 128)%N in
        change (N_of_ascii (Ascii a b c d e f g h) <? 128)%N with v
    end.

(** One step of the scanner on a buffer whose characters are digits or
    known. *)
Ltac iso_step :=
  cbn [parse_digits parse_hms mbind option_bind fmap option_fmap option_map
       Nat.add Nat.sub Nat.ltb Nat.leb Nat.eqb negb andb orb nth
       String.length drop find_tzinfo digit_run Nat.max Nat.even];
  unfold byte_is, byte_at, NUL; cbn [String.get ascii_of_N ascii_of_pos];
  digit_facts; known_chars.

Ltac iso_eval := repeat (progress iso_step).

(** The basic form YYYYMMDDTHHMMSS, digit by digit. *)
Lemma fromisoformat_basic_chars
    (y1 y2 y3 y4 m1 m2 d1 d2 h1 h2 n1 n2 s1 s2 : ascii) :
  Forall (λ c, is_ascii_digit c = true)
    [y1; y2; y3; y4; m1; m2; d1; d2; h1; h2; n1; n2; s1; s2] →
  fromisoformat
    (String y1 (String y2 (String y3 (String y4 (String m1 (String m2
     (String d1 (String d2 (String "T" (String h1 (String h2 (String n1
      (String n2 (String s1 (String s2 "")))))))))))))))
  = new_datetime (digits4 y1 y2 y3 y4) (digits2 m1 m2) (digits2 d1 d2)
      (digits2 h1 h2) (digits2 n1 n2) (digits2 s1 s2) 0.
Proof.
  intros H. repeat (apply Forall_cons_1 in H as [? H]). clear H.
  unfold fromisoformat.
  change (String.length _ <? 7)%nat with false. cbv iota.
  utf8_plain. cbv zeta.
  unfold find_isoformat_datetime_separator. iso_eval.
  unfold parse_isoformat_date. iso_eval.
  unfold parse_isoformat_time. iso_eval.
  unfold parse_hh_mm_ss_ff. iso_eval.
  rewrite bool_decide_true by reflexivity. cbn [negb mbind option_bind].
  unfold digits4, digits2. repeat f_equal; lia.
Qed.


(** A stamp whose year has fewer than four digits is not read back: the
    scanner takes the first four characters for the year and finds the T
    where it expects a digit of the month or of the day. *)
Lemma fromisoformat_year3
    (y1 y2 y3 m1 m2 d1 d2 h1 h2 n1 n2 s1 s2 : ascii) :
  Forall (λ c, is_ascii_digit c = true)
    [y1; y2; y3; m1; m2; d1; d2; h1; h2; n1; n2; s1; s2] →
  fromisoformat
    (String y1 (String y2 (String y3 (String m1 (String m2
     (String d1 (String d2 (String "T" (String h1 (String h2 (String n1
      (String n2 (String s1 (String s2 ""))))))))))))))
  = None.
Proof.
  intros H. repeat (apply Forall_cons_1 in H as [? H]). clear H.
  unfold fromisoformat.
  change (String.length _ <? 7)%nat with false. cbv iota.
  utf8_plain. cbv zeta.
  unfold find_isoformat_datetime_separator. iso_eval.
  unfold parse_isoformat_date. iso_eval. reflexivity.
Qed.

Lemma fromisoformat_year2
    (y1 y2 m1 m2 d1 d2 h1 h2 n1 n2 s1 s2 : ascii) :
  Forall (λ c, is_ascii_digit c = true)
    [y1; y2; m1; m2; d1; d2; h1; h2; n1; n2; s1; s2] →
  fromisoformat
    (String y1 (String y2 (String m1 (String m2
     (String d1 (String d2 (String "T" (String h1 (String h2 (String n1
      (String n2 (String s1 (String s2 "")))))))))))))
  = None.
Proof.
  intros H. repeat (apply Forall_cons_1 in H as [? H]). clear H.
  unfold fromisoformat.
  change (String.length _ <? 7)%nat with false. cbv iota.
  utf8_plain. cbv zeta.
  unfold find_isoformat_datetime_separator. iso_eval.
  unfold parse_isoformat_date. iso_eval. reflexivity.
Qed.

Lemma fromisoformat_year1
    (y1 m1 m2 d1 d2 h1 h2 n1 n2 s1 s2 : ascii) :
  Forall (λ c, is_ascii_digit c = true)
    [y1; m1; m2; d1; d2; h1; h2; n1; n2; s1; s2] →
  fromisoformat
    (String y1 (String m1 (String m2
     (String d1 (String d2 (String "T" (String h1 (String h2 (String n1
      (String n2 (String s1 (String s2 ""))))))))))))
  = None.
Proof.
  intros H. repeat (apply Forall_cons_1 in H as [? H]). clear H.
  unfold fromisoformat.
  change (String.length _ <? 7)%nat with false. cbv iota.
  utf8_plain. cbv zeta.
  unfold find_isoformat_datetime_separator. iso_eval.
  unfold parse_isoformat_date. iso_eval. reflexivity.
Qed.

Lemma search_wrapper_no_brace (s : string) :
  find "{" s = None → search_wrapper s = None.
Proof.
  induction s as [|a s IH]; [reflexivity|].
  simpl find. case_bool_decide as Ha; [discriminate|].
  destruct (find "{" s); [discriminate|]. intros _.
  cbn [search_wrapper].
  assert (match_wrapper (String a s) = None) as ->.
  { unfold match_wrapper. simpl startswith.
    rewrite (bool_decide_false ("{"%char = a)) by congruence. reflexivity. }
  now apply IH.
Qed.

(** A text without brace and without Z, followed by Z, goes through the
    plain ISO branch of both parsers, which drops the Z. *)
Lemma plain_branch (b r : string) :
  r = b +:+ "Z" → find "{" b = None → find "Z" b = None →
  Impl.parse_utcdatetime (Some r)
  = match fromisoformat b with
    | Some dt => Ok (Some dt)
    | None => Raise (ValueError ("Unrecognized datetime format: " +:+ r))
    end
  ∧ Func.parse_utcdatetime (Some r)
    = match fromisoformat b with
      | Some dt => Ok (Some dt)
      | None => Raise (IsoformatError b)
      end
  ∧ replace "Z" "" r = b.
Proof.
  intros -> Hb Hz.
  assert (replace "Z" "" (b +:+ "Z") = b) as Hrep.
  { change "Z" with (String "Z"%char "").
    rewrite replace_char_app, replace_char_absent by exact Hz.
    apply app_empty_r. }
  assert (search_wrapper (b +:+ "Z") = None) as Hre.
  { apply search_wrapper_no_brace, find_app_none; [exact Hb | reflexivity]. }
  unfold Impl.parse_utcdatetime, Func.parse_utcdatetime.
  rewrite Hre, Hrep. repeat split; reflexivity.
Qed.

(** The basic form with its Z goes through the plain ISO branch of both
    parsers. *)
Lemma parse_basic_chars
    (y1 y2 y3 y4 m1 m2 d1 d2 h1 h2 n1 n2 s1 s2 : ascii) (dt : datetime) :
  Forall (λ c, is_ascii_digit c = true)
    [y1; y2; y3; y4; m1; m2; d1; d2; h1; h2; n1; n2; s1; s2] →
  new_datetime (digits4 y1 y2 y3 y4) (digits2 m1 m2) (digits2 d1 d2)
    (digits2 h1 h2) (digits2 n1 n2) (digits2 s1 s2) 0 = Some dt →
  let r :=
    String y1 (String y2 (String y3 (String y4 (String m1 (String m2
     (String d1 (String d2 (String "T" (String h1 (String h2 (String n1
      (String n2 (String s1 (String s2 "Z")))))))))))))) in
  Impl.parse_utcdatetime (Some r) = Ok (Some dt)
  ∧ Func.parse_utcdatetime (Some r) = Ok (Some dt).
Proof.
  intros H Hdt r.
  destruct (plain_branch
              (String y1 (String y2 (String y3 (String y4 (String m1 (String m2
                (String d1 (String d2 (String "T" (String h1 (String h2
                 (String n1 (String n2 (String s1 (String s2 "")))))))))))))))
              r eq_refl) as (Hi & Hf & _).
  1,2: repeat (apply Forall_cons_1 in H as [? H]); clear H;
       cbn [find]; digit_facts; known_chars; reflexivity.
  rewrite fromisoformat_basic_chars, Hdt in Hi, Hf by exact H. auto.
Qed.

Lemma digit_char_digit (a : Z) :
  0 ≤ a ≤ 9 → is_ascii_digit (digit_char a) = true.
Proof.
  intros H.
  assert (a = 0 ∨ a = 1 ∨ a = 2 ∨ a = 3 ∨ a = 4 ∨ a = 5 ∨ a = 6 ∨ a = 7
          ∨ a = 8 ∨ a = 9) as Ha by lia.
  destruct Ha as [->|[->|[->|[->|[->|[->|[->|[->|[->| ->]]]]]]]]];
    reflexivity.
Qed.

Lemma digit_char_value (a : Z) :
  0 ≤ a ≤ 9 → digit_value (digit_char a) = a.
Proof.
  intros H.
  assert (a = 0 ∨ a = 1 ∨ a = 2 ∨ a = 3 ∨ a = 4 ∨ a = 5 ∨ a = 6 ∨ a = 7
          ∨ a = 8 ∨ a = 9) as Ha by lia.
  destruct Ha as [->|[->|[->|[->|[->|[->|[->|[->|[->| ->]]]]]]]]];
    reflexivity.
Qed.

Lemma zfill2_digits (n : Z) :
  0 ≤ n ≤ 99 →
  is_ascii_digit (digit_char (n / 10)) = true
  ∧ is_ascii_digit (digit_char (n mod 10)) = true
  ∧ digits2 (digit_char (n / 10)) (digit_char (n mod 10)) = n.
Proof.
  intros H.
  assert (0 ≤ n / 10 ≤ 9) as H1 by (Z.div_mod_to_equations; lia).
  assert (0 ≤ n mod 10 ≤ 9) as H2 by (Z.div_mod_to_equations; lia).
  repeat split; try (now apply digit_char_digit).
  unfold digits2. rewrite !digit_char_value by assumption.
  Z.div_mod_to_equations; lia.
Qed.

Lemma zfill4_digits (n : Z) :
  0 ≤ n ≤ 9999 →
  is_ascii_digit (digit_char (n / 1000)) = true
  ∧ is_ascii_digit (digit_char (n / 100 mod 10)) = true
  ∧ is_ascii_digit (digit_char (n / 10 mod 10)) = true
  ∧ is_ascii_digit (digit_char (n mod 10)) = true
  ∧ digits4 (digit_char (n / 1000)) (digit_char (n / 100 mod 10))
      (digit_char (n / 10 mod 10)) (digit_char (n mod 10)) = n.
Proof.
  intros H.
  assert (0 ≤ n / 1000 ≤ 9) as H1 by (Z.div_mod_to_equations; lia).
  assert (0 ≤ n / 100 mod 10 ≤ 9) as H2 by (Z.div_mod_to_equations; lia).
  assert (0 ≤ n / 10 mod 10 ≤ 9) as H3 by (Z.div_mod_to_equations; lia).
  assert (0 ≤ n mod 10 ≤ 9) as H4 by (Z.div_mod_to_equations; lia).
  repeat split; try (now apply digit_char_digit).
  unfold digits4. rewrite !digit_char_value by assumption.
  Z.div_mod_to_equations; lia.
Qed.

Lemma days_in_month_le (y m : Z) : days_in_month y m ≤ 31.
Proof.
  unfold days_in_month. destruct ((m =? 2) && is_leap y); [lia|].
  destruct (Z.to_nat m) as [|[|[|[|[|[|[|[|[|[|[|[|[|k]]]]]]]]]]]]];
    simpl; try lia.
  destruct k; simpl; lia.
Qed.

Lemma check_fields_ranges (y m d hh mm ss us : Z) :
  check_fields y m d hh mm ss us = true →
  0 ≤ y ≤ 9999 ∧ 0 ≤ m ≤ 99 ∧ 0 ≤ d ≤ 99 ∧ 0 ≤ hh ≤ 99 ∧ 0 ≤ mm ≤ 99
  ∧ 0 ≤ ss ≤ 99 ∧ check_fields y m d hh mm ss 0 = true.
Proof.
  unfold check_fields, MINYEAR, MAXYEAR. intros H.
  repeat (apply andb_prop in H as [H ?]).
  pose proof (days_in_month_le y m).
  repeat match goal with
         | H : (_ <=? _) = true |- _ => apply Z.leb_le in H
         end.
  repeat split; lia.
Qed.

(** The stamp with the year padded to four digits.  From the year 1000
    on it is what [strftime] writes. *)
Definition padded_basic (dt : datetime) : string :=
  zfill4 (year dt) +:+ zfill2 (month dt) +:+ zfill2 (day dt) +:+ "T"
  +:+ zfill2 (hour dt) +:+ zfill2 (minute dt) +:+ zfill2 (second dt) +:+ "Z".

Lemma decimal_year_four (y : Z) : 1000 ≤ y → decimal_year y = zfill4 y.
Proof.
  intros H. unfold decimal_year.
  rewrite !(proj2 (Z.ltb_ge _ _)) by lia. reflexivity.
Qed.

Lemma strftime_basic_four (dt : datetime) :
  1000 ≤ year dt → strftime_basic dt = padded_basic dt.
Proof.
  intros H. unfold strftime_basic, strftime_date, padded_basic.
  rewrite decimal_year_four by exact H. now rewrite !app_assoc_str.
Qed.

(** The padded stamp of a valid [datetime] parses back to it, up to the
    microseconds, which the rendering leaves out. *)
Lemma parse_padded (dt : datetime) :
  check_fields (year dt) (month dt) (day dt) (hour dt) (minute dt)
    (second dt) (microsecond dt) = true →
  let dt0 := mk_datetime (year dt) (month dt) (day dt) (hour dt) (minute dt)
               (second dt) 0 in
  Impl.parse_utcdatetime (Some (padded_basic dt)) = Ok (Some dt0)
  ∧ Func.parse_utcdatetime (Some (padded_basic dt)) = Ok (Some dt0).
Proof.
  intros Hc dt0.
  apply check_fields_ranges in Hc as (Hy & Hm & Hd & Hh & Hn & Hs & Hc0).
  destruct (zfill4_digits _ Hy) as (Y1 & Y2 & Y3 & Y4 & Yv).
  destruct (zfill2_digits _ Hm) as (M1 & M2 & Mv).
  destruct (zfill2_digits _ Hd) as (D1 & D2 & Dv).
  destruct (zfill2_digits _ Hh) as (H1 & H2 & Hv).
  destruct (zfill2_digits _ Hn) as (N1 & N2 & Nv).
  destruct (zfill2_digits _ Hs) as (S1 & S2 & Sv).
  cbv [padded_basic zfill4 zfill2 String.append].
  apply parse_basic_chars; [repeat constructor; assumption|].
  rewrite Yv, Mv, Dv, Hv, Nv, Sv; unfold new_datetime; now rewrite Hc0.
Qed.

(** The rendered time stamp of a valid [datetime] of the year 1000 or
    later parses back to it, up to the microseconds. *)
Lemma parse_rendered (dt : datetime) :
  check_fields (year dt) (month dt) (day dt) (hour dt) (minute dt)
    (second dt) (microsecond dt) = true →
  1000 ≤ year dt →
  let dt0 := mk_datetime (year dt) (month dt) (day dt) (hour dt) (minute dt)
               (second dt) 0 in
  Impl.parse_utcdatetime (Some (strftime_basic dt)) = Ok (Some dt0)
  ∧ Func.parse_utcdatetime (Some (strftime_basic dt)) = Ok (Some dt0)
  ∧ strftime_basic dt0 = strftime_basic dt.
Proof.
  intros Hc Hy dt0. rewrite (strftime_basic_four dt Hy).
  destruct (parse_padded dt Hc) as [Hi Hf].
  split; [exact Hi|]. split; [exact Hf|].
  exact (strftime_basic_four dt0 Hy).
Qed.

(** Before the year 1000 the rendered time stamp is shorter, and neither
    parser reads it back. *)
Lemma parse_rendered_short (dt : datetime) :
  check_fields (year dt) (month dt) (day dt) (hour dt) (minute dt)
    (second dt) (microsecond dt) = true →
  year dt < 1000 →
  Impl.parse_utcdatetime (Some (strftime_basic dt))
  = Raise (ValueError ("Unrecognized datetime format: " +:+ strftime_basic dt))
  ∧ Func.parse_utcdatetime (Some (strftime_basic dt))
    = Raise (IsoformatError (replace "Z" "" (strftime_basic dt))).
Proof.
  intros Hc Hy.
  apply check_fields_ranges in Hc as (Hy0 & Hm & Hd & Hh & Hn & Hs & _).
  destruct (zfill2_digits _ Hm) as (M1 & M2 & _).
  destruct (zfill2_digits _ Hd) as (D1 & D2 & _).
  destruct (zfill2_digits _ Hh) as (H1 & H2 & _).
  destruct (zfill2_digits _ Hn) as (N1 & N2 & _).
  destruct (zfill2_digits _ Hs) as (S1 & S2 & _).
  unfold strftime_basic, strftime_date, decimal_year.
  destruct (Z.ltb_spec (year dt) 10) as [H10|H10];
    [|destruct (Z.ltb_spec (year dt) 100) as [H100|H100];
      [|destruct (Z.ltb_spec (year dt) 1000) as [_|?]; [|lia]]].
  - pose proof (digit_char_digit (year dt) ltac:(lia)) as Y1.
    cbv [zfill2 String.append].
    match goal with
    | |- context [Impl.parse_utcdatetime (Some ?r)] =>
        destruct (plain_branch
                    (String _ (String _ (String _ (String _ (String _
                      (String _ (String _ (String _ (String _ (String _
                       (String _ (String _ "")))))))))))) r eq_refl)
          as (Hi & Hf & Hr)
    end.
    1,2: cbn [find]; digit_facts; known_chars; reflexivity.
    rewrite Hr. rewrite fromisoformat_year1 in Hi, Hf
      by (repeat constructor; assumption). auto.
  - assert (0 ≤ year dt ≤ 99) as Hy2 by lia.
    destruct (zfill2_digits _ Hy2) as (Y1 & Y2 & _).
    cbv [zfill2 String.append].
    match goal with
    | |- context [Impl.parse_utcdatetime (Some ?r)] =>
        destruct (plain_branch
                    (String _ (String _ (String _ (String _ (String _
                      (String _ (String _ (String _ (String _ (String _
                       (String _ (String _ (String _ ""))))))))))))) r eq_refl)
          as (Hi & Hf & Hr)
    end.
    1,2: cbn [find]; digit_facts; known_chars; reflexivity.
    rewrite Hr. rewrite fromisoformat_year2 in Hi, Hf
      by (repeat constructor; assumption). auto.
  - pose proof (digit_char_digit (year dt / 100)
                  ltac:(Z.div_mod_to_equations; lia)) as Y1.
    assert (0 ≤ year dt mod 100 ≤ 99) as Hy2
      by (Z.div_mod_to_equations; lia).
    destruct (zfill2_digits _ Hy2) as (Y2 & Y3 & _).
    cbv [zfill2 String.append].
    match goal with
    | |- context [Impl.parse_utcdatetime (Some ?r)] =>
        destruct (plain_branch
                    (String _ (String _ (String _ (String _ (String _
                      (String _ (String _ (String _ (String _ (String _
                       (String _ (String _ (String _ (String _ "")))))))))))))) r eq_refl)
          as (Hi & Hf & Hr)
    end.
    1,2: cbn [find]; digit_facts; known_chars; reflexivity.
    rewrite Hr. rewrite fromisoformat_year3 in Hi, Hf
      by (repeat constructor; assumption). auto.
Qed.


Lemma impl_parse_fields (s : string) (dt : datetime) :
  Impl.parse_utcdatetime (Some s) = Ok (Some dt) →
  check_fields (year dt) (month dt) (day dt) (hour dt) (minute dt)
    (second dt) (microsecond dt) = true.
Proof.
  unfold Impl.parse_utcdatetime.
  destruct (search_wrapper s) as [iso|].
  - destruct (fromisoformat _) as [d|] eqn:E; [|discriminate].
    intros [= <-]. eapply fromisoformat_fields, E.
  - destruct (fromisoformat _) as [d|] eqn:E; [|discriminate].
    intros [= <-]. eapply fromisoformat_fields, E.
Qed.


End RoundTrip.




(** ** The wrapper pattern wins *)

Section WrapperSearch.

Fixpoint all_in_class (s : string) : bool :=
  match s with
  | "" => true
  | String c s' => in_class c && all_in_class s'
  end.

Lemma class_run_stop (iso rest : string) :
  all_in_class iso = true →
  class_run (iso +:+ String "}" rest) = (iso, String "}" rest).
Proof.
  induction iso as [|c iso IH]; [reflexivity|].
  cbn [all_in_class]. intros [Hc Hs]%andb_prop.
  rewrite app_cons. cbn [class_run]. now rewrite Hc, IH.
Qed.

Lemma match_wrapper_here (iso rest : string) :
  iso ≠ "" → all_in_class iso = true →
  match_wrapper ("{utcdatetime:U" +:+ iso +:+ String "}" rest) = Some iso.
Proof.
  intros Hne Hc. unfold match_wrapper.
  change (startswith "{utcdatetime:U" _) with true. cbv iota.
  change (drop 14 ("{utcdatetime:U" +:+ ?x)) with x.
  rewrite class_run_stop by exact Hc. now destruct iso.
Qed.

Lemma search_wrapper_skip (pre s : string) :
  find "{" pre = None → search_wrapper (pre +:+ s) = search_wrapper s.
Proof.
  induction pre as [|a pre IH]; [reflexivity|].
  simpl find. case_bool_decide as Ha; [discriminate|].
  destruct (find "{" pre); [discriminate|]. intros _.
  rewrite app_cons. cbn [search_wrapper].
  assert (match_wrapper (String a (pre +:+ s)) = None) as ->.
  { unfold match_wrapper. simpl startswith.
    rewrite (bool_decide_false ("{"%char = a)) by congruence. reflexivity. }
  now apply IH.
Qed.

Lemma search_wrapper_found (pre iso post : string) :
  find "{" pre = None → iso ≠ "" → all_in_class iso = true →
  search_wrapper (pre +:+ "{utcdatetime:U" +:+ iso +:+ String "}" post)
  = Some iso.
Proof.
  intros Hpre Hne Hc. rewrite search_wrapper_skip by exact Hpre.
  pose proof (match_wrapper_here iso post Hne Hc) as Hm.
  change ("{utcdatetime:U" +:+ iso +:+ String "}" post)
    with (String "{" ("utcdatetime:U" +:+ iso +:+ String "}" post)) in *.
  cbn [search_wrapper]. now rewrite Hm.
Qed.

(** The class characters are ASCII: the buffer of a text of the class is
    the text. *)
Lemma utf8_class (s : string) : all_in_class s = true → utf8 s = s.
Proof.
  induction s as [|c s IH]; [reflexivity|].
  cbn [all_in_class]. intros [Hc Hs]%andb_prop.
  rewrite utf8_low, IH; auto.
  revert Hc. destruct c as [[] [] [] [] [] [] [] []]; vm_compute; congruence.
Qed.







End WrapperSearch.

(** [iso[:-4]] when [iso] ends with .000 *)
Definition trim_millis (iso : string) : string :=
  if endswith ".000" iso then take (String.length iso - 4) iso else iso.

Section WrapperWins.







End WrapperWins.




(** ** All-day events *)
Section AllDay.

(** The lower-cased attribute [is_allday_event] reads "true". *)
Definition is_allday (ev : event) : bool :=
  match ev_attrib ev !! "is_allday_event" with
  | Some v => bool_decide (lower v = "true")
  | None => false
  end.

(** What the loop does with [start_date] and [end_date]: a missing or
    empty text is no value, anything else goes to the parser. *)
Definition parsed (parse : option string → result (option datetime))
    (raw : option string) : result (option datetime) :=
  if truthy raw then parse raw else Ok None.

(** The line of a start or end value. *)
Definition date_line (tag : string) (all_day : bool) (x : option datetime)
    : list string :=
  match x with
  | Some dt =>
      [if all_day then tag +:+ ";VALUE=DATE:" +:+ strftime_date dt
       else tag +:+ ":" +:+ strftime_basic dt]
  | None => []
  end.

Lemma is_allday_code (ev : event) :
  bool_decide
    (lower (get_default (ev_attrib ev) "is_allday_event" "False") = "true")
  = is_allday ev.
Proof.
  unfold is_allday, get_default.
  destruct (ev_attrib ev !! "is_allday_event"); reflexivity.
Qed.



End AllDay.




Definition timed_event : event :=
  mk_event (list_to_map [("id", "7"); ("is_allday_event", "yes")])
    (Some "Intro <b>Class</b>") None
    (Some "{utcdatetime:U2022-07-14T19:00:00.000}")
    (Some "{utcdatetime:U2022-07-15T19:00:00.000}") None None.


(** ** Malformed time stamps *)
Section FailFast.

Definition is_weekly_b (el : element) : bool :=
  match attrib el !! "type" with
  | Some t => bool_decide (lower t = "weekly")
  | None => false
  end.

Lemma is_weekly_b_spec (el : element) : is_weekly_b el = true ↔ is_weekly el.
Proof.
  unfold is_weekly_b, is_weekly. destruct (attrib el !! "type") as [t|].
  - rewrite bool_decide_eq_true. split; [eauto|]. now intros (? & [= <-] & ?).
  - split; [discriminate|]. now intros (? & ? & _).
Qed.

(** A text that the code hands to the parser: [None] when it is missing
    or empty. *)
Definition given (raw : option string) : list string :=
  match raw with
  | Some (String c s) => [String c s]
  | _ => []
  end.

(** The time stamps of an event that [mxl_to_ics] parses, in the order
    in which it parses them: the start, the end, and the until value of a
    weekly recurrence. *)
Definition consulted (ev : event) : list string :=
  given (ev_start_date ev) ++ given (ev_end_date ev)
  ++ match ev_recurrence ev with
     | Some el => if is_weekly_b el then given (until_raw el) else []
     | None => []
     end.

Lemma impl_parse_some (s : string) :
  (∃ dt, Impl.parse_utcdatetime (Some s) = Ok (Some dt))
  ∨ (∃ e, Impl.parse_utcdatetime (Some s) = Raise e).
Proof.
  unfold Impl.parse_utcdatetime.
  destruct (search_wrapper s); destruct (fromisoformat _); eauto.
Qed.

(** The exception of the first text of a list that the parser rejects. *)
Fixpoint first_error (texts : list string) : option exn :=
  match texts with
  | [] => None
  | s :: rest =>
      match Impl.parse_utcdatetime (Some s) with
      | Raise e => Some e
      | Ok _ => first_error rest
      end
  end.

Lemma first_error_app (a b : list string) :
  first_error (a ++ b)
  = match first_error a with
    | Some e => Some e
    | None => first_error b
    end.
Proof.
  induction a as [|s a IH]; [reflexivity|].
  cbn [app first_error]. now destruct (Impl.parse_utcdatetime (Some s)).
Qed.

(** A run agrees with a list of texts: it raises the exception of the
    first text that is rejected, and returns when there is none. *)
Definition agrees {A : Type} (r : result A) (texts : list string) : Prop :=
  match r with
  | Ok _ => first_error texts = None
  | Raise e => first_error texts = Some e
  end.

(** The outcome of parsing an optional text the way the loop does. *)
Lemma parsed_agrees (raw : option string) :
  agrees (parsed Impl.parse_utcdatetime raw) (given raw)
  ∧ ∀ x, parsed Impl.parse_utcdatetime raw = Ok x →
         x = None ↔ truthy raw = false.
Proof.
  unfold parsed, given, agrees. destruct raw as [[|c s]|]; cbn [truthy].
  - split; [reflexivity|]. intros x [= <-]. tauto.
  - cbn [first_error].
    destruct (impl_parse_some (String c s)) as [[dt ->]|[e ->]].
    + split; [reflexivity|]. intros x [= <-]. split; discriminate.
    + split; [reflexivity|]. discriminate.
  - split; [reflexivity|]. intros x [= <-]. tauto.
Qed.

(** The until value that [build_rrule] parses: that of a weekly
    recurrence. *)
Definition until_given (recur_el : option element) : list string :=
  match recur_el with
  | Some el => if is_weekly_b el then given (until_raw el) else []
  | None => []
  end.

Lemma build_rrule_agrees (recur_el : option element) :
  agrees (Impl.build_rrule recur_el) (until_given recur_el).
Proof.
  unfold until_given. destruct recur_el as [el|]; [|reflexivity].
  destruct (is_weekly_b el) eqn:Hw.
  2:{ rewrite impl_build_rrule_other; [reflexivity|].
      rewrite <- is_weekly_b_spec. congruence. }
  apply is_weekly_b_spec in Hw as (ty & Hty & Hw).
  rewrite (impl_build_rrule_weekly el ty Hty Hw).
  unfold weekly_rule, until_clause.
  destruct (parsed_agrees (until_raw el)) as [Ha Hn].
  unfold parsed in Ha, Hn. destruct (truthy (until_raw el)); [|exact Ha].
  destruct (Impl.parse_utcdatetime (until_raw el)) as [[dt|]|e];
    cbn [bind Impl.strftime_of agrees] in *; try exact Ha.
  destruct (Hn None eq_refl) as [H _]. now specialize (H eq_refl).
Qed.

(** An event is rendered when all its time stamps parse; otherwise the
    loop body raises the exception of the first one that does not. *)
Lemma event_lines_agrees (now : nat → datetime) (ev : event) (t : nat) :
  agrees (Impl.event_lines now ev t) (consulted ev).
Proof.
  unfold Impl.event_lines, consulted.
  fold (parsed Impl.parse_utcdatetime (ev_start_date ev)).
  fold (parsed Impl.parse_utcdatetime (ev_end_date ev)).
  fold (until_given (ev_recurrence ev)).
  destruct (parsed_agrees (ev_start_date ev)) as [Hs _].
  destruct (parsed_agrees (ev_end_date ev)) as [He _].
  pose proof (build_rrule_agrees (ev_recurrence ev)) as Hr.
  rewrite !first_error_app || unfold agrees.
  destruct (parsed Impl.parse_utcdatetime (ev_start_date ev)) as [sdt|e];
    cbn [bind agrees] in *; rewrite first_error_app, Hs; [|reflexivity].
  destruct (parsed Impl.parse_utcdatetime (ev_end_date ev)) as [edt|e];
    cbn [bind agrees] in *; rewrite first_error_app, He; [|reflexivity].
  destruct (Impl.build_rrule (ev_recurrence ev)) as [r|e];
    cbn [bind agrees] in *; destruct sdt; exact Hr.
Qed.

Lemma for_events_agrees (now : nat → datetime) (evs : list event) :
  ∀ lines t,
    agrees (Impl.for_events now evs lines t) (flat_map consulted evs).
Proof.
  induction evs as [|ev evs IH]; intros lines t; [reflexivity|].
  cbn [Impl.for_events flat_map].
  pose proof (event_lines_agrees now ev t) as Hev.
  destruct (Impl.event_lines now ev t) as [[added t']|e];
    cbn [bind agrees] in *; unfold agrees; rewrite first_error_app, Hev.
  - apply IH.
  - reflexivity.
Qed.

(** The first rejected text of a list, by its place in the list. *)
Lemma first_error_at (before after : list string) (s : string) (e : exn) :
  Forall (λ x, ∃ dt, Impl.parse_utcdatetime (Some x) = Ok (Some dt)) before →
  Impl.parse_utcdatetime (Some s) = Raise e →
  first_error (before ++ s :: after) = Some e.
Proof.
  intros Hb Hs. induction Hb as [|x before [dt Hx] _ IH].
  - cbn [app first_error]. now rewrite Hs.
  - cbn [app first_error]. now rewrite Hx.
Qed.

Lemma first_error_none (texts : list string) :
  Forall (λ x, ∃ dt, Impl.parse_utcdatetime (Some x) = Ok (Some dt)) texts →
  first_error texts = None.
Proof.
  induction 1 as [|x texts [dt Hx] _ IH]; [reflexivity|].
  cbn [first_error]. now rewrite Hx.
Qed.

End FailFast.

Definition monthly_bad_until : event :=
  mk_event (list_to_map [("id", "7")]) (Some "Class") None
    (Some "{utcdatetime:U2022-07-14T19:00:00.000}") None None
    (Some (mk_element
             (list_to_map [("type", "Monthly"); ("until_date", "not-a-date")]))).

(** C2, as stated, fails: an until value that matches neither format is
    not looked at when the recurrence is not weekly; the conversion ends
    normally and the file is written. *)
Lemma mxl_to_ics_ignores_until_of_monthly :
  let run :=
    Impl.mxl_to_ics (λ _, mk_datetime 2026 1 2 3 4 5 6) [monthly_bad_until]
      "out.ics" ∅ in
  search_wrapper "not-a-date" = None
  ∧ fromisoformat (replace "Z" "" "not-a-date") = None
  ∧ Impl.parse_utcdatetime (Some "not-a-date")
    = Raise (ValueError "Unrecognized datetime format: not-a-date")
  ∧ run.1 = Ok ()
  ∧ run.2 !! "out.ics"
    = Some ("BEGIN:VCALENDAR" +:+ CRLF
            +:+ "PRODID:-//mxl-to-ics//saskpolytech//EN" +:+ CRLF
            +:+ "VERSION:2.0" +:+ CRLF +:+ "CALSCALE:GREGORIAN" +:+ CRLF
            +:+ "METHOD:PUBLISH" +:+ CRLF +:+ "BEGIN:VEVENT" +:+ CRLF
            +:+ "DTSTART:20220714T190000Z" +:+ CRLF
            +:+ "UID:7-20220714T190000Z@mxl2ics" +:+ CRLF
            +:+ "SUMMARY:Class" +:+ CRLF
            +:+ "DTSTAMP:20260102T030405Z" +:+ CRLF
            +:+ "END:VEVENT" +:+ CRLF +:+ "END:VCALENDAR" +:+ CRLF).
Proof. cbv zeta. repeat split; vm_compute; reflexivity. Qed.

(** C2, amended.  The time stamps that [mxl_to_ics] parses are, event
    by event in the order of the document, the non-empty start, the
    non-empty end and the non-empty until value of a weekly recurrence.
    When one of them fails to parse, [mxl_to_ics] raises the exception of
    the first that does and leaves the file system as it was; for a
    string that matches neither format that exception is the [ValueError]
    whose message ends with the string itself.  When all of them parse,
    the file is written: whatever a recurrence that is not weekly holds,
    its until value included, raises nothing. *)
Theorem mxl_to_ics_fail_fast (now : nat → datetime) (root : list event)
    (ics_out : string) (fs : gmap string string) :
  let parses s := ∃ dt, Impl.parse_utcdatetime (Some s) = Ok (Some dt) in
  (∀ before s after e,
     flat_map consulted root = before ++ s :: after →
     Forall parses before →
     Impl.parse_utcdatetime (Some s) = Raise e →
     Impl.mxl_to_ics now root ics_out fs = (Raise e, fs))
  ∧ (Forall parses (flat_map consulted root) →
     ∃ text, Impl.mxl_to_ics now root ics_out fs
             = (Ok (), <[ics_out := text]> fs))
  ∧ (Forall (λ ev,
               Forall parses (given (ev_start_date ev) ++ given (ev_end_date ev))
               ∧ ∀ el, ev_recurrence ev = Some el → ¬ is_weekly el) root →
     ∃ text, Impl.mxl_to_ics now root ics_out fs
             = (Ok (), <[ics_out := text]> fs))
  ∧ (∀ s e, Impl.parse_utcdatetime (Some s) = Raise e →
       search_wrapper s = None →
       fromisoformat (replace "Z" "" s) = None
       ∧ e = ValueError ("Unrecognized datetime format: " +:+ s))
  ∧ (∀ e fs', Impl.mxl_to_ics now root ics_out fs = (Raise e, fs') → fs' = fs).
Proof.
  cbv zeta.
  assert (∀ e, first_error (flat_map consulted root) = Some e →
               Impl.mxl_to_ics now root ics_out fs = (Raise e, fs)) as Hraise.
  { intros e He. unfold Impl.mxl_to_ics, Impl.document_lines.
    pose proof (for_events_agrees now root Impl.header 0) as Ha.
    destruct (Impl.for_events now root Impl.header 0) as [[lines t]|e'];
      cbn [agrees bind] in *; congruence. }
  assert (first_error (flat_map consulted root) = None →
          ∃ text, Impl.mxl_to_ics now root ics_out fs
                  = (Ok (), <[ics_out := text]> fs)) as Hok.
  { intros He. unfold Impl.mxl_to_ics, Impl.document_lines.
    pose proof (for_events_agrees now root Impl.header 0) as Ha.
    destruct (Impl.for_events now root Impl.header 0) as [[lines t]|e'];
      cbn [agrees bind] in *; [eauto | congruence]. }
  split; [|split; [|split; [|split]]].
  - intros before s after e Hsplit Hb Hs. apply Hraise.
    rewrite Hsplit. now apply first_error_at.
  - intros Hall. now apply Hok, first_error_none.
  - intros Hall. apply Hok, first_error_none. clear Hraise Hok.
    induction Hall as [|ev evs [Hdates Hrec] _ IH]; [constructor|].
    cbn [flat_map]. apply Forall_app. split; [|exact IH].
    unfold consulted. rewrite app_assoc. apply Forall_app.
    split; [exact Hdates|].
    destruct (ev_recurrence ev) as [el|]; [|constructor].
    destruct (is_weekly_b el) eqn:Hw; [|constructor].
    apply is_weekly_b_spec in Hw. now destruct (Hrec el eq_refl).
  - intros s e He Hre. unfold Impl.parse_utcdatetime in He. rewrite Hre in He.
    destruct (fromisoformat (replace "Z" "" s)); [discriminate|].
    split; [reflexivity | congruence].
  - intros e fs'. unfold Impl.mxl_to_ics.
    destruct (Impl.document_lines now root); intros [= ]; congruence.
Qed.

Definition bad_start : event :=
  mk_event (list_to_map [("id", "8")]) (Some "Lab") None
    (Some "{utcdatetime:U2022-07-14T19:00:00.000}") (Some "second-bad") None
    (Some (mk_element
             (list_to_map [("type", "weekly"); ("until_date", "third-bad")]))).

Lemma mxl_to_ics_fail_fast_witness :
  Impl.mxl_to_ics (λ _, mk_datetime 2026 1 2 3 4 5 6)
    [monthly_bad_until; bad_start; bad_start] "out.ics" ∅
  = (Raise (ValueError "Unrecognized datetime format: second-bad"), ∅).
Proof.
  destruct (mxl_to_ics_fail_fast (λ _, mk_datetime 2026 1 2 3 4 5 6)
              [monthly_bad_until; bad_start; bad_start] "out.ics" ∅)
    as (H & _).
  apply (H ["{utcdatetime:U2022-07-14T19:00:00.000}";
            "{utcdatetime:U2022-07-14T19:00:00.000}"]
           "second-bad"
           ["third-bad"; "{utcdatetime:U2022-07-14T19:00:00.000}";
            "second-bad"; "third-bad"]).
  - reflexivity.
  - repeat constructor; eexists; vm_compute; reflexivity.
  - vm_compute. reflexivity.
Defined.

(** ** Folding at the final assembly *)

Definition long_title_event : event :=
  mk_event (list_to_map [("id", "7")])
    (Some "Introduction to the formal verification of calendar converters - part 1 of two")
    None (Some "{utcdatetime:U2022-07-14T19:00:00.000}") None None None.

(** C3.  [mxl_to_ics] writes the lines, each one passed through
    [fold_ics_line], joined with CRLF and followed by CRLF.  [convert]
    joins the lines as they are: for an event with a title of 78
    characters its SUMMARY line has 86 characters in the document, where
    [fold_ics_line] cuts it after 75. *)
Theorem convert_does_not_fold :
  (∀ now root ics_out fs lines,
     Impl.document_lines now root = Ok lines →
     Impl.mxl_to_ics now root ics_out fs
     = (Ok (),
        <[ics_out := String.concat CRLF (Impl.fold_ics_line <$> lines) +:+ CRLF]> fs))
  ∧ (∀ clock root lines,
       Func.document_lines clock root = Ok lines →
       Func.convert clock root = Ok (String.concat CRLF lines +:+ CRLF))
  ∧ (let clock := λ _ : nat, mk_datetime 2026 1 2 3 4 5 6 in
     let summary :=
       "SUMMARY:Introduction to the formal verification of calendar converters - part 1 of two" in
     ∃ lines,
       Func.document_lines clock [long_title_event] = Ok lines
       ∧ summary ∈ lines
       ∧ String.length summary = 86%nat
       ∧ Impl.fold_ics_line summary
         = "SUMMARY:Introduction to the formal verification of calendar converters - pa"
           +:+ CRLF +:+ " rt 1 of two"
       ∧ Func.convert clock [long_title_event]
         = Ok (String.concat CRLF lines +:+ CRLF)
       ∧ Func.convert clock [long_title_event]
         ≠ Ok (String.concat CRLF (Impl.fold_ics_line <$> lines) +:+ CRLF)).
Proof.
  split; [|split].
  - intros now root ics_out fs lines H. unfold Impl.mxl_to_ics. now rewrite H.
  - intros clock root lines H. unfold Func.convert. now rewrite H.
  - cbv zeta. eexists. split; [vm_compute; reflexivity|].
    split; [do 8 apply list_elem_of_further; apply list_elem_of_here|].
    split; [reflexivity|].
    split; [vm_compute; reflexivity|].
    split; [vm_compute; reflexivity | vm_compute; discriminate].
Qed.

(** * Further properties *)

(** ** The wrapper in a longer text *)

(** X1.  The wrapper is found wherever it stands: text before it (without
    an opening brace) and any text after it are ignored, and the outcome
    is that of [fromisoformat] on the text in the wrapper with one
    trailing .000 removed. *)
Theorem parse_wrapper_anywhere (pre iso post : string) :
  find "{" pre = None → iso ≠ "" → all_in_class iso = true →
  let s := pre +:+ "{utcdatetime:U" +:+ iso +:+ String "}" post in
  let outcome :=
    match fromisoformat (trim_millis iso) with
    | Some dt => Ok (Some dt)
    | None => Raise (IsoformatError (trim_millis iso))
    end in
  Impl.parse_utcdatetime (Some s) = outcome
  ∧ Func.parse_utcdatetime (Some s) = outcome
  ∧ trim_millis (iso +:+ ".000") = iso.
Proof.
  intros Hpre Hne Hc. cbv zeta.
  unfold Impl.parse_utcdatetime, Func.parse_utcdatetime.
  rewrite (search_wrapper_found pre iso post Hpre Hne Hc).
  fold (trim_millis iso). split; [reflexivity|]. split; [reflexivity|].
  unfold trim_millis, endswith.
  rewrite length_app_str. change (String.length ".000") with 4%nat.
  replace (String.length iso + 4 - 4)%nat with (String.length iso) by lia.
  rewrite drop_app_exact, take_app_exact.
  rewrite bool_decide_true by lia. now rewrite bool_decide_true.
Qed.

Lemma parse_wrapper_anywhere_witness :
  Impl.parse_utcdatetime
    (Some "starts {utcdatetime:U2022-07-14T19:00:00.000} sharp")
  = Ok (Some (mk_datetime 2022 7 14 19 0 0 0)).
Proof.
  destruct (parse_wrapper_anywhere "starts " "2022-07-14T19:00:00.000" " sharp")
    as (H & _); [reflexivity | discriminate | reflexivity |].
  exact H.
Defined.

(** ** The plain ISO branch *)
Section PlainBranch.

Lemma find_app_none_inv (c : ascii) (s t : string) :
  find c (s +:+ t) = None → find c s = None ∧ find c t = None.
Proof.
  induction s as [|a s IH]; [auto|].
  rewrite app_cons. simpl. destruct (bool_decide (a = c)); [discriminate|].
  destruct (find c (s +:+ t)) eqn:E; [discriminate|]. intros _.
  destruct (IH eq_refl) as [-> ->]. auto.
Qed.

Lemma replace_z_insert (a b : string) :
  replace "Z" "" (a +:+ "Z" +:+ b) = replace "Z" "" (a +:+ b).
Proof.
  change "Z" with (String "Z"%char "").
  rewrite !replace_char_app. reflexivity.
Qed.

End PlainBranch.

(** X2.  In the plain ISO branch every Z is dropped before the text is
    parsed, not a trailing one alone: a Z put anywhere into a text
    without braces changes nothing but the string named by the error. *)
Theorem parse_plain_drops_every_z (a b : string) :
  find "{" (a +:+ b) = None →
  Impl.parse_utcdatetime (Some (a +:+ "Z" +:+ b))
  = match Impl.parse_utcdatetime (Some (a +:+ b)) with
    | Ok x => Ok x
    | Raise _ =>
        Raise (ValueError ("Unrecognized datetime format: " +:+ a +:+ "Z" +:+ b))
    end
  ∧ Func.parse_utcdatetime (Some (a +:+ "Z" +:+ b))
    = Func.parse_utcdatetime (Some (a +:+ b)).
Proof.
  intros H. destruct (find_app_none_inv _ _ _ H) as [Ha Hb].
  assert (search_wrapper (a +:+ "Z" +:+ b) = None) as Hz.
  { apply search_wrapper_no_brace. apply find_app_none; [exact Ha|].
    simpl. now rewrite Hb. }
  unfold Impl.parse_utcdatetime, Func.parse_utcdatetime.
  rewrite Hz, (search_wrapper_no_brace _ H), replace_z_insert.
  destruct (fromisoformat (replace "Z" "" (a +:+ b))); split; reflexivity.
Qed.

Lemma parse_plain_drops_every_z_witness :
  Impl.parse_utcdatetime (Some "2022-07-14ZT19:00:00")
  = Ok (Some (mk_datetime 2022 7 14 19 0 0 0)).
Proof.
  destruct (parse_plain_drops_every_z "2022-07-14" "T19:00:00") as [H _];
    [reflexivity|].
  exact H.
Defined.

(** X3.  The parsers of the two modules return the same value on every
    input on which one of them returns; they raise on the same inputs,
    and differ only there: with no wrapper in the text the file-based
    module raises its own error naming the text, the HTTP module lets the
    error of [fromisoformat] on the text without its Z through. *)
Theorem parsers_agree (s : option string) :
  (∀ x, Impl.parse_utcdatetime s = Ok x ↔ Func.parse_utcdatetime s = Ok x)
  ∧ (∀ e, Impl.parse_utcdatetime s = Raise e →
       ∃ e', Func.parse_utcdatetime s = Raise e'
             ∧ (e' = e
                ∨ ∃ str, s = Some str ∧ search_wrapper str = None
                         ∧ e = ValueError ("Unrecognized datetime format: " +:+ str)
                         ∧ e' = IsoformatError (replace "Z" "" str)))
  ∧ (s = None → Impl.parse_utcdatetime s = Ok None).
Proof.
  split; [|split].
  - intros x. symmetry. apply parse_utcdatetime_agree.
  - intros e. unfold Impl.parse_utcdatetime, Func.parse_utcdatetime.
    destruct s as [str|]; [|discriminate].
    destruct (search_wrapper str) as [iso|] eqn:Hre.
    + destruct (fromisoformat _); [discriminate|]. intros [= <-]. eauto.
    + destruct (fromisoformat _); [discriminate|]. intros [= <-].
      eexists. split; [reflexivity|]. right. exists str. auto.
  - now intros ->.
Qed.

(** X4.  Rendering and parsing are inverse on the time stamps of the
    years 1000 to 9999: a [datetime] with its fields in range, rendered
    by [dt_to_ics], parses back to itself with the microseconds set to 0.
    Before the year 1000 the rendering has a year of fewer than four
    digits, and both parsers reject it.  What a parser returns has its
    fields in the ranges of [datetime]. *)
Theorem render_then_parse (dt : datetime) :
  check_fields (year dt) (month dt) (day dt) (hour dt) (minute dt)
    (second dt) (microsecond dt) = true →
  let dt0 := mk_datetime (year dt) (month dt) (day dt) (hour dt) (minute dt)
               (second dt) 0 in
  (1000 ≤ year dt →
   Impl.parse_utcdatetime (Some (Impl.dt_to_ics dt)) = Ok (Some dt0)
   ∧ Func.parse_utcdatetime (Some (Func.dt_to_ics dt)) = Ok (Some dt0))
  ∧ (year dt < 1000 →
     Impl.parse_utcdatetime (Some (Impl.dt_to_ics dt))
     = Raise (ValueError
                ("Unrecognized datetime format: " +:+ Impl.dt_to_ics dt))
     ∧ Func.parse_utcdatetime (Some (Func.dt_to_ics dt))
       = Raise (IsoformatError (replace "Z" "" (Func.dt_to_ics dt))))
  ∧ (∀ s d, Impl.parse_utcdatetime (Some s) = Ok (Some d)
            ∨ Func.parse_utcdatetime (Some s) = Ok (Some d) →
            check_fields (year d) (month d) (day d) (hour d) (minute d)
              (second d) (microsecond d) = true).
Proof.
  intros Hc. cbv zeta. unfold Impl.dt_to_ics, Func.dt_to_ics.
  split; [|split].
  - intros Hy. destruct (parse_rendered dt Hc Hy) as (Hi & Hf & _). auto.
  - intros Hy. exact (parse_rendered_short dt Hc Hy).
  - intros s d [H|H]; [|apply parse_utcdatetime_agree in H];
      eapply impl_parse_fields, H.
Qed.

Lemma render_then_parse_witness :
  Impl.parse_utcdatetime
    (Some (Impl.dt_to_ics (mk_datetime 2022 7 14 19 0 0 123456)))
  = Ok (Some (mk_datetime 2022 7 14 19 0 0 0))
  ∧ Impl.parse_utcdatetime
      (Some (Impl.dt_to_ics (mk_datetime 999 2 28 23 59 59 0)))
    = Raise (ValueError "Unrecognized datetime format: 9990228T235959Z").
Proof.
  split.
  - destruct (render_then_parse (mk_datetime 2022 7 14 19 0 0 123456))
      as (H & _); [reflexivity|].
    apply H. simpl. lia.
  - destruct (render_then_parse (mk_datetime 999 2 28 23 59 59 0))
      as (_ & H & _); [reflexivity|].
    apply H. simpl. lia.
Defined.

(** ** The UID of an event *)
Section Uid.

Lemma app_inv_same_length (a b x y : string) :
  a +:+ x = b +:+ y → String.length x = String.length y → a = b ∧ x = y.
Proof.
  revert b. induction a as [|c a IH]; intros [|d b] H Hlen.
  - auto.
  - exfalso. simpl in H. subst x. simpl in Hlen.
    rewrite length_app_str in Hlen. lia.
  - exfalso. simpl in H. subst y. simpl in Hlen.
    rewrite length_app_str in Hlen. lia.
  - rewrite !app_cons in H. injection H as -> H.
    destruct (IH b H Hlen) as [-> ->]. auto.
Qed.

(** Two time stamps that agree up to the microseconds. *)
Definition same_second (d1 d2 : datetime) : Prop :=
  year d1 = year d2 ∧ month d1 = month d2 ∧ day d1 = day d2
  ∧ hour d1 = hour d2 ∧ minute d1 = minute d2 ∧ second d1 = second d2.

Definition in_range (dt : datetime) : Prop :=
  check_fields (year dt) (month dt) (day dt) (hour dt) (minute dt)
    (second dt) (microsecond dt) = true.

(** The year in decimal tells the years 0 to 9999 apart. *)
Lemma digit_char_inj (a b : Z) :
  0 ≤ a ≤ 9 → 0 ≤ b ≤ 9 → digit_char a = digit_char b → a = b.
Proof.
  intros Ha Hb E. apply (f_equal digit_value) in E.
  now rewrite !digit_char_value in E.
Qed.

Lemma decimal_year_inj (y1 y2 : Z) :
  0 ≤ y1 ≤ 9999 → 0 ≤ y2 ≤ 9999 →
  decimal_year y1 = decimal_year y2 → y1 = y2.
Proof.
  intros H1 H2. unfold decimal_year, zfill4, zfill2.
  destruct (Z.ltb_spec y1 10), (Z.ltb_spec y1 100), (Z.ltb_spec y1 1000),
    (Z.ltb_spec y2 10), (Z.ltb_spec y2 100), (Z.ltb_spec y2 1000);
    try lia; intros E; try discriminate E;
    injection E as E;
    repeat match goal with
      | H : digit_char _ = digit_char _ |- _ =>
          apply digit_char_inj in H;
          [|Z.div_mod_to_equations; lia|Z.div_mod_to_equations; lia]
      end;
    Z.div_mod_to_equations; lia.
Qed.

(** The part of the stamp after the year: MMDDTHHMMSSZ. *)
Definition after_year (dt : datetime) : string :=
  zfill2 (month dt) +:+ zfill2 (day dt) +:+ "T"
  +:+ zfill2 (hour dt) +:+ zfill2 (minute dt) +:+ zfill2 (second dt) +:+ "Z".

Lemma strftime_basic_parts (dt : datetime) :
  strftime_basic dt = decimal_year (year dt) +:+ after_year dt.
Proof.
  unfold strftime_basic, strftime_date, after_year.
  now rewrite !app_assoc_str.
Qed.

Lemma strftime_basic_inj (d1 d2 : datetime) :
  in_range d1 → in_range d2 →
  strftime_basic d1 = strftime_basic d2 → same_second d1 d2.
Proof.
  intros H1 H2 E. rewrite !strftime_basic_parts in E.
  apply app_inv_same_length in E as [Ey Et]; [|reflexivity].
  pose proof (check_fields_ranges _ _ _ _ _ _ _ H1) as (Hy1 & _).
  pose proof (check_fields_ranges _ _ _ _ _ _ _ H2) as (Hy2 & _).
  apply decimal_year_inj in Ey; [|assumption..].
  destruct (parse_padded d1 H1) as (P1 & _).
  destruct (parse_padded d2 H2) as (P2 & _).
  assert (padded_basic d1 = padded_basic d2) as Ep.
  { change (padded_basic d1) with (zfill4 (year d1) +:+ after_year d1).
    change (padded_basic d2) with (zfill4 (year d2) +:+ after_year d2).
    now rewrite Ey, Et. }
  rewrite Ep, P2 in P1. injection P1 as ? ? ? ? ? ?.
  unfold same_second. repeat split; congruence.
Qed.

(** The stamp has no hyphen, so the last hyphen of a UID is the one
    after the id. *)
Lemma strftime_basic_no_hyphen (dt : datetime) :
  in_range dt → find "-" (strftime_basic dt +:+ "@mxl2ics") = None.
Proof.
  intros Hc.
  apply check_fields_ranges in Hc as (Hy & Hm & Hd & Hh & Hn & Hs & _).
  assert (∀ c, is_ascii_digit c = true → bool_decide (c = "-"%char) = false)
    as Hdig by (intros c Hc; apply bool_decide_false; intros ->; discriminate).
  destruct (zfill4_digits _ Hy) as (Y1 & Y2 & Y3 & Y4 & _).
  destruct (zfill2_digits _ Hm) as (M1 & M2 & _).
  destruct (zfill2_digits _ Hd) as (D1 & D2 & _).
  destruct (zfill2_digits _ Hh) as (H1 & H2 & _).
  destruct (zfill2_digits _ Hn) as (N1 & N2 & _).
  destruct (zfill2_digits _ Hs) as (S1 & S2 & _).
  assert (find "-" (after_year dt +:+ "@mxl2ics") = None) as Ht.
  { cbv [after_year zfill2 String.append find].
    rewrite (Hdig _ M1), (Hdig _ M2), (Hdig _ D1), (Hdig _ D2), (Hdig _ H1),
      (Hdig _ H2), (Hdig _ N1), (Hdig _ N2), (Hdig _ S1), (Hdig _ S2).
    reflexivity. }
  rewrite strftime_basic_parts, app_assoc_str.
  apply find_app_none; [|exact Ht].
  unfold decimal_year.
  destruct (Z.ltb_spec (year dt) 10);
    [|destruct (Z.ltb_spec (year dt) 100);
      [|destruct (Z.ltb_spec (year dt) 1000)]].
  - cbv [find]. rewrite (Hdig _ (digit_char_digit (year dt) ltac:(lia))).
    reflexivity.
  - assert (0 ≤ year dt ≤ 99) as Hy2 by lia.
    destruct (zfill2_digits _ Hy2) as (A1 & A2 & _).
    cbv [zfill2 find]. rewrite (Hdig _ A1), (Hdig _ A2). reflexivity.
  - assert (0 ≤ year dt mod 100 ≤ 99) as Hy2 by (Z.div_mod_to_equations; lia).
    destruct (zfill2_digits _ Hy2) as (A1 & A2 & _).
    cbv [zfill2 find].
    rewrite (Hdig _ (digit_char_digit (year dt / 100)
                       ltac:(Z.div_mod_to_equations; lia))),
      (Hdig _ A1), (Hdig _ A2).
    reflexivity.
  - cbv [zfill4 find].
    rewrite (Hdig _ Y1), (Hdig _ Y2), (Hdig _ Y3), (Hdig _ Y4). reflexivity.
Qed.

Lemma split_at_last_hyphen (a b t u : string) :
  find "-" t = None → find "-" u = None →
  a +:+ String "-" t = b +:+ String "-" u → a = b ∧ t = u.
Proof.
  intros Ht Hu. revert b. induction a as [|c a IH]; intros [|d b] E.
  - cbn in E. injection E as E. auto.
  - exfalso. cbn in E. injection E as _ E. subst t.
    apply find_app_none_inv in Ht as [_ Ht]. cbn in Ht.
    now rewrite bool_decide_true in Ht.
  - exfalso. cbn in E. injection E as _ E. subst u.
    apply find_app_none_inv in Hu as [_ Hu]. cbn in Hu.
    now rewrite bool_decide_true in Hu.
  - rewrite !app_cons in E. injection E as -> E.
    destruct (IH b E) as [-> ->]. auto.
Qed.

Lemma strftime_basic_same_second (d1 d2 : datetime) :
  same_second d1 d2 → strftime_basic d1 = strftime_basic d2.
Proof.
  intros (Hy & Hm & Hd & Hh & Hn & Hs).
  unfold strftime_basic, strftime_date. now rewrite Hy, Hm, Hd, Hh, Hn, Hs.
Qed.

End Uid.

(** X5.  The UID tells events apart by their id and their start to the
    second, and by nothing else: two UIDs are equal exactly when the ids
    are equal and the starts agree up to the microseconds. *)
Theorem make_uid_injective (id1 id2 : string) (d1 d2 : datetime) :
  in_range d1 → in_range d2 →
  (Impl.make_uid id1 d1 = Impl.make_uid id2 d2
   ↔ id1 = id2 ∧ same_second d1 d2).
Proof.
  intros H1 H2. unfold Impl.make_uid, Impl.dt_to_ics. split.
  - intros E.
    apply split_at_last_hyphen in E as [-> E];
      [|now apply strftime_basic_no_hyphen..].
    split; [reflexivity|].
    apply app_inv_same_length in E as [E _]; [|reflexivity].
    now apply strftime_basic_inj.
  - intros [-> Hs]. now rewrite (strftime_basic_same_second d1 d2 Hs).
Qed.

Lemma make_uid_injective_witness :
  Impl.make_uid "7" (mk_datetime 2022 7 14 19 0 0 0)
  = Impl.make_uid "7" (mk_datetime 2022 7 14 19 0 0 999999)
  ∧ Impl.make_uid "7" (mk_datetime 2022 7 14 19 0 0 0)
    = "7-20220714T190000Z@mxl2ics".
Proof.
  split; [|reflexivity].
  destruct (make_uid_injective "7" "7" (mk_datetime 2022 7 14 19 0 0 0)
              (mk_datetime 2022 7 14 19 0 0 999999)) as [_ H];
    [reflexivity | reflexivity |].
  apply H. split; [reflexivity|]. repeat split.
Defined.

(** ** Reading escaped text back *)
Section Unescape.

(** The reader's side of the escaping, as RFC 5545 has it: a backslash
    with n or N is a line feed, a backslash with any other character is
    that character. *)
Fixpoint unescape (s : string) : string :=
  match s with
  | "" => ""
  | String c s' =>
      if bool_decide (c = BACKSLASH) then
        match s' with
        | String d s'' =>
            String (if bool_decide (d = "n"%char) || bool_decide (d = "N"%char)
                    then LF else d)
                   (unescape s'')
        | "" => String c ""
        end
      else String c (unescape s')
  end.

(** The three character escapes of [ics_escape], and its two newline
    replacements. *)
Definition escape_specials (s : string) : string :=
  replace "," (String BACKSLASH ",")
    (replace ";" (String BACKSLASH ";")
       (replace (String BACKSLASH "") (String BACKSLASH (String BACKSLASH "")) s)).

Definition newline_escapes (s : string) : string :=
  replace (String LF "") (String BACKSLASH "n")
    (replace CRLF (String BACKSLASH "n") s).

Lemma ics_escape_stages (s : string) :
  Impl.ics_escape (Some s) = newline_escapes (escape_specials (sub_tags s)).
Proof. reflexivity. Qed.

(** What one character becomes. *)
Definition escaped_char (a : ascii) : string :=
  if bool_decide (a = BACKSLASH) then String BACKSLASH (String BACKSLASH "")
  else if bool_decide (a = ";"%char) then String BACKSLASH ";"
  else if bool_decide (a = ","%char) then String BACKSLASH ","
  else String a "".

Lemma escape_specials_cons (a : ascii) (s : string) :
  escape_specials (String a s) = escaped_char a +:+ escape_specials s.
Proof.
  unfold escape_specials, escaped_char.
  change ";" with (String ";"%char "") at 1 3.
  change "," with (String ","%char "") at 1 3.
  rewrite (replace_char_cons BACKSLASH a).
  rewrite (bool_decide_ext (BACKSLASH = a) (a = BACKSLASH)) by (split; congruence).
  case_bool_decide as Hb.
  { now rewrite !replace_char_app. }
  rewrite (replace_char_cons ";" a).
  rewrite (bool_decide_ext (";"%char = a) (a = ";"%char)) by (split; congruence).
  case_bool_decide as Hs.
  { now rewrite !replace_char_app. }
  rewrite (replace_char_cons "," a).
  rewrite (bool_decide_ext (","%char = a) (a = ","%char)) by (split; congruence).
  case_bool_decide as Hc; reflexivity.
Qed.

Lemma replace_crlf_hit (new r : string) :
  replace CRLF new (String CR (String LF r)) = new +:+ replace CRLF new r.
Proof. reflexivity. Qed.

Lemma replace_crlf_miss (new : string) (a : ascii) (r : string) :
  startswith CRLF (String a r) = false →
  replace CRLF new (String a r) = String a (replace CRLF new r).
Proof. intros H. unfold replace. cbn [replace_from]. now rewrite H. Qed.

Lemma newline_escapes_crlf (r : string) :
  newline_escapes (String CR (String LF r))
  = String BACKSLASH (String "n" (newline_escapes r)).
Proof.
  unfold newline_escapes. rewrite replace_crlf_hit, replace_char_app.
  reflexivity.
Qed.

Lemma newline_escapes_lf (r : string) :
  newline_escapes (String LF r)
  = String BACKSLASH (String "n" (newline_escapes r)).
Proof.
  unfold newline_escapes. rewrite replace_crlf_miss by reflexivity.
  now rewrite replace_char_cons.
Qed.

Lemma newline_escapes_other (a : ascii) (r : string) :
  a ≠ LF → startswith CRLF (String a r) = false →
  newline_escapes (String a r) = String a (newline_escapes r).
Proof.
  intros Ha H. unfold newline_escapes. rewrite replace_crlf_miss by exact H.
  rewrite replace_char_cons. now rewrite bool_decide_false by congruence.
Qed.

Lemma escape_specials_starts_lf (r : string) :
  startswith (String LF "") (escape_specials r) = startswith (String LF "") r.
Proof.
  destruct r as [|b r]; [reflexivity|].
  rewrite escape_specials_cons. unfold escaped_char.
  repeat case_bool_decide; subst; reflexivity.
Qed.

(** The text that the reader gets: CRLF has become LF. *)
Definition lf_only (s : string) : string := replace CRLF (String LF "") s.

Lemma unescape_escape_upto (n : nat) (t : string) :
  (String.length t ≤ n)%nat →
  unescape (newline_escapes (escape_specials t)) = lf_only t.
Proof.
  revert t. induction n as [|n IH]; intros [|a r] Hn; try reflexivity.
  { simpl in Hn. lia. }
  simpl in Hn. assert (String.length r ≤ n)%nat as Hr by lia.
  rewrite escape_specials_cons. unfold escaped_char, lf_only.
  case_bool_decide as Hb.
  { subst a. rewrite !app_cons.
    rewrite !newline_escapes_other by (reflexivity || discriminate).
    rewrite replace_crlf_miss by reflexivity.
    cbn [unescape String.append]. rewrite bool_decide_true by reflexivity.
    cbn [orb]. f_equal. now apply IH. }
  case_bool_decide as Hs.
  { subst a. rewrite !app_cons.
    rewrite !newline_escapes_other by (reflexivity || discriminate).
    rewrite replace_crlf_miss by reflexivity.
    cbn [unescape String.append]. rewrite bool_decide_true by reflexivity.
    cbn [orb]. f_equal. now apply IH. }
  case_bool_decide as Hc.
  { subst a. rewrite !app_cons.
    rewrite !newline_escapes_other by (reflexivity || discriminate).
    rewrite replace_crlf_miss by reflexivity.
    cbn [unescape String.append]. rewrite bool_decide_true by reflexivity.
    cbn [orb]. f_equal. now apply IH. }
  rewrite app_cons. cbn [String.append].
  destruct (decide (a = LF)) as [->|Hlf].
  { rewrite newline_escapes_lf, replace_crlf_miss by reflexivity.
    cbn [unescape]. rewrite bool_decide_true by reflexivity.
    cbn. f_equal. now apply IH. }
  destruct (startswith CRLF (String a r)) eqn:Hcr.
  - cbn [startswith] in Hcr. apply andb_prop in Hcr as [Ha Hl].
    apply bool_decide_eq_true in Ha as <-.
    destruct r as [|b r']; [discriminate|].
    cbn [startswith] in Hl. apply andb_prop in Hl as [Hl _].
    apply bool_decide_eq_true in Hl as <-.
    rewrite replace_crlf_hit. rewrite escape_specials_cons.
    change (escaped_char LF) with (String LF ""). rewrite app_cons.
    cbn [String.append]. rewrite newline_escapes_crlf.
    cbn [unescape]. rewrite bool_decide_true by reflexivity.
    cbn. f_equal. apply IH. simpl in Hr. lia.
  - rewrite (replace_crlf_miss (String LF "") a r Hcr).
    rewrite newline_escapes_other; [|exact Hlf|].
    + cbn [unescape]. rewrite bool_decide_false by exact Hb.
      f_equal. now apply IH.
    + unfold CRLF in *. cbn [startswith] in Hcr |- *.
      destruct (bool_decide (CR = a)); [|reflexivity].
      cbn [andb] in Hcr |- *.
      change (startswith (String LF "") (escape_specials r) = false).
      now rewrite escape_specials_starts_lf.
Qed.

End Unescape.

(** X6.  Escaping loses nothing but the tags and the difference between
    CRLF and LF: a reader that undoes the escapes of RFC 5545 gets the
    text back with its tags removed and every CRLF turned into LF.  This
    holds for the escaping of both modules. *)
Theorem unescape_ics_escape (s : string) :
  unescape (Impl.ics_escape (Some s)) = lf_only (sub_tags s)
  ∧ unescape (Func.ics_escape (Some s)) = lf_only (sub_tags s).
Proof.
  rewrite func_ics_escape, ics_escape_stages.
  split; apply (unescape_escape_upto (String.length (sub_tags s))); lia.
Qed.

(** X7.  Escaped text has no line feed left in it, in both modules: a
    title or description cannot end the property line it is put on. *)
Theorem ics_escape_no_line_feed (s : option string) :
  find LF (Impl.ics_escape s) = None ∧ find LF (Func.ics_escape s) = None.
Proof.
  assert (find LF (Impl.ics_escape s) = None) as H.
  { destruct s as [s|]; [|reflexivity].
    unfold Impl.ics_escape. apply replace_lf_none. reflexivity. }
  split; [exact H | now rewrite func_ics_escape].
Qed.

(** ** More on folding *)
Section FoldingSizes.

Lemma fold_parts_nonempty (line : string) : Impl.fold_parts line ≠ [].
Proof. rewrite fold_parts_head. discriminate. Qed.

Lemma concat_length_cons (sep x : string) (xs : list string) :
  xs ≠ [] →
  String.length (String.concat sep (x :: xs))
  = (String.length x + String.length sep
     + String.length (String.concat sep xs))%nat.
Proof.
  intros H. rewrite concat_cons by exact H. rewrite !length_app_str. lia.
Qed.

Lemma breaks_step (n : nat) :
  (75 < n)%nat → ((n - 2) / 74 = S ((n - 74 - 2) / 74))%nat.
Proof.
  intros H. replace (n - 2)%nat with (1 * 74 + (n - 74 - 2))%nat by lia.
  rewrite Nat.div_add_l by lia. reflexivity.
Qed.

Lemma breaks_none (n : nat) : (n ≤ 75)%nat → ((n - 2) / 74 = 0)%nat.
Proof. intros H. apply Nat.div_small. lia. Qed.

Lemma fold_parts_sizes (line : string) :
  let n := String.length line in
  length (Impl.fold_parts line) = S ((n - 2) / 74)
  ∧ String.length (String.concat CRLF (Impl.fold_parts line))
    = (n + 3 * ((n - 2) / 74))%nat
  ∧ Forall (λ p, String.length p = 75%nat) (removelast (Impl.fold_parts line)).
Proof.
  cbv zeta.
  apply (fold_parts_ind
           (λ l parts,
              length parts = S ((String.length l - 2) / 74)
              ∧ String.length (String.concat CRLF parts)
                = (String.length l + 3 * ((String.length l - 2) / 74))%nat
              ∧ Forall (λ p, String.length p = 75%nat) (removelast parts))).
  - intros l H. rewrite breaks_none by exact H.
    cbn [length String.concat removelast].
    repeat split; [lia | constructor].
  - intros l H (IHn & IHc & IHf).
    assert (String.length (" " +:+ drop 75 l) = String.length l - 74)%nat as Hl.
    { rewrite length_app_str, length_drop. simpl. lia. }
    rewrite Hl in IHn, IHc. rewrite (breaks_step _ H).
    split; [cbn [length]; now rewrite IHn|]. split.
    + rewrite concat_length_cons by apply fold_parts_nonempty.
      rewrite IHc, length_take. change (String.length CRLF) with 2%nat. lia.
    + pose proof (fold_parts_nonempty (" " +:+ drop 75 l)) as Hne.
      destruct (Impl.fold_parts (" " +:+ drop 75 l)) as [|p ps] eqn:E;
        [congruence|].
      change (removelast (take 75 l :: p :: ps))
        with (take 75 l :: removelast (p :: ps)).
      constructor; [|exact IHf]. rewrite length_take. lia.
Qed.

(** [sep.join] of joined groups is [sep.join] of all their members. *)
Lemma concat_app_str (sep : string) (xs ys : list string) :
  xs ≠ [] → ys ≠ [] →
  String.concat sep (xs ++ ys)
  = String.concat sep xs +:+ sep +:+ String.concat sep ys.
Proof.
  intros Hx Hy. induction xs as [|x xs IH]; [congruence|].
  destruct xs as [|x' xs].
  - simpl. destruct ys; [congruence | reflexivity].
  - change ((x :: x' :: xs) ++ ys) with (x :: (x' :: xs) ++ ys).
    rewrite !concat_cons by discriminate.
    rewrite IH by discriminate. now rewrite !app_assoc_str.
Qed.

Lemma concat_flatten (sep : string) (pss : list (list string)) :
  Forall (λ ps, ps ≠ []) pss →
  String.concat sep (String.concat sep <$> pss)
  = String.concat sep (mjoin pss).
Proof.
  induction 1 as [|ps pss Hps Hall IH]; [reflexivity|].
  destruct pss as [|qs pss].
  - simpl. now rewrite app_nil_r.
  - change (mjoin (ps :: qs :: pss)) with (ps ++ mjoin (qs :: pss)).
    rewrite fmap_cons, concat_cons by discriminate.
    rewrite IH, concat_app_str; [reflexivity | exact Hps |].
    apply Forall_cons_1 in Hall as [Hq _]. simpl.
    destruct qs; [congruence | discriminate].
Qed.

(** Folding what is folded already. *)
Lemma fold_twice_long (line : string) :
  (75 < String.length line)%nat →
  ∃ rest,
    Impl.fold_ics_line (Impl.fold_ics_line line)
    = take 75 line +:+ CRLF +:+ " " +:+ CRLF +:+ " " +:+ rest.
Proof.
  intros H.
  assert (∃ z, Impl.fold_ics_line line
               = take 75 line +:+ CRLF +:+ String " " z) as [z Hz].
  { rewrite fold_ics_line_parts, fold_parts_long by exact H.
    rewrite concat_cons by apply fold_parts_nonempty.
    destruct (concat_fold_parts_head (" " +:+ drop 75 line)) as [r ->].
    change (take 75 (" " +:+ drop 75 line))
      with (String " " (take 74 (drop 75 line))).
    eexists. reflexivity. }
  rewrite Hz. set (F := take 75 line +:+ CRLF +:+ String " " z).
  assert (String.length (take 75 line) = 75%nat) as H75
    by (rewrite length_take; lia).
  assert (75 < String.length F)%nat as HF.
  { unfold F. rewrite !length_app_str, H75. simpl. lia. }
  assert (take 75 F = take 75 line) as Ht.
  { unfold F. rewrite <- H75 at 1. apply take_app_exact. }
  assert (drop 75 F = CRLF +:+ String " " z) as Hd.
  { unfold F. rewrite <- H75 at 1. apply drop_app_exact. }
  rewrite fold_ics_line_parts, fold_parts_long by exact HF.
  rewrite concat_cons by apply fold_parts_nonempty.
  rewrite Ht, Hd.
  destruct (concat_fold_parts_head (" " +:+ CRLF +:+ String " " z)) as [r ->].
  change (take 75 (" " +:+ CRLF +:+ String " " z))
    with (" " +:+ CRLF +:+ String " " (take 71 z)).
  exists (take 71 z +:+ r).
  rewrite !app_assoc_str. reflexivity.
Qed.

End FoldingSizes.

(** X8.  [mxl_to_ics] folds the SUMMARY line twice, once when the line is
    made and once more at the final join.  A SUMMARY line of more than 75
    characters therefore comes out with an empty continuation line after
    its first 75 characters: CRLF, one space, CRLF, one space.  A shorter
    one is written as it is. *)
Theorem summary_folded_twice (now : nat → datetime) (ev : event) (t t' : nat)
    (lines : list string) :
  Impl.event_lines now ev t = Ok (lines, t') →
  let summary :=
    "SUMMARY:" +:+ Impl.ics_escape (Some (strip (or_empty (ev_title ev)))) in
  Impl.fold_ics_line (Impl.fold_ics_line summary)
  ∈ (Impl.fold_ics_line <$> lines)
  ∧ ((75 < String.length summary)%nat →
     ∃ rest,
       Impl.fold_ics_line (Impl.fold_ics_line summary)
       = take 75 summary +:+ CRLF +:+ " " +:+ CRLF +:+ " " +:+ rest)
  ∧ ((String.length summary ≤ 75)%nat →
     Impl.fold_ics_line (Impl.fold_ics_line summary) = summary).
Proof.
  intros H. cbv zeta. split; [|split].
  - apply list_elem_of_fmap_2. revert H. unfold Impl.event_lines.
    destruct (if truthy (ev_start_date ev) then _ else _) as [sdt|e];
      [|discriminate].
    destruct (if truthy (ev_end_date ev) then _ else _) as [edt|e];
      [|discriminate].
    cbn [bind]. destruct (Impl.build_rrule _) as [r|e]; [|destruct sdt; discriminate].
    cbn [bind]. destruct sdt as [sdt|]; intros [= <- <-];
      repeat match goal with
        | |- _ ∈ _ :: _ =>
            first [apply list_elem_of_here | apply list_elem_of_further]
        | |- _ ∈ _ ++ _ => apply elem_of_app; right
        end.
  - apply fold_twice_long.
  - intros Hs.
    assert (Impl.fold_ics_line
              ("SUMMARY:" +:+ Impl.ics_escape (Some (strip (or_empty (ev_title ev)))))
            = "SUMMARY:" +:+ Impl.ics_escape (Some (strip (or_empty (ev_title ev)))))
      as Hid.
    { rewrite fold_ics_line_parts, fold_parts_short by exact Hs. reflexivity. }
    now rewrite !Hid.
Qed.

Definition long_summary_event : event :=
  mk_event (list_to_map [("id", "7")])
    (Some "Introduction to the formal verification of calendar converters - part 1 of two")
    None (Some "{utcdatetime:U2022-07-14T19:00:00.000}") None None None.

Lemma summary_folded_twice_witness :
  ∃ rest,
    Impl.fold_ics_line
      (Impl.fold_ics_line
         "SUMMARY:Introduction to the formal verification of calendar converters - part 1 of two")
    = "SUMMARY:Introduction to the formal verification of calendar converters - pa"
      +:+ CRLF +:+ " " +:+ CRLF +:+ " " +:+ rest.
Proof.
  destruct (summary_folded_twice (λ _, mk_datetime 2026 1 2 3 4 5 6)
              long_summary_event 0 1
              (fst (match Impl.event_lines (λ _, mk_datetime 2026 1 2 3 4 5 6)
                            long_summary_event 0 with
                    | Ok x => x
                    | Raise _ => ([], O)
                    end)))
    as (_ & Hlong & _); [vm_compute; reflexivity|].
  apply Hlong. vm_compute. lia.
Defined.

(** X9.  Folding a line of [n] characters makes [(n - 2) / 74] breaks
    (none up to 75 characters): the result has that many segments and
    one more, every segment but the last has exactly 75 characters, and
    each break adds three characters. *)
Theorem fold_ics_line_sizes (line : string) :
  let n := String.length line in
  length (Impl.fold_parts line) = S ((n - 2) / 74)
  ∧ String.length (Impl.fold_ics_line line) = (n + 3 * ((n - 2) / 74))%nat
  ∧ Forall (λ p, String.length p = 75%nat) (removelast (Impl.fold_parts line)).
Proof. cbv zeta. rewrite fold_ics_line_parts. apply fold_parts_sizes. Qed.

(** X10.  What [mxl_to_ics] writes is a sequence of pieces of at most 75
    characters, each followed by CRLF: no stretch of the file between two
    line ends is longer than 75 characters. *)
Theorem mxl_to_ics_pieces_bounded (now : nat → datetime) (root : list event)
    (ics_out : string) (fs fs' : gmap string string) :
  Impl.mxl_to_ics now root ics_out fs = (Ok (), fs') →
  ∃ pieces,
    fs' !! ics_out = Some (String.concat CRLF pieces +:+ CRLF)
    ∧ Forall (λ p, (String.length p ≤ 75)%nat) pieces
    ∧ ∀ other, other ≠ ics_out → fs' !! other = fs !! other.
Proof.
  unfold Impl.mxl_to_ics.
  destruct (Impl.document_lines now root) as [lines|e]; [|discriminate].
  intros [= <-].
  exists (mjoin (Impl.fold_parts <$> lines)). split; [|split].
  - rewrite lookup_insert_eq. do 2 f_equal.
    rewrite <- concat_flatten.
    + rewrite <- list_fmap_compose. f_equal. apply list_fmap_ext.
      intros i l _. apply fold_ics_line_parts.
    + apply Forall_fmap, Forall_forall. intros l _. apply fold_parts_nonempty.
  - induction lines as [|l lines IH]; [constructor|].
    rewrite fmap_cons. apply Forall_app. split; [apply fold_parts_bound | exact IH].
  - intros other Hne. now rewrite lookup_insert_ne.
Qed.

Lemma mxl_to_ics_pieces_bounded_witness :
  ∃ pieces,
    (Impl.mxl_to_ics (λ _, mk_datetime 2026 1 2 3 4 5 6) [long_summary_event]
       "out.ics" ∅).2 !! "out.ics"
    = Some (String.concat CRLF pieces +:+ CRLF)
    ∧ Forall (λ p, (String.length p ≤ 75)%nat) pieces.
Proof.
  destruct (mxl_to_ics_pieces_bounded (λ _, mk_datetime 2026 1 2 3 4 5 6)
              [long_summary_event] "out.ics" ∅
              (Impl.mxl_to_ics (λ _, mk_datetime 2026 1 2 3 4 5 6)
                 [long_summary_event] "out.ics" ∅).2)
    as (pieces & H1 & H2 & _); [vm_compute; reflexivity|].
  exists pieces. auto.
Defined.

(** ** More on recurrences *)
Section RecurrenceAttributes.

Lemma build_rrule_modules (el : option element) :
  (∀ r, Func.build_rrule el = Ok r ↔ Impl.build_rrule el = Ok r)
  ∧ (∀ e, Impl.build_rrule el = Raise e → ∃ e', Func.build_rrule el = Raise e').
Proof.
  destruct el as [el|]; [|split; [reflexivity | discriminate]].
  destruct (is_weekly_b el) eqn:Hw.
  - apply is_weekly_b_spec in Hw as (ty & Hty & Hw).
    rewrite (impl_build_rrule_weekly el ty Hty Hw),
      (func_build_rrule_weekly el ty Hty Hw).
    unfold weekly_rule.
    destruct (until_clause Impl.parse_utcdatetime el) as [u|e] eqn:Ei.
    + apply until_clause_agree in Ei. rewrite Ei.
      split; [reflexivity | discriminate].
    + destruct (until_clause Func.parse_utcdatetime el) as [u|e'] eqn:Ef.
      * apply until_clause_agree in Ef. congruence.
      * cbn [bind]. split; [split; discriminate | eauto].
  - assert (¬ is_weekly el) as Hn
      by (rewrite <- is_weekly_b_spec; congruence).
    rewrite (impl_build_rrule_other el Hn), (func_build_rrule_other el Hn).
    split; [reflexivity | discriminate].
Qed.

(** [build_rrule] reads four things of a recurrence. *)
Lemma impl_build_rrule_reads (el el' : element) :
  attrib el !! "type" = attrib el' !! "type" →
  attrib el !! "repeat_every" = attrib el' !! "repeat_every" →
  attrib el !! "repeat_on" = attrib el' !! "repeat_on" →
  until_raw el = until_raw el' →
  Impl.build_rrule (Some el) = Impl.build_rrule (Some el').
Proof.
  intros Ht Hi Hr Hu. unfold Impl.build_rrule, get_default.
  fold (until_raw el). fold (until_raw el').
  now rewrite Ht, Hi, Hr, Hu.
Qed.

Lemma func_build_rrule_reads (el el' : element) :
  attrib el !! "type" = attrib el' !! "type" →
  attrib el !! "repeat_every" = attrib el' !! "repeat_every" →
  attrib el !! "repeat_on" = attrib el' !! "repeat_on" →
  until_raw el = until_raw el' →
  Func.build_rrule (Some el) = Func.build_rrule (Some el').
Proof.
  intros Ht Hi Hr Hu. unfold Func.build_rrule, get_default.
  fold (until_raw el). fold (until_raw el').
  now rewrite Ht, Hi, Hr, Hu.
Qed.

(** A mask with every character other than 1 turned into 0. *)
Fixpoint only_ones (mask : string) : string :=
  match mask with
  | "" => ""
  | String c s => String (if bool_decide (c = "1"%char) then c else "0"%char)
                         (only_ones s)
  end.

Lemma only_ones_length (m : string) :
  String.length (only_ones m) = String.length m.
Proof. induction m as [|c m IH]; simpl; [reflexivity | now rewrite IH]. Qed.

Lemma only_ones_active_days (i : nat) (m : string) :
  Impl.active_days i (only_ones m) = Impl.active_days i m.
Proof.
  revert i. induction m as [|c m IH]; intros i; [reflexivity|].
  cbn [only_ones Impl.active_days]. rewrite IH.
  destruct (decide (c = "1"%char)) as [->|Hc]; [reflexivity|].
  rewrite !(bool_decide_false (c = "1"%char)) by exact Hc. reflexivity.
Qed.

Lemma only_ones_byday (m : string) :
  byday_clause (Some (only_ones m)) = byday_clause (Some m).
Proof.
  unfold byday_clause. rewrite only_ones_length.
  case_bool_decide as Hlen; [|reflexivity].
  rewrite <- !active_days_mask by (rewrite ?only_ones_length; exact Hlen).
  now rewrite only_ones_active_days.
Qed.

End RecurrenceAttributes.

(** X11.  The two modules translate a recurrence alike: whenever one
    [build_rrule] returns, the other returns the same, and when one
    raises, so does the other. *)
Theorem build_rrule_modules_agree (el : option element) :
  (∀ r, Func.build_rrule el = Ok r ↔ Impl.build_rrule el = Ok r)
  ∧ (∀ e, Impl.build_rrule el = Raise e → ∃ e', Func.build_rrule el = Raise e')
  ∧ (∀ e, Func.build_rrule el = Raise e → ∃ e', Impl.build_rrule el = Raise e').
Proof.
  destruct (build_rrule_modules el) as [Hok Hraise].
  split; [exact Hok|]. split; [exact Hraise|].
  intros e He. case_eq (Impl.build_rrule el); [|eauto].
  intros r E. apply Hok in E. congruence.
Qed.

(** X12.  The until value is the attribute [until_date] whenever that is
    there and not empty, and then the misspelt [unitil_date] is not
    looked at, whatever it holds.  When [until_date] is missing or empty,
    a non-empty [unitil_date] does what [until_date] would have done. *)
Theorem until_date_before_unitil_date (m : gmap string string) (u : string) :
  (truthy (m !! "until_date") = true →
   Impl.build_rrule (Some (mk_element (<["unitil_date" := u]> m)))
   = Impl.build_rrule (Some (mk_element m))
   ∧ Func.build_rrule (Some (mk_element (<["unitil_date" := u]> m)))
     = Func.build_rrule (Some (mk_element m))
   ∧ Impl.build_rrule (Some (mk_element (delete "unitil_date" m)))
     = Impl.build_rrule (Some (mk_element m)))
  ∧ (truthy (m !! "until_date") = false → truthy (Some u) = true →
     Impl.build_rrule (Some (mk_element (<["unitil_date" := u]> m)))
     = Impl.build_rrule
         (Some (mk_element (<["until_date" := u]> (delete "unitil_date" m))))
     ∧ Func.build_rrule (Some (mk_element (<["unitil_date" := u]> m)))
       = Func.build_rrule
           (Some (mk_element (<["until_date" := u]> (delete "unitil_date" m))))).
Proof.
  split.
  - intros Ht.
    assert (∀ m', m' !! "until_date" = m !! "until_date" →
                  until_raw (mk_element m') = until_raw (mk_element m)) as Hu.
    { intros m' E. unfold until_raw, or_else. cbn [attrib]. now rewrite E, Ht. }
    split; [|split].
    + apply impl_build_rrule_reads; cbn [attrib];
        rewrite ?lookup_insert_ne by done; try reflexivity.
      apply Hu. now rewrite lookup_insert_ne.
    + apply func_build_rrule_reads; cbn [attrib];
        rewrite ?lookup_insert_ne by done; try reflexivity.
      apply Hu. now rewrite lookup_insert_ne.
    + apply impl_build_rrule_reads; cbn [attrib];
        rewrite ?lookup_delete_ne by done; try reflexivity.
      apply Hu. now rewrite lookup_delete_ne.
  - intros Ht Hne.
    assert (until_raw (mk_element (<["unitil_date" := u]> m))
            = until_raw (mk_element (<["until_date" := u]> (delete "unitil_date" m))))
      as Hu.
    { unfold until_raw, or_else. cbn [attrib].
      rewrite lookup_insert_eq, (lookup_insert_ne m) by done.
      rewrite lookup_insert_eq, Ht, Hne. reflexivity. }
    split.
    + apply impl_build_rrule_reads; cbn [attrib];
        rewrite ?lookup_insert_ne, ?lookup_delete_ne by done;
        try reflexivity.
      exact Hu.
    + apply func_build_rrule_reads; cbn [attrib];
        rewrite ?lookup_insert_ne, ?lookup_delete_ne by done;
        try reflexivity.
      exact Hu.
Qed.

Lemma until_date_before_unitil_date_witness :
  Impl.build_rrule
    (Some (mk_element
             (<["unitil_date" := "{utcdatetime:U2022-08-01T00:00:00.000}"]>
                (list_to_map [("type", "weekly"); ("until_date", "never")]))))
  = Raise (ValueError "Unrecognized datetime format: never")
  ∧ Impl.build_rrule
      (Some (mk_element
               (<["unitil_date" := "{utcdatetime:U2022-08-01T00:00:00.000}"]>
                  (list_to_map [("type", "weekly"); ("until_date", "")]))))
    = Ok (Some "FREQ=WEEKLY;INTERVAL=1;UNTIL=20220801T000000Z").
Proof.
  split.
  - destruct (until_date_before_unitil_date
                (list_to_map [("type", "weekly"); ("until_date", "never")])
                "{utcdatetime:U2022-08-01T00:00:00.000}") as [H _].
    destruct H as (H & _); [vm_compute; reflexivity|].
    rewrite H. vm_compute. reflexivity.
  - destruct (until_date_before_unitil_date
                (list_to_map [("type", "weekly"); ("until_date", "")])
                "{utcdatetime:U2022-08-01T00:00:00.000}") as [_ H].
    destruct H as (H & _); [vm_compute; reflexivity | reflexivity |].
    rewrite H. vm_compute. reflexivity.
Defined.

(** X13.  A mask is not checked for its characters: whatever is not 1
    counts as 0, so a mask gives the rule of the mask in which every
    other character is replaced by 0. *)
Theorem mask_other_characters_are_zero (m : gmap string string) (mask : string) :
  m !! "repeat_on" = Some mask →
  Impl.build_rrule (Some (mk_element (<["repeat_on" := only_ones mask]> m)))
  = Impl.build_rrule (Some (mk_element m))
  ∧ Func.build_rrule (Some (mk_element (<["repeat_on" := only_ones mask]> m)))
    = Func.build_rrule (Some (mk_element m)).
Proof.
  intros Hm.
  set (el := mk_element m).
  set (el' := mk_element (<["repeat_on" := only_ones mask]> m)).
  assert (attrib el' !! "type" = attrib el !! "type") as Ht
    by (cbn [attrib el el']; now rewrite lookup_insert_ne).
  assert (∀ parse, weekly_rule parse el' = weekly_rule parse el) as Hrule.
  { intros parse. unfold weekly_rule, until_clause, until_raw, get_default.
    cbn [attrib el el'].
    rewrite !(lookup_insert_ne m) by done.
    rewrite lookup_insert_eq, Hm, only_ones_byday. reflexivity. }
  destruct (is_weekly_b el) eqn:Hw.
  - apply is_weekly_b_spec in Hw as (ty & Hty & Hw).
    assert (attrib el' !! "type" = Some ty) as Hty' by congruence.
    rewrite (impl_build_rrule_weekly el ty Hty Hw),
      (impl_build_rrule_weekly el' ty Hty' Hw),
      (func_build_rrule_weekly el ty Hty Hw),
      (func_build_rrule_weekly el' ty Hty' Hw), !Hrule.
    split; reflexivity.
  - assert (¬ is_weekly el) as Hn
      by (rewrite <- is_weekly_b_spec; congruence).
    assert (¬ is_weekly el') as Hn'.
    { intros (ty & Hty & Hw'). apply Hn. exists ty. split; congruence. }
    rewrite (impl_build_rrule_other el Hn), (impl_build_rrule_other el' Hn'),
      (func_build_rrule_other el Hn), (func_build_rrule_other el' Hn').
    split; reflexivity.
Qed.

Lemma mask_other_characters_are_zero_witness :
  Impl.build_rrule
    (Some (mk_element (list_to_map [("type", "Weekly"); ("repeat_on", "x1 yes1")])))
  = Impl.build_rrule
      (Some (mk_element
               (<["repeat_on" := "0100001"]>
                  (list_to_map [("type", "Weekly"); ("repeat_on", "x1 yes1")])))).
Proof.
  destruct (mask_other_characters_are_zero
              (list_to_map [("type", "Weekly"); ("repeat_on", "x1 yes1")])
              "x1 yes1") as [H _]; [vm_compute; reflexivity|].
  symmetry. exact H.
Defined.

(** ** The block of an event *)
Section EventBlock.

(** The lines of one event, given what its fields parse to.  [wrap] is
    what is done to the three text lines when they are made: folding in
    mxl_to_ics_impl.py, nothing in __init__.py. *)
Definition event_block (wrap : string → string) (ev : event)
    (sdt edt : option datetime) (rrule : option string) (uid_dt : datetime)
    (stamp : string) : list string :=
  ["BEGIN:VEVENT"]
  ++ date_line "DTSTART" (is_allday ev) sdt
  ++ date_line "DTEND" (is_allday ev) edt
  ++ ["UID:" +:+ Impl.make_uid (get_default (ev_attrib ev) "id" "x") uid_dt]
  ++ [wrap ("SUMMARY:" +:+ Impl.ics_escape (Some (strip (or_empty (ev_title ev)))))]
  ++ (if truthy (ev_description ev)
      then [wrap ("DESCRIPTION:" +:+ Impl.ics_escape (ev_description ev))]
      else [])
  ++ (if truthy (Some (strip (or_empty (ev_location ev))))
      then [wrap ("LOCATION:"
                  +:+ Impl.ics_escape (Some (strip (or_empty (ev_location ev)))))]
      else [])
  ++ (if truthy rrule then ["RRULE:" +:+ or_empty rrule] else [])
  ++ ["DTSTAMP:" +:+ stamp; "END:VEVENT"].

(** The time that goes into the UID, and the number of clock readings
    made before the DTSTAMP reading. *)
Definition uid_time (clock : nat → datetime) (sdt : option datetime) (t : nat)
    : datetime :=
  match sdt with
  | Some dt => dt
  | None => clock t
  end.

Definition after_uid (sdt : option datetime) (t : nat) : nat :=
  match sdt with
  | Some _ => t
  | None => S t
  end.

Lemma description_some (o : option string) :
  (if truthy (Some (or_empty o)) then [Impl.ics_escape (Some (or_empty o))] else [])
  = (if truthy o then [Impl.ics_escape o] else []).
Proof. destruct o as [[|c s]|]; reflexivity. Qed.

Lemma impl_event_lines_inv (now : nat → datetime) (ev : event) (t t' : nat)
    (lines : list string) :
  Impl.event_lines now ev t = Ok (lines, t') ↔
  ∃ sdt edt rrule,
    parsed Impl.parse_utcdatetime (ev_start_date ev) = Ok sdt
    ∧ parsed Impl.parse_utcdatetime (ev_end_date ev) = Ok edt
    ∧ Impl.build_rrule (ev_recurrence ev) = Ok rrule
    ∧ lines = event_block Impl.fold_ics_line ev sdt edt rrule
                (uid_time now sdt t)
                (Impl.dt_to_ics (now (after_uid sdt t)))
    ∧ t' = S (after_uid sdt t).
Proof.
  unfold Impl.event_lines.
  fold (parsed Impl.parse_utcdatetime (ev_start_date ev)).
  fold (parsed Impl.parse_utcdatetime (ev_end_date ev)).
  rewrite is_allday_code.
  assert (∀ sdt edt rrule,
            (let '(uid_dt, t0) :=
               match sdt with Some dt => (dt, t) | None => (now t, S t) end in
             ["BEGIN:VEVENT"]
             ++ match sdt with
                | Some dt =>
                    if is_allday ev then ["DTSTART;VALUE=DATE:" +:+ strftime_date dt]
                    else ["DTSTART:" +:+ Impl.dt_to_ics dt]
                | None => []
                end
             ++ match edt with
                | Some dt =>
                    if is_allday ev then ["DTEND;VALUE=DATE:" +:+ strftime_date dt]
                    else ["DTEND:" +:+ Impl.dt_to_ics dt]
                | None => []
                end
             ++ ["UID:" +:+ Impl.make_uid (get_default (ev_attrib ev) "id" "x") uid_dt]
             ++ [Impl.fold_ics_line
                   ("SUMMARY:" +:+ Impl.ics_escape (Some (strip (or_empty (ev_title ev)))))]
             ++ (if truthy (Some (or_empty (ev_description ev)))
                 then [Impl.fold_ics_line
                         ("DESCRIPTION:"
                          +:+ Impl.ics_escape (Some (or_empty (ev_description ev))))]
                 else [])
             ++ (if truthy (Some (strip (or_empty (ev_location ev))))
                 then [Impl.fold_ics_line
                         ("LOCATION:"
                          +:+ Impl.ics_escape (Some (strip (or_empty (ev_location ev)))))]
                 else [])
             ++ (if truthy rrule then ["RRULE:" +:+ or_empty rrule] else [])
             ++ ["DTSTAMP:" +:+ Impl.dt_to_ics (now t0); "END:VEVENT"])
            = event_block Impl.fold_ics_line ev sdt edt rrule (uid_time now sdt t)
                (Impl.dt_to_ics (now (after_uid sdt t)))) as Hblock.
  { intros sdt edt rrule. unfold event_block, date_line, Impl.dt_to_ics.
    destruct (ev_description ev) as [[|c d]|], sdt, edt, (is_allday ev);
      reflexivity. }
  split.
  - destruct (parsed Impl.parse_utcdatetime (ev_start_date ev)) as [sdt|e];
      [|discriminate].
    destruct (parsed Impl.parse_utcdatetime (ev_end_date ev)) as [edt|e];
      [|discriminate].
    cbn [bind].
    destruct (Impl.build_rrule (ev_recurrence ev)) as [rrule|e];
      [|destruct sdt; discriminate].
    specialize (Hblock sdt edt rrule).
    destruct sdt as [d|]; cbn [bind]; intros [= <- <-];
      [exists (Some d)|exists None]; exists edt, rrule;
      exact (conj eq_refl (conj eq_refl (conj eq_refl (conj Hblock eq_refl)))).
  - intros (sdt & edt & rrule & -> & -> & -> & -> & ->).
    specialize (Hblock sdt edt rrule). cbn [bind].
    destruct sdt; cbn [bind]; now rewrite <- Hblock.
Qed.

Lemma func_event_lines_inv (clock : nat → datetime) (stamp : string)
    (ev : event) (t t' : nat) (lines : list string) :
  Func.event_lines clock stamp ev t = Ok (lines, t') ↔
  ∃ sdt edt rrule,
    parsed Func.parse_utcdatetime (ev_start_date ev) = Ok sdt
    ∧ parsed Func.parse_utcdatetime (ev_end_date ev) = Ok edt
    ∧ Func.build_rrule (ev_recurrence ev) = Ok rrule
    ∧ lines = event_block (λ l, l) ev sdt edt rrule (uid_time clock sdt t) stamp
    ∧ t' = after_uid sdt t.
Proof.
  unfold Func.event_lines.
  fold (parsed Func.parse_utcdatetime (ev_start_date ev)).
  fold (parsed Func.parse_utcdatetime (ev_end_date ev)).
  rewrite is_allday_code, !func_ics_escape.
  assert (∀ sdt edt rrule,
            (let '(uid_dt, t0) :=
               match sdt with Some dt => (dt, t) | None => (clock t, S t) end in
             ["BEGIN:VEVENT"]
             ++ match sdt with
                | Some dt =>
                    [if is_allday ev then "DTSTART;VALUE=DATE:" +:+ strftime_date dt
                     else "DTSTART:" +:+ Func.dt_to_ics dt]
                | None => []
                end
             ++ match edt with
                | Some dt =>
                    [if is_allday ev then "DTEND;VALUE=DATE:" +:+ strftime_date dt
                     else "DTEND:" +:+ Func.dt_to_ics dt]
                | None => []
                end
             ++ ["UID:" +:+ (get_default (ev_attrib ev) "id" "x" +:+ "-"
                             +:+ Func.dt_to_ics uid_dt +:+ "@mxl2ics")]
             ++ ["SUMMARY:" +:+ Impl.ics_escape (Some (strip (or_empty (ev_title ev))))]
             ++ (if truthy (Some (or_empty (ev_description ev)))
                 then ["DESCRIPTION:"
                       +:+ Impl.ics_escape (Some (or_empty (ev_description ev)))]
                 else [])
             ++ (if truthy (Some (strip (or_empty (ev_location ev))))
                 then ["LOCATION:"
                       +:+ Impl.ics_escape (Some (strip (or_empty (ev_location ev))))]
                 else [])
             ++ (if truthy rrule then ["RRULE:" +:+ or_empty rrule] else [])
             ++ ["DTSTAMP:" +:+ stamp; "END:VEVENT"])
            = event_block (λ l, l) ev sdt edt rrule (uid_time clock sdt t) stamp)
    as Hblock.
  { intros sdt edt rrule. unfold event_block, date_line, Func.dt_to_ics.
    destruct (ev_description ev) as [[|c d]|], sdt, edt, (is_allday ev);
      reflexivity. }
  split.
  - destruct (parsed Func.parse_utcdatetime (ev_start_date ev)) as [sdt|e];
      [|discriminate].
    destruct (parsed Func.parse_utcdatetime (ev_end_date ev)) as [edt|e];
      [|discriminate].
    cbn [bind].
    destruct (Func.build_rrule (ev_recurrence ev)) as [rrule|e];
      [|destruct sdt; discriminate].
    specialize (Hblock sdt edt rrule).
    destruct sdt as [d|]; cbn [bind]; intros [= <- <-];
      [exists (Some d)|exists None]; exists edt, rrule;
      exact (conj eq_refl (conj eq_refl (conj eq_refl (conj Hblock eq_refl)))).
  - intros (sdt & edt & rrule & -> & -> & -> & -> & ->).
    specialize (Hblock sdt edt rrule). cbn [bind].
    destruct sdt; cbn [bind]; now rewrite <- Hblock.
Qed.

End EventBlock.

(** ** The loop over the events *)
Section EventLoop.

Lemma impl_event_lines_eq (now : nat → datetime) (ev : event) (t : nat) :
  Impl.event_lines now ev t
  = (sdt ←? parsed Impl.parse_utcdatetime (ev_start_date ev);
     edt ←? parsed Impl.parse_utcdatetime (ev_end_date ev);
     rrule ←? Impl.build_rrule (ev_recurrence ev);
     Ok (event_block Impl.fold_ics_line ev sdt edt rrule (uid_time now sdt t)
           (Impl.dt_to_ics (now (after_uid sdt t))),
         S (after_uid sdt t))).
Proof.
  destruct (parsed Impl.parse_utcdatetime (ev_start_date ev)) as [sdt|e] eqn:Es;
    [destruct (parsed Impl.parse_utcdatetime (ev_end_date ev)) as [edt|e] eqn:Ee;
     [destruct (Impl.build_rrule (ev_recurrence ev)) as [rrule|e] eqn:Er|]|].
  - cbn [bind]. apply impl_event_lines_inv. exists sdt, edt, rrule. auto.
  - unfold Impl.event_lines.
    fold (parsed Impl.parse_utcdatetime (ev_start_date ev)).
    fold (parsed Impl.parse_utcdatetime (ev_end_date ev)).
    rewrite Es, Ee, Er. destruct sdt; reflexivity.
  - unfold Impl.event_lines.
    fold (parsed Impl.parse_utcdatetime (ev_start_date ev)).
    fold (parsed Impl.parse_utcdatetime (ev_end_date ev)).
    rewrite Es, Ee. reflexivity.
  - unfold Impl.event_lines.
    fold (parsed Impl.parse_utcdatetime (ev_start_date ev)).
    rewrite Es. reflexivity.
Qed.

Lemma func_event_lines_eq (clock : nat → datetime) (stamp : string)
    (ev : event) (t : nat) :
  Func.event_lines clock stamp ev t
  = (sdt ←? parsed Func.parse_utcdatetime (ev_start_date ev);
     edt ←? parsed Func.parse_utcdatetime (ev_end_date ev);
     rrule ←? Func.build_rrule (ev_recurrence ev);
     Ok (event_block (λ l, l) ev sdt edt rrule (uid_time clock sdt t) stamp,
         after_uid sdt t)).
Proof.
  destruct (parsed Func.parse_utcdatetime (ev_start_date ev)) as [sdt|e] eqn:Es;
    [destruct (parsed Func.parse_utcdatetime (ev_end_date ev)) as [edt|e] eqn:Ee;
     [destruct (Func.build_rrule (ev_recurrence ev)) as [rrule|e] eqn:Er|]|].
  - cbn [bind]. apply func_event_lines_inv. exists sdt, edt, rrule. auto.
  - unfold Func.event_lines.
    fold (parsed Func.parse_utcdatetime (ev_start_date ev)).
    fold (parsed Func.parse_utcdatetime (ev_end_date ev)).
    rewrite Es, Ee, Er. destruct sdt; reflexivity.
  - unfold Func.event_lines.
    fold (parsed Func.parse_utcdatetime (ev_start_date ev)).
    fold (parsed Func.parse_utcdatetime (ev_end_date ev)).
    rewrite Es, Ee. reflexivity.
  - unfold Func.event_lines.
    fold (parsed Func.parse_utcdatetime (ev_start_date ev)).
    rewrite Es. reflexivity.
Qed.

(** A block opens with BEGIN:VEVENT and closes with END:VEVENT. *)
Definition is_block (b : list string) : Prop :=
  ∃ body, b = "BEGIN:VEVENT" :: body ++ ["END:VEVENT"].

Lemma event_block_is_block (wrap : string → string) (ev : event)
    (sdt edt : option datetime) (rrule : option string) (uid_dt : datetime)
    (stamp : string) :
  is_block (event_block wrap ev sdt edt rrule uid_dt stamp).
Proof.
  unfold event_block, is_block.
  match goal with
  | |- ∃ body, [_] ++ ?a ++ ?b ++ ?c ++ ?d ++ ?e ++ ?f ++ ?g ++ [?x; _] = _ =>
      exists (a ++ b ++ c ++ d ++ e ++ f ++ g ++ [x])
  end.
  rewrite <- !app_assoc. reflexivity.
Qed.

(** The blocks that [mxl_to_ics] makes of the events [root]. *)
Definition impl_blocks (now : nat → datetime) (root : list event)
    (blocks : list (list string)) : Prop :=
  Forall2 (λ ev b, is_block b ∧ ∃ t t', Impl.event_lines now ev t = Ok (b, t'))
    root blocks.

Definition func_blocks (clock : nat → datetime) (stamp : string)
    (root : list event) (blocks : list (list string)) : Prop :=
  Forall2 (λ ev b,
             is_block b ∧ ∃ t t', Func.event_lines clock stamp ev t = Ok (b, t'))
    root blocks.

Lemma impl_for_events_blocks (now : nat → datetime) (evs : list event) :
  ∀ lines t out t',
    Impl.for_events now evs lines t = Ok (out, t') →
    ∃ blocks, out = lines ++ mjoin blocks ∧ impl_blocks now evs blocks.
Proof.
  induction evs as [|ev evs IH]; intros lines t out t'; cbn [Impl.for_events].
  - intros [= <- <-]. exists []. split; [now rewrite app_nil_r | constructor].
  - destruct (Impl.event_lines now ev t) as [[added t1]|e] eqn:E;
      cbn [bind]; [|discriminate].
    intros H. apply IH in H as (blocks & -> & HF).
    exists (added :: blocks). split; [now rewrite <- app_assoc|].
    constructor; [|exact HF]. split; [|eauto].
    apply impl_event_lines_inv in E as (sdt & edt & r & _ & _ & _ & -> & _).
    apply event_block_is_block.
Qed.

Lemma func_for_events_blocks (clock : nat → datetime) (stamp : string)
    (evs : list event) :
  ∀ lines t out t',
    Func.for_events clock stamp evs lines t = Ok (out, t') →
    ∃ blocks, out = lines ++ mjoin blocks ∧ func_blocks clock stamp evs blocks.
Proof.
  induction evs as [|ev evs IH]; intros lines t out t'; cbn [Func.for_events].
  - intros [= <- <-]. exists []. split; [now rewrite app_nil_r | constructor].
  - destruct (Func.event_lines clock stamp ev t) as [[added t1]|e] eqn:E;
      cbn [bind]; [|discriminate].
    intros H. apply IH in H as (blocks & -> & HF).
    exists (added :: blocks). split; [now rewrite <- app_assoc|].
    constructor; [|exact HF]. split; [|eauto].
    apply func_event_lines_inv in E as (sdt & edt & r & _ & _ & _ & -> & _).
    apply event_block_is_block.
Qed.

End EventLoop.

(** X14.  A document that [mxl_to_ics] assembles is the five header
    lines, then one block per event element in the order of the
    elements, then END:VCALENDAR; every block is what the loop body makes
    of its element, opens with BEGIN:VEVENT and closes with END:VEVENT.
    The same holds of [convert] (X15). *)
Theorem mxl_to_ics_one_block_per_event (now : nat → datetime)
    (root : list event) (lines : list string) :
  Impl.document_lines now root = Ok lines →
  ∃ blocks,
    lines = Impl.header ++ mjoin blocks ++ ["END:VCALENDAR"]
    ∧ impl_blocks now root blocks
    ∧ length blocks = length root.
Proof.
  unfold Impl.document_lines.
  destruct (Impl.for_events now root Impl.header 0) as [[out t]|e] eqn:E;
    cbn [bind]; [|discriminate].
  intros [= <-].
  apply impl_for_events_blocks in E as (blocks & -> & HF).
  exists blocks. split; [now rewrite <- app_assoc|]. split; [exact HF|].
  symmetry. exact (Forall2_length _ _ _ HF).
Qed.

(** X15.  The document of [convert]: header, one block per event element
    in order, END:VCALENDAR; the text returned is these lines, each
    followed by CRLF. *)
Theorem convert_one_block_per_event (clock : nat → datetime)
    (root : list event) (text : string) :
  Func.convert clock root = Ok text →
  ∃ blocks,
    text = String.concat CRLF
             (Impl.header ++ mjoin blocks ++ ["END:VCALENDAR"]) +:+ CRLF
    ∧ func_blocks clock (Func.dt_to_ics (clock O)) root blocks
    ∧ length blocks = length root.
Proof.
  unfold Func.convert, Func.document_lines.
  destruct (Func.for_events clock (Func.dt_to_ics (clock 0%nat)) root
              Impl.header 1) as [[out t]|e] eqn:E;
    cbn [bind]; [|discriminate].
  intros [= <-].
  apply func_for_events_blocks in E as (blocks & -> & HF).
  exists blocks. split; [now rewrite <- app_assoc|]. split; [exact HF|].
  symmetry. exact (Forall2_length _ _ _ HF).
Qed.

Lemma mxl_to_ics_one_block_per_event_witness :
  ∃ blocks,
    Impl.document_lines (λ _, mk_datetime 2026 1 2 3 4 5 6)
      [timed_event; long_summary_event]
    = Ok (Impl.header ++ mjoin blocks ++ ["END:VCALENDAR"])
    ∧ length blocks = 2%nat.
Proof.
  destruct (mxl_to_ics_one_block_per_event (λ _, mk_datetime 2026 1 2 3 4 5 6)
              [timed_event; long_summary_event]
              (match Impl.document_lines (λ _, mk_datetime 2026 1 2 3 4 5 6)
                       [timed_event; long_summary_event] with
               | Ok l => l
               | Raise _ => []
               end))
    as (blocks & H1 & _ & H3); [vm_compute; reflexivity|].
  exists blocks. split; [rewrite <- H1; vm_compute; reflexivity | exact H3].
Defined.

Lemma convert_one_block_per_event_witness :
  ∃ blocks,
    Func.convert (λ _, mk_datetime 2026 1 2 3 4 5 6)
      [timed_event; long_summary_event]
    = Ok (String.concat CRLF (Impl.header ++ mjoin blocks ++ ["END:VCALENDAR"])
          +:+ CRLF)
    ∧ length blocks = 2%nat.
Proof.
  destruct (convert_one_block_per_event (λ _, mk_datetime 2026 1 2 3 4 5 6)
              [timed_event; long_summary_event]
              (match Func.convert (λ _, mk_datetime 2026 1 2 3 4 5 6)
                       [timed_event; long_summary_event] with
               | Ok l => l
               | Raise _ => ""
               end))
    as (blocks & H1 & _ & H3); [vm_compute; reflexivity|].
  exists blocks. split; [rewrite <- H1; vm_compute; reflexivity | exact H3].
Defined.

(** ** What the clock decides *)
Section Clock.

(** Two lines are the same, or both carry one of the [tags]. *)
Definition same_but (tags : list string) (l l' : string) : Prop :=
  l = l' ∨ ∃ tag, tag ∈ tags ∧ startswith tag l = true ∧ startswith tag l' = true.

(** Two runs end the same way: with the same exception, or with results
    related by [R]. *)
Definition same_outcome {A : Type} (R : A → A → Prop) (x y : result A) : Prop :=
  match x, y with
  | Ok a, Ok b => R a b
  | Raise e, Raise e' => e = e'
  | _, _ => False
  end.

Lemma same_but_refl (tags : list string) (ls : list string) :
  Forall2 (same_but tags) ls ls.
Proof. induction ls; constructor; [now left | assumption]. Qed.

Lemma event_block_same_but (tags : list string) (wrap : string → string)
    (ev : event) (sdt edt : option datetime) (rrule : option string)
    (u u' : datetime) (s s' : string) :
  "DTSTAMP:" ∈ tags → u = u' ∨ "UID:" ∈ tags →
  Forall2 (same_but tags) (event_block wrap ev sdt edt rrule u s)
    (event_block wrap ev sdt edt rrule u' s').
Proof.
  intros Hstamp Huid. unfold event_block.
  repeat (apply Forall2_app; [try apply same_but_refl|]).
  - constructor; [|constructor].
    destruct Huid as [->|Hin]; [now left|].
    right. exists "UID:". split; [exact Hin|]. split; reflexivity.
  - constructor; [|apply same_but_refl].
    right. exists "DTSTAMP:". split; [exact Hstamp|]. split; reflexivity.
Qed.

Lemma parsed_start_some (raw : option string) (sdt : option datetime) :
  truthy raw = true →
  parsed Impl.parse_utcdatetime raw = Ok sdt
  ∨ parsed Func.parse_utcdatetime raw = Ok sdt →
  ∃ dt, sdt = Some dt.
Proof.
  unfold parsed. intros Ht. destruct raw as [s|]; [|discriminate].
  rewrite Ht. unfold Impl.parse_utcdatetime, Func.parse_utcdatetime.
  destruct (search_wrapper s) as [iso|].
  - destruct (fromisoformat _) as [dt|]; intros [[= <-]|[= <-]]; eauto.
  - destruct (fromisoformat _) as [dt|]; intros [[= <-]|[= <-]]; eauto.
Qed.

Lemma parsed_start_none (parse : option string → result (option datetime))
    (raw : option string) (sdt : option datetime) :
  truthy raw = false → parsed parse raw = Ok sdt → sdt = None.
Proof. unfold parsed. intros ->. now intros [= <-]. Qed.

Lemma uid_time_clocks (tags : list string) (now now' : nat → datetime)
    (raw : option string) (sdt : option datetime) (t u : nat) :
  truthy raw = true ∨ "UID:" ∈ tags →
  parsed Impl.parse_utcdatetime raw = Ok sdt
  ∨ parsed Func.parse_utcdatetime raw = Ok sdt →
  uid_time now sdt t = uid_time now' sdt u ∨ "UID:" ∈ tags.
Proof.
  intros [Hs|Hin] Hp; [|now right].
  destruct (parsed_start_some raw sdt Hs Hp) as [dt ->]. now left.
Qed.

Lemma impl_for_events_clocks (tags : list string) (now now' : nat → datetime)
    (evs : list event) :
  "DTSTAMP:" ∈ tags →
  Forall (λ ev, truthy (ev_start_date ev) = true ∨ "UID:" ∈ tags) evs →
  ∀ acc acc' t u,
    Forall2 (same_but tags) acc acc' →
    same_outcome (λ p q, Forall2 (same_but tags) p.1 q.1)
      (Impl.for_events now evs acc t) (Impl.for_events now' evs acc' u).
Proof.
  intros Hstamp Hevs. induction Hevs as [|ev evs Hev _ IH];
    intros acc acc' t u Hacc; cbn [Impl.for_events].
  - exact Hacc.
  - rewrite !impl_event_lines_eq.
    destruct (parsed Impl.parse_utcdatetime (ev_start_date ev)) as [sdt|e] eqn:Es;
      [|reflexivity].
    destruct (parsed Impl.parse_utcdatetime (ev_end_date ev)) as [edt|e];
      [|reflexivity].
    destruct (Impl.build_rrule (ev_recurrence ev)) as [rrule|e]; [|reflexivity].
    cbn [bind]. apply IH. apply Forall2_app; [exact Hacc|].
    apply event_block_same_but; [exact Hstamp|].
    apply (uid_time_clocks tags now now' (ev_start_date ev)); auto.
Qed.

Lemma func_for_events_clocks (tags : list string) (clock clock' : nat → datetime)
    (s s' : string) (evs : list event) :
  "DTSTAMP:" ∈ tags →
  Forall (λ ev, truthy (ev_start_date ev) = true ∨ "UID:" ∈ tags) evs →
  ∀ acc acc' t u,
    Forall2 (same_but tags) acc acc' →
    same_outcome (λ p q, Forall2 (same_but tags) p.1 q.1)
      (Func.for_events clock s evs acc t) (Func.for_events clock' s' evs acc' u).
Proof.
  intros Hstamp Hevs. induction Hevs as [|ev evs Hev _ IH];
    intros acc acc' t u Hacc; cbn [Func.for_events].
  - exact Hacc.
  - rewrite !func_event_lines_eq.
    destruct (parsed Func.parse_utcdatetime (ev_start_date ev)) as [sdt|e] eqn:Es;
      [|reflexivity].
    destruct (parsed Func.parse_utcdatetime (ev_end_date ev)) as [edt|e];
      [|reflexivity].
    destruct (Func.build_rrule (ev_recurrence ev)) as [rrule|e]; [|reflexivity].
    cbn [bind]. apply IH. apply Forall2_app; [exact Hacc|].
    apply event_block_same_but; [exact Hstamp|].
    apply (uid_time_clocks tags clock clock' (ev_start_date ev)); auto.
Qed.

Lemma documents_clocks (tags : list string) (now now' : nat → datetime)
    (root : list event) :
  "DTSTAMP:" ∈ tags →
  Forall (λ ev, truthy (ev_start_date ev) = true ∨ "UID:" ∈ tags) root →
  same_outcome (Forall2 (same_but tags))
    (Impl.document_lines now root) (Impl.document_lines now' root)
  ∧ same_outcome (Forall2 (same_but tags))
      (Func.document_lines now root) (Func.document_lines now' root).
Proof.
  intros Hstamp Hevs. split.
  - unfold Impl.document_lines.
    pose proof (impl_for_events_clocks tags now now' root Hstamp Hevs
                  Impl.header Impl.header 0%nat 0%nat
                  (same_but_refl tags Impl.header)) as H.
    destruct (Impl.for_events now root Impl.header 0) as [[l t]|e],
      (Impl.for_events now' root Impl.header 0) as [[l' t']|e'];
      cbn [bind same_outcome] in *; try exact H.
    apply Forall2_app; [exact H | apply same_but_refl].
  - unfold Func.document_lines.
    pose proof (func_for_events_clocks tags now now' (Func.dt_to_ics (now O))
                  (Func.dt_to_ics (now' O)) root Hstamp Hevs
                  Impl.header Impl.header 1%nat 1%nat
                  (same_but_refl tags Impl.header)) as H.
    destruct (Func.for_events now _ root Impl.header 1) as [[l t]|e],
      (Func.for_events now' _ root Impl.header 1) as [[l' t']|e'];
      cbn [bind same_outcome] in *; try exact H.
    apply Forall2_app; [exact H | apply same_but_refl].
Qed.

End Clock.

(** X16.  The time of the run decides nothing but the DTSTAMP and UID
    lines: two runs of [mxl_to_ics] on the same events at different times
    raise the same exception, or give documents of the same number of
    lines that differ at most in lines that both begin with DTSTAMP: or
    both with UID:.  The same holds of [convert]. *)
Theorem clock_only_in_stamp_and_uid (now now' : nat → datetime)
    (root : list event) :
  same_outcome (Forall2 (same_but ["DTSTAMP:"; "UID:"]))
    (Impl.document_lines now root) (Impl.document_lines now' root)
  ∧ same_outcome (Forall2 (same_but ["DTSTAMP:"; "UID:"]))
      (Func.document_lines now root) (Func.document_lines now' root).
Proof.
  apply documents_clocks; [set_solver|].
  apply Forall_forall. intros ev _. right. set_solver.
Qed.

(** X17.  When every event has a start text, the UID lines do not depend
    on the time of the run either: two runs differ at most in their
    DTSTAMP lines. *)
Theorem clock_only_in_stamp (now now' : nat → datetime) (root : list event) :
  Forall (λ ev, truthy (ev_start_date ev) = true) root →
  same_outcome (Forall2 (same_but ["DTSTAMP:"]))
    (Impl.document_lines now root) (Impl.document_lines now' root)
  ∧ same_outcome (Forall2 (same_but ["DTSTAMP:"]))
      (Func.document_lines now root) (Func.document_lines now' root).
Proof.
  intros H. apply documents_clocks; [set_solver|].
  eapply Forall_impl; [exact H|]. intros ev Hev. now left.
Qed.

Lemma clock_only_in_stamp_witness :
  same_outcome (Forall2 (same_but ["DTSTAMP:"]))
    (Impl.document_lines (λ _, mk_datetime 2026 1 2 3 4 5 6)
       [timed_event; long_summary_event])
    (Impl.document_lines (λ n, mk_datetime 2027 2 3 4 5 (Z.of_nat n) 0)
       [timed_event; long_summary_event]).
Proof.
  destruct (clock_only_in_stamp (λ _, mk_datetime 2026 1 2 3 4 5 6)
              (λ n, mk_datetime 2027 2 3 4 5 (Z.of_nat n) 0)
              [timed_event; long_summary_event]) as [H _]; [|exact H].
  repeat constructor.
Defined.

(** ** The two assemblers side by side *)
Section Siblings.

Definition short (l : string) : Prop := (String.length l ≤ 75)%nat.

Lemma fold_ics_line_short (l : string) : short l → Impl.fold_ics_line l = l.
Proof.
  unfold short, Impl.fold_ics_line, Impl.max_len. intros H.
  apply Nat.leb_le in H. now rewrite H.
Qed.

Lemma fmap_fold_short (ls : list string) :
  Forall short ls → Impl.fold_ics_line <$> ls = ls.
Proof.
  induction 1 as [|l ls Hl _ IH]; [reflexivity|].
  cbn [fmap list_fmap]. rewrite (fold_ics_line_short l Hl). f_equal. exact IH.
Qed.

Lemma event_block_short (ev : event) (sdt edt : option datetime)
    (rrule : option string) (u : datetime) (s : string) :
  Forall short (event_block (λ l, l) ev sdt edt rrule u s) →
  event_block Impl.fold_ics_line ev sdt edt rrule u s
  = event_block (λ l, l) ev sdt edt rrule u s.
Proof.
  unfold event_block. rewrite !Forall_app.
  intros (_ & _ & _ & _ & Hs & Hd & Hl & _).
  apply Forall_inv in Hs. rewrite (fold_ics_line_short _ Hs).
  destruct (truthy (ev_description ev));
    [apply Forall_inv in Hd; rewrite (fold_ics_line_short _ Hd)|];
    (destruct (truthy (Some (strip (or_empty (ev_location ev)))));
     [apply Forall_inv in Hl; rewrite (fold_ics_line_short _ Hl)|]);
    reflexivity.
Qed.

Lemma parsed_agree (raw : option string) (x : option datetime) :
  parsed Func.parse_utcdatetime raw = Ok x
  → parsed Impl.parse_utcdatetime raw = Ok x.
Proof.
  unfold parsed. destruct (truthy raw); [|auto].
  apply parse_utcdatetime_agree.
Qed.

Lemma for_events_siblings (c : datetime) (evs : list event) :
  ∀ acc t u out t',
    Func.for_events (λ _, c) (Func.dt_to_ics c) evs acc t = Ok (out, t') →
    Forall short out →
    ∃ u', Impl.for_events (λ _, c) evs acc u = Ok (out, u').
Proof.
  induction evs as [|ev evs IH]; intros acc t u out t';
    cbn [Func.for_events Impl.for_events].
  - intros [= <- <-] _. eauto.
  - rewrite func_event_lines_eq, impl_event_lines_eq.
    destruct (parsed Func.parse_utcdatetime (ev_start_date ev)) as [sdt|e] eqn:Es;
      [|discriminate].
    destruct (parsed Func.parse_utcdatetime (ev_end_date ev)) as [edt|e] eqn:Ee;
      [|discriminate].
    destruct (Func.build_rrule (ev_recurrence ev)) as [rrule|e] eqn:Er;
      [|discriminate].
    rewrite (parsed_agree _ _ Es), (parsed_agree _ _ Ee).
    apply (proj1 (build_rrule_modules _)) in Er. rewrite Er.
    cbn [bind]. intros H Hshort.
    assert (Forall short
              (event_block (λ l, l) ev sdt edt rrule
                 (uid_time (λ _, c) sdt t) (Func.dt_to_ics c))) as Hb.
    { destruct (func_for_events_blocks _ _ _ _ _ _ _ H) as (blocks & -> & _).
      rewrite !Forall_app in Hshort. tauto. }
    replace (uid_time (λ _, c) sdt u) with (uid_time (λ _, c) sdt t)
      by (destruct sdt; reflexivity).
    cbv beta. change (Impl.dt_to_ics c) with (Func.dt_to_ics c).
    rewrite (event_block_short _ _ _ _ _ _ Hb).
    exact (IH _ _ _ _ _ H Hshort).
Qed.

End Siblings.

(** X18.  On a clock that stands still, and when no line of the document
    of [convert] is longer than 75 characters, [mxl_to_ics] writes into
    its output file exactly the text that [convert] returns. *)
Theorem mxl_to_ics_writes_what_convert_returns (c : datetime)
    (root : list event) (text out : string) (fs : gmap string string) :
  Func.convert (λ _, c) root = Ok text →
  (∀ lines, Func.document_lines (λ _, c) root = Ok lines → Forall short lines) →
  Impl.mxl_to_ics (λ _, c) root out fs = (Ok (), <[out := text]> fs).
Proof.
  unfold Func.convert. intros Hc Hshort.
  destruct (Func.document_lines (λ _, c) root) as [lines|e] eqn:Hd;
    [|discriminate].
  cbn [bind] in Hc. injection Hc as <-.
  specialize (Hshort lines eq_refl).
  unfold Func.document_lines in Hd.
  destruct (Func.for_events (λ _, c) (Func.dt_to_ics c) root Impl.header 1)
    as [[body t]|e] eqn:Hf; [|discriminate].
  cbn [bind] in Hd. injection Hd as <-.
  assert (Forall short body) as Hbody
    by (rewrite Forall_app in Hshort; tauto).
  destruct (for_events_siblings c root Impl.header 1 0 body t Hf Hbody)
    as [u' Hi].
  unfold Impl.mxl_to_ics, Impl.document_lines. rewrite Hi. cbn [bind].
  now rewrite (fmap_fold_short _ Hshort).
Qed.

Lemma mxl_to_ics_writes_what_convert_returns_witness :
  ∃ text,
    Func.convert (λ _, mk_datetime 2026 1 2 3 4 5 6) [timed_event] = Ok text
    ∧ Impl.mxl_to_ics (λ _, mk_datetime 2026 1 2 3 4 5 6) [timed_event]
        "out.ics" ∅
      = (Ok (), {[ "out.ics" := text ]}).
Proof.
  eexists. split; [vm_compute; reflexivity|].
  rewrite <- insert_empty.
  apply mxl_to_ics_writes_what_convert_returns; [vm_compute; reflexivity|].
  intros lines [= <-]. repeat constructor.
Defined.

(** ** Which lines an event gets *)
Section Presence.

(** Some line of [lines] begins with [tag]. *)
Definition has_line (tag : string) (lines : list string) : bool :=
  existsb (startswith tag) lines.

Lemma take_app_le (n : nat) (p s : string) :
  (String.length p ≤ n)%nat →
  take n (p +:+ s) = p +:+ take (n - String.length p) s.
Proof.
  revert n. induction p as [|a p IH]; intros n H.
  - simpl. now rewrite Nat.sub_0_r.
  - destruct n as [|n]; [simpl in H; lia|].
    cbn [String.append take String.length Nat.sub]. f_equal.
    apply IH. simpl in H. lia.
Qed.

Lemma fold_ics_line_prefix (p s : string) :
  (String.length p ≤ 75)%nat →
  ∃ r, Impl.fold_ics_line (p +:+ s) = p +:+ r.
Proof.
  intros H. rewrite fold_ics_line_parts.
  destruct (concat_fold_parts_head (p +:+ s)) as [r ->].
  rewrite (take_app_le 75 p s H), app_assoc_str. eauto.
Qed.

Lemma parsed_some_truthy (raw : option string) (x : option datetime) :
  parsed Impl.parse_utcdatetime raw = Ok x
  ∨ parsed Func.parse_utcdatetime raw = Ok x →
  (if truthy raw then ∃ dt, x = Some dt else x = None).
Proof.
  intros H. destruct (truthy raw) eqn:Ht.
  - exact (parsed_start_some raw x Ht H).
  - destruct H as [H|H]; exact (parsed_start_none _ raw x Ht H).
Qed.

Lemma event_block_lines (wrap : string → string) (ev : event)
    (sdt edt : option datetime) (rrule : option string) (u : datetime)
    (s : string) :
  (∀ p x, (String.length p ≤ 75)%nat → ∃ r, wrap (p +:+ x) = p +:+ r) →
  let lines := event_block wrap ev sdt edt rrule u s in
  has_line "UID:" lines = true
  ∧ has_line "SUMMARY:" lines = true
  ∧ has_line "DTSTAMP:" lines = true
  ∧ has_line "DESCRIPTION:" lines = truthy (ev_description ev)
  ∧ has_line "LOCATION:" lines = truthy (Some (strip (or_empty (ev_location ev))))
  ∧ has_line "DTSTART" lines = bool_decide (is_Some sdt)
  ∧ has_line "DTEND" lines = bool_decide (is_Some edt)
  ∧ has_line "RRULE:" lines = truthy rrule.
Proof.
  intros Hwrap. unfold event_block, date_line.
  destruct (Hwrap "SUMMARY:"
              (Impl.ics_escape (Some (strip (or_empty (ev_title ev))))))
    as [r1 ->]; [simpl; lia|].
  destruct (Hwrap "DESCRIPTION:" (Impl.ics_escape (ev_description ev)))
    as [r2 ->]; [simpl; lia|].
  destruct (Hwrap "LOCATION:"
              (Impl.ics_escape (Some (strip (or_empty (ev_location ev))))))
    as [r3 ->]; [simpl; lia|].
  destruct (truthy (ev_description ev)),
    (truthy (Some (strip (or_empty (ev_location ev))))), (truthy rrule),
    sdt, edt, (is_allday ev); cbv zeta; repeat split; reflexivity.
Qed.

End Presence.

(** X19.  Which lines the block of an event has, in [mxl_to_ics] and in
    [convert] alike: always a UID, a SUMMARY and a DTSTAMP line; a
    DESCRIPTION line exactly when the description text is not empty (a
    description of blanks only is kept); a LOCATION line exactly when the
    location is not empty once stripped; a DTSTART and a DTEND line
    exactly when the start and the end text are not empty, each
    independently of the other. *)
Theorem event_lines_presence (now : nat → datetime) (stamp : string)
    (ev : event) (t t' : nat) (lines : list string) :
  Impl.event_lines now ev t = Ok (lines, t')
  ∨ Func.event_lines now stamp ev t = Ok (lines, t') →
  has_line "UID:" lines = true
  ∧ has_line "SUMMARY:" lines = true
  ∧ has_line "DTSTAMP:" lines = true
  ∧ has_line "DESCRIPTION:" lines = truthy (ev_description ev)
  ∧ has_line "LOCATION:" lines = truthy (Some (strip (or_empty (ev_location ev))))
  ∧ has_line "DTSTART" lines = truthy (ev_start_date ev)
  ∧ has_line "DTEND" lines = truthy (ev_end_date ev).
Proof.
  intros H.
  assert (∃ wrap sdt edt rrule u s,
            (∀ p x, (String.length p ≤ 75)%nat → ∃ r, wrap (p +:+ x) = p +:+ r)
            ∧ lines = event_block wrap ev sdt edt rrule u s
            ∧ bool_decide (is_Some sdt) = truthy (ev_start_date ev)
            ∧ bool_decide (is_Some edt) = truthy (ev_end_date ev))
    as (wrap & sdt & edt & rrule & u & s & Hwrap & -> & Hs & He).
  { assert (∀ raw x,
              parsed Impl.parse_utcdatetime raw = Ok x
              ∨ parsed Func.parse_utcdatetime raw = Ok x →
              bool_decide (is_Some x) = truthy raw) as Hp.
    { intros raw x Hx. apply parsed_some_truthy in Hx.
      destruct (truthy raw); [destruct Hx as [dt ->] | subst x]; reflexivity. }
    destruct H as [H|H].
    - apply impl_event_lines_inv in H as (sdt & edt & r & Hs & He & _ & -> & _).
      exists Impl.fold_ics_line, sdt, edt, r. do 2 eexists.
      split; [exact fold_ics_line_prefix|]. split; [reflexivity|].
      split; [exact (Hp _ _ (or_introl Hs)) | exact (Hp _ _ (or_introl He))].
    - apply func_event_lines_inv in H as (sdt & edt & r & Hs & He & _ & -> & _).
      exists (λ l, l), sdt, edt, r. do 2 eexists.
      split; [eauto|]. split; [reflexivity|].
      split; [exact (Hp _ _ (or_intror Hs)) | exact (Hp _ _ (or_intror He))]. }
  destruct (event_block_lines wrap ev sdt edt rrule u s Hwrap)
    as (H1 & H2 & H3 & H4 & H5 & H6 & H7 & _).
  rewrite <- Hs, <- He. auto 10.
Qed.

Definition blank_description_event : event :=
  mk_event (list_to_map [("id", "9")]) (Some "Room booking") (Some "   ")
    None (Some "2022-07-15T19:00:00") (Some "   ") None.

Lemma event_lines_presence_witness :
  ∃ lines,
    Impl.event_lines (λ _, mk_datetime 2026 1 2 3 4 5 6)
      blank_description_event 0 = Ok (lines, 2%nat)
    ∧ has_line "DESCRIPTION:" lines = true
    ∧ has_line "LOCATION:" lines = false
    ∧ has_line "DTSTART" lines = false
    ∧ has_line "DTEND" lines = true.
Proof.
  eexists. split; [vm_compute; reflexivity|].
  destruct (event_lines_presence (λ _, mk_datetime 2026 1 2 3 4 5 6) ""
              blank_description_event 0 2 _ (or_introl eq_refl))
    as (_ & _ & _ & H4 & H5 & H6 & H7).
  repeat split; assumption.
Defined.

(** ** Inputs that the two assemblers accept *)
Section Accepted.

Definition succeeds {A : Type} (r : result A) : Prop := ∃ a, r = Ok a.

Lemma ok_iff_cases {A : Type} (x y : result A) :
  (∀ a, x = Ok a ↔ y = Ok a) →
  (∃ a, x = Ok a ∧ y = Ok a) ∨ (∃ e e', x = Raise e ∧ y = Raise e').
Proof.
  intros H. destruct x as [a|e].
  - left. exists a. split; [reflexivity | now apply H].
  - destruct y as [b|e']; [|right; eauto].
    specialize (H b). destruct H as [_ H]. now specialize (H eq_refl).
Qed.

Lemma parsed_cases_modules (raw : option string) :
  (∃ x, parsed Impl.parse_utcdatetime raw = Ok x
        ∧ parsed Func.parse_utcdatetime raw = Ok x)
  ∨ (∃ e e', parsed Impl.parse_utcdatetime raw = Raise e
             ∧ parsed Func.parse_utcdatetime raw = Raise e').
Proof.
  apply ok_iff_cases. intros x. unfold parsed.
  destruct (truthy raw); [|reflexivity].
  symmetry. apply parse_utcdatetime_agree.
Qed.

Lemma for_events_accepted (now clock : nat → datetime) (s : string)
    (evs : list event) :
  ∀ acc acc' t u,
    succeeds (Impl.for_events now evs acc t)
    ↔ succeeds (Func.for_events clock s evs acc' u).
Proof.
  induction evs as [|ev evs IH]; intros acc acc' t u;
    cbn [Impl.for_events Func.for_events].
  - unfold succeeds. split; eauto.
  - rewrite impl_event_lines_eq, func_event_lines_eq.
    destruct (parsed_cases_modules (ev_start_date ev))
      as [(sdt & -> & ->)|(e & e' & -> & ->)];
      [|split; intros [? [=]]].
    destruct (parsed_cases_modules (ev_end_date ev))
      as [(edt & -> & ->)|(e & e' & -> & ->)];
      [|split; intros [? [=]]].
    destruct (ok_iff_cases _ _
                (λ r, iff_sym (proj1 (build_rrule_modules (ev_recurrence ev)) r)))
      as [(r & -> & ->)|(e & e' & -> & ->)];
      [|split; intros [? [=]]].
    cbn [bind]. apply IH.
Qed.

End Accepted.

(** X20.  The two assemblers accept the same inputs: [mxl_to_ics] writes
    its file for exactly those event lists for which [convert] returns a
    text, whatever the clocks; for all others both raise. *)
Theorem mxl_to_ics_accepts_what_convert_accepts (now clock : nat → datetime)
    (root : list event) (out : string) (fs : gmap string string) :
  (Impl.mxl_to_ics now root out fs).1 = Ok ()
  ↔ ∃ text, Func.convert clock root = Ok text.
Proof.
  pose proof (for_events_accepted now clock (Func.dt_to_ics (clock O)) root
                Impl.header Impl.header 0%nat 1%nat) as H.
  unfold Impl.mxl_to_ics, Impl.document_lines, Func.convert,
    Func.document_lines, succeeds in *.
  destruct (Impl.for_events now root Impl.header 0) as [[l t]|e],
    (Func.for_events clock _ root Impl.header 1) as [[l' t']|e'];
    cbn [bind fst] in *.
  - split; eauto.
  - destruct H as [H _]. destruct H as [? [=]]. eauto.
  - destruct H as [_ H]. destruct H as [? [=]]. eauto.
  - split; [discriminate | intros [? [=]]].
Qed.
